(** * Multi-cloud cost analyzer

    A shallow embedding of [src/python/cost_analyzer/analyzer.py]: the
    pandas pipeline of [MultiCloudCostAnalyzer] ([get_cost_summary],
    [detect_anomalies], [generate_recommendations]) and the properties the
    specification states about it.

    - The DataFrame is the list of its rows, in row order; a Series is the
      list of its labels with their values.
    - The arithmetic of the [cost] column is an interface ([Number]) with
      two instances: the IEEE 754 binary64 numbers that Python's [float]
      is ([binary64], Rocq's primitive floats, which compute), and the real
      numbers ([real_number]), where no operation rounds.
    - pandas treats NaN as a missing value: [sum], [mean], [std] and
      [idxmax] skip it.  Sums are taken left to right.
    - A call that may raise returns a [Result].
    - The adapters ([get_cost_data] of the AWS, Azure and GCP analyzers),
      [generate_cost_report] and [main] are embedded too.  An adapter
      returns what it logs with its outcome; the Cost Explorer client,
      [float], [hash], the clock and [to_csv] are parameters; a
      [datetime] moves day by day through the proleptic Gregorian
      calendar, from year 1 to year 9999. *)

From Stdlib Require Import List String Ascii Bool Arith PeanoNat ZArith Lia.
From Stdlib Require Import Sorting.Sorted Sorting.Permutation.
From Stdlib Require Import DecimalString.
From Stdlib Require Import Floats.
From Stdlib Require Import Reals Lra.
Import ListNotations.

Local Open Scope string_scope.
Local Open Scope list_scope.
Local Open Scope nat_scope.

Set Implicit Arguments.

(** The outcome of a call that may raise. *)
Inductive Result (A : Type) :=
| Returns (value : A)
| Raises (exception : string).
Arguments Returns {A} value.
Arguments Raises {A} exception.

(** ** Keys: the order pandas sorts group labels by *)

Class Ord (K : Type) := { key_compare : K -> K -> comparison }.

Definition key_eqb {K} `{Ord K} (x y : K) : bool :=
  match key_compare x y with Eq => true | _ => false end.

Definition key_ltb {K} `{Ord K} (x y : K) : bool :=
  match key_compare x y with Lt => true | _ => false end.

Class OrdLaws (K : Type) {ord : Ord K} : Prop := {
  key_compare_eq : forall x y : K, key_compare x y = Eq <-> x = y;
  key_compare_antisym : forall x y : K, key_compare y x = CompOpp (key_compare x y);
  key_compare_trans : forall x y z : K,
      key_compare x y = Lt -> key_compare y z = Lt -> key_compare x z = Lt
}.
Arguments OrdLaws K {ord}.

#[export] Instance nat_Ord : Ord nat := {| key_compare := Nat.compare |}.

#[export] Instance Z_Ord : Ord Z := {| key_compare := Z.compare |}.

(** Python compares [str] values by code point, left to right. *)
#[export] Instance string_Ord : Ord string := {| key_compare := String.compare |}.

(** Tuples (the keys of [groupby(['date', 'cloud_provider'])]) compare
    lexicographically. *)
#[export] Instance prod_Ord {A B} `{Ord A} `{Ord B} : Ord (A * B) :=
  {| key_compare := fun x y =>
       match key_compare (fst x) (fst y) with
       | Eq => key_compare (snd x) (snd y)
       | c => c
       end |}.

(** ** Sorting

    [stable_sort lt] is insertion sort: an element moves past those that
    are strictly smaller and stops in front of the first that is not, so
    elements that compare equal keep their relative order.  It stands for
    Python's [sorted], which is stable, for the sort of the group labels,
    which are distinct, and for the sort under [sort_values], taken to be
    stable as the specification asks (numpy's default sort is an insertion
    sort, hence stable, on the short series of this program). *)

Section StableSort.
Context {A : Type}.
Variable lt : A -> A -> bool.

Fixpoint insert (x : A) (l : list A) : list A :=
  match l with
  | [] => [x]
  | y :: l' => if lt y x then y :: insert x l' else x :: l
  end.

Definition stable_sort (l : list A) : list A := fold_right insert [] l.

(** The order of the output, given the order [P] of the input: an element
    comes before another when it is smaller, or when neither is smaller
    and it came first in the input. *)
Definition sorted_before (P : A -> A -> Prop) (a b : A) : Prop :=
  lt a b = true \/ (lt b a = false /\ P a b).
End StableSort.

(** [Series.unique()]: the distinct values in order of first appearance. *)
Fixpoint unique {K} (eqb : K -> K -> bool) (l : list K) : list K :=
  match l with
  | [] => []
  | x :: l' => x :: filter (fun y => negb (eqb x y)) (unique eqb l')
  end.

(** The labels of [groupby(...)]: the distinct keys, sorted ([sort=True]
    is the default). *)
Definition group_keys {K} `{Ord K} (l : list K) : list K :=
  stable_sort key_ltb (unique key_eqb l).

(** [sorted(l, key=key, reverse=True)]: descending by key, and stable. *)
Definition py_sorted_reverse {A K} `{Ord K} (key : A -> K) (l : list A) : list A :=
  stable_sort (fun a b => key_ltb (key b) (key a)) l.

(** [Series.head(n)] and [Series.tail(n)]. *)
Definition head {A} (n : nat) (l : list A) : list A := firstn n l.
Definition tail {A} (n : nat) (l : list A) : list A := skipn (List.length l - n) l.

(** ** Dates *)

(** A naive [datetime]: the calendar day and the time within it (in
    microseconds since midnight). *)
Record datetime := mk_datetime {
  year : nat;
  month : nat;
  day : nat;
  time_of_day : nat
}.

Definition datetime_fields (d : datetime) : nat * (nat * (nat * nat)) :=
  (year d, (month d, (day d, time_of_day d))).

(** Two [datetime]s compare field by field. *)
#[export] Instance datetime_Ord : Ord datetime :=
  {| key_compare := fun a b => key_compare (datetime_fields a) (datetime_fields b) |}.

(** The calendar day of a [datetime], and the days whose year [strftime]
    writes with four digits. *)
Definition calendar_day (d : datetime) : nat * (nat * nat) :=
  (year d, (month d, day d)).

Definition valid_date (d : datetime) : Prop :=
  1000 <= year d < 100 * 100 /\ 1 <= month d <= 12 /\ 1 <= day d <= 31.

Definition digit (n : nat) : ascii := ascii_of_nat (48 + n mod 10).

Definition pad2 (n : nat) : string :=
  String (digit (n / 10)) (String (digit n) EmptyString).

Definition pad4 (n : nat) : string :=
  String (digit (n / 1000)) (String (digit (n / 100)) (pad2 n)).

(** [d.strftime('%Y-%m-%d')]: the year with four digits, month and day
    with two. *)
Definition strftime (d : datetime) : string :=
  (pad4 (year d) ++ "-" ++ pad2 (month d) ++ "-" ++ pad2 (day d))%string.

(** The least and the greatest of a column ([Series.min()], [Series.max()]). *)
Definition key_min {K} `{Ord K} (x : K) (l : list K) : K :=
  fold_left (fun m y => if key_ltb y m then y else m) l x.
Definition key_max {K} `{Ord K} (x : K) (l : list K) : K :=
  fold_left (fun m y => if key_ltb m y then y else m) l x.

(** ** Numbers: the arithmetic of the [cost] column *)

Class Number (F : Type) := {
  add : F -> F -> F;
  sub : F -> F -> F;
  mul : F -> F -> F;
  div : F -> F -> F;
  sqrt : F -> F;
  abs : F -> F;
  ltb : F -> F -> bool;          (* x < y *)
  eqb : F -> F -> bool;          (* x == y *)
  of_nat : nat -> F;             (* an int used as a float *)
  nan : F;                       (* np.nan *)
  lit_1_2 : F                    (* the literal 1.2 *)
}.

(** [f"{x:.2f}"] and [f"{x:.1f}"]: fixed-point formatting with the given
    number of decimals. *)
Class Formatter (F : Type) := { format_fixed : nat -> F -> string }.

Section Analyzer.
Context {F : Type} {num : Number F}.

Definition zero : F := of_nat 0.

(** [x != x], which is how a NaN is recognised. *)
Definition isnan (x : F) : bool := negb (eqb x x).
Definition notna (x : F) : bool := eqb x x.

(** *** pandas reductions (all with [skipna=True]) *)

(** The plain left-to-right sum, Python's [sum(...)]. *)
Definition fsum (l : list F) : F := fold_left add l zero.

(** [Series.sum()]: NaN entries are left out. *)
Definition pd_sum (l : list F) : F := fsum (filter notna l).

(** [Series.mean()]: the sum over the count of the entries that are not
    NaN (0/0 on an empty series). *)
Definition pd_mean (l : list F) : F :=
  let values := filter notna l in
  div (fsum values) (of_nat (List.length values)).

(** [Series.std()]: the sample standard deviation ([ddof=1]), NaN when
    fewer than two entries are left. *)
Definition pd_std (l : list F) : F :=
  let values := filter notna l in
  let count := List.length values in
  if count <=? 1 then nan
  else
    let avg := div (fsum values) (of_nat count) in
    let sqr := map (fun x => mul (sub avg x) (sub avg x)) values in
    sqrt (div (fsum sqr) (sub (of_nat count) (of_nat 1))).

(** *** The data model *)

(** The dataclass [CostData]. *)
Record CostData := mk_CostData {
  cd_service : string;
  cd_cost : F;
  cd_currency : string;
  cd_date : datetime;
  cd_cloud_provider : string;
  cd_resource_id : option string;
  cd_tags : option (list (string * string))
}.

(** One row of the DataFrame built in [generate_cost_report]. *)
Record Row := mk_Row {
  date : datetime;
  cloud_provider : string;
  service : string;
  cost : F;
  currency : string
}.

Definition DataFrame := list Row.

(** The comprehension at the end of [generate_cost_report]. *)
Definition to_frame (all_cost_data : list CostData) : DataFrame :=
  map (fun item =>
         {| date := cd_date item;
            cloud_provider := cd_cloud_provider item;
            service := cd_service item;
            cost := cd_cost item;
            currency := cd_currency item |}) all_cost_data.

(** What one row adds to a [sum()]: its cost, or nothing when it is NaN. *)
Definition contribution (r : Row) : F := if notna (cost r) then cost r else zero.

(** [df.empty] *)
Definition empty (df : DataFrame) : bool :=
  match df with [] => true | _ => false end.

(** A Series: its index labels with their values, in order. *)
Definition Series (K : Type) := list (K * F).

Definition values {K} (s : Series K) : list F := map snd s.

(** [df.groupby(key)['cost'].sum()]: one entry per distinct key, in key
    order, holding the sum of the costs of the rows with that key. *)
Definition groupby_sum {K} `{Ord K} (key : Row -> K) (df : DataFrame) : Series K :=
  map (fun k => (k, pd_sum (map cost (filter (fun r => key_eqb (key r) k) df))))
      (group_keys (map key df)).

(** [s.sort_values(ascending=False)]: pandas sets the NaN entries aside,
    reverses the rest, sorts it ascending, reverses the result, and puts
    the NaN entries last. *)
Definition sort_values_descending {K} (s : Series K) : Series K :=
  rev (stable_sort (fun a b => ltb (snd a) (snd b))
                   (rev (filter (fun e => notna (snd e)) s)))
  ++ filter (fun e => isnan (snd e)) s.

(** [s.idxmax()]: the label of the first greatest entry, NaN entries
    skipped. *)
Definition idxmax {K} (s : Series K) : option K :=
  match filter (fun e => notna (snd e)) s with
  | [] => None
  | e :: s' =>
      Some (fst (fold_left (fun best x => if ltb (snd best) (snd x) then x else best) s' e))
  end.

(** [s[label]] *)
Definition loc {K} `{Ord K} (s : Series K) (label : K) : F :=
  match find (fun e => key_eqb (fst e) label) s with
  | Some e => snd e
  | None => nan
  end.

(** The ranking behind both "top services" lists. *)
Definition top_services (n : nat) (df : DataFrame) : Series string :=
  head n (sort_values_descending (groupby_sum service df)).

(** *** get_cost_summary *)

Record Summary := mk_Summary {
  total_cost : F;
  average_daily_cost : F;
  cost_by_provider : Series string;
  cost_by_service : Series string;
  date_range_start : string;
  date_range_end : string
}.

Inductive SummaryResult :=
| SummaryError (error : string)
| SummaryOk (summary : Summary).

Definition get_cost_summary (df : DataFrame) : SummaryResult :=
  match df with
  | [] => SummaryError "No cost data available"
  | r :: rest =>
      SummaryOk
        {| total_cost := pd_sum (map cost df);
           average_daily_cost := pd_mean (values (groupby_sum date df));
           cost_by_provider := groupby_sum cloud_provider df;
           cost_by_service := top_services 10 df;
           date_range_start := strftime (key_min (date r) (map date rest));
           date_range_end := strftime (key_max (date r) (map date rest)) |}
  end.

(** *** detect_anomalies *)

Context {fmt : Formatter F}.

Record Anomaly := mk_Anomaly {
  a_date : string;
  a_provider : string;
  a_cost : F;
  a_expected_range : string;
  a_severity : string
}.

(** [df.groupby(['date', 'cloud_provider'])['cost'].sum().reset_index()] *)
Definition daily_costs (df : DataFrame) : Series (datetime * string) :=
  groupby_sum (fun r => (date r, cloud_provider r)) df.

(** [daily_costs['cloud_provider'].unique()] *)
Definition providers (dc : Series (datetime * string)) : list string :=
  unique String.eqb (map (fun row => snd (fst row)) dc).

(** [daily_costs[daily_costs['cloud_provider'] == provider]] *)
Definition provider_data (dc : Series (datetime * string)) (provider : string)
  : Series (datetime * string) :=
  filter (fun row => String.eqb (snd (fst row)) provider) dc.

Definition z_score (x mean_cost std_cost : F) : F :=
  if ltb zero std_cost then div (sub x mean_cost) std_cost else zero.

Definition expected_range (mean_cost std_cost threshold : F) : string :=
  (format_fixed 2 (sub mean_cost (mul threshold std_cost)) ++ " - " ++
   format_fixed 2 (add mean_cost (mul threshold std_cost)))%string.

(** The body of the loop over one provider's rows. *)
Definition provider_anomalies (threshold : F) (pdata : Series (datetime * string))
  : list Anomaly :=
  let mean_cost := pd_mean (values pdata) in
  let std_cost := pd_std (values pdata) in
  flat_map (fun row =>
              let z := z_score (snd row) mean_cost std_cost in
              if ltb threshold (abs z) then
                [ {| a_date := strftime (fst (fst row));
                     a_provider := snd (fst row);
                     a_cost := snd row;
                     a_expected_range := expected_range mean_cost std_cost threshold;
                     a_severity := if ltb (of_nat 3) (abs z) then "high" else "medium" |} ]
              else [])
           pdata.

(** The list [anomalies] before the final sort. *)
Definition anomalies_found (df : DataFrame) (threshold : F) : list Anomaly :=
  let dc := daily_costs df in
  flat_map (fun provider => provider_anomalies threshold (provider_data dc provider))
           (providers dc).

Definition detect_anomalies (df : DataFrame) (threshold : F) : list Anomaly :=
  if empty df then []
  else py_sorted_reverse a_date (anomalies_found df threshold).

(** The default [threshold=2.0]. *)
Definition default_threshold : F := of_nat 2.

(** *** generate_recommendations *)

Definition no_data_message : string := "No data available for recommendations".

Definition service_recommendation (e : string * F) : string :=
  ("Review " ++ fst e ++ " usage - accounts for $" ++ format_fixed 2 (snd e)
     ++ " in costs")%string.

Definition provider_recommendation (max_provider : string) (share : F) : string :=
  ("Consider workload distribution - " ++ max_provider ++ " accounts for "
     ++ format_fixed 1 share ++ "% of costs")%string.

Definition spike_warning : string :=
  "Recent costs are 20% above average - investigate recent deployments".

Definition service_recommendations (df : DataFrame) : list string :=
  map service_recommendation (top_services 3 df).

(** The provider line.  [idxmax] has no label to return when every
    provider total is NaN (a total is NaN only when the costs of a provider
    hold infinities of both signs); the lookup [provider_costs[max_provider]]
    then raises. *)
Definition provider_recommendations (df : DataFrame) : Result (list string) :=
  let provider_costs := groupby_sum cloud_provider df in
  if 1 <? List.length provider_costs then
    match idxmax provider_costs with
    | Some max_provider =>
        Returns
          [ provider_recommendation max_provider
              (mul (div (loc provider_costs max_provider) (pd_sum (values provider_costs)))
                   (of_nat 100)) ]
    | None => Raises "KeyError"
    end
  else Returns [].

(** [recent_avg > overall_avg * 1.2] on the daily totals. *)
Definition recent_above_average (daily_trend : Series datetime) : bool :=
  let recent_avg := pd_mean (values (tail 7 daily_trend)) in
  let overall_avg := pd_mean (values daily_trend) in
  ltb (mul overall_avg lit_1_2) recent_avg.

Definition trend_recommendations (df : DataFrame) : list string :=
  let daily_trend := groupby_sum date df in
  if 7 <? List.length daily_trend then
    if recent_above_average daily_trend then [spike_warning] else []
  else [].

Definition generate_recommendations (df : DataFrame) : Result (list string) :=
  if empty df then Returns [no_data_message]
  else
    match provider_recommendations df with
    | Returns provider_lines =>
        Returns (service_recommendations df ++ provider_lines ++ trend_recommendations df)
    | Raises exception => Raises exception
    end.

End Analyzer.

Arguments CostData F : clear implicits.
Arguments Row F : clear implicits.
Arguments DataFrame F : clear implicits.
Arguments Series F K : clear implicits.
Arguments Summary F : clear implicits.
Arguments SummaryResult F : clear implicits.
Arguments SummaryError {F} error.
Arguments SummaryOk {F} summary.
Arguments Anomaly F : clear implicits.

(** ** Notions used in the properties *)



(** Addition without rounding: associative, commutative, with unit 0. *)
Definition exact_addition {F} (num : Number F) : Prop :=
  (forall a b c : F, add a (add b c) = add (add a b) c)
  /\ (forall a b : F, add a b = add b a)
  /\ (forall a : F, add zero a = a).

(** ** binary64: Python's [float] *)

Definition float_of_nat (n : nat) : float :=
  PrimFloat.of_uint63 (Uint63.of_Z (Z.of_nat n)).

#[export] Instance binary64 : Number float := {|
  add := PrimFloat.add;
  sub := PrimFloat.sub;
  mul := PrimFloat.mul;
  div := PrimFloat.div;
  sqrt := PrimFloat.sqrt;
  abs := PrimFloat.abs;
  ltb := PrimFloat.ltb;
  eqb := PrimFloat.eqb;
  of_nat := float_of_nat;
  nan := PrimFloat.nan;
  lit_1_2 := 0x1.3333333333333p+0%float
|}.

(** The decimal digits of a natural number. *)
Definition decimal (n : N) : string := NilZero.string_of_uint (N.to_uint n).

Fixpoint zeros (k : nat) : string :=
  match k with O => EmptyString | S k' => String "0" (zeros k') end.

Definition zero_pad (width : nat) (s : string) : string :=
  (zeros (width - String.length s) ++ s)%string.

(** [m * 2^e * 10^digits], rounded to the nearest integer, ties to even:
    the correctly rounded decimal that [format(x, '.<digits>f')] prints. *)
Definition round_scaled (digits : nat) (m : positive) (e : Z) : N :=
  let num := (Z.pos m * 10 ^ Z.of_nat digits)%Z in
  if (0 <=? e)%Z then Z.to_N (num * 2 ^ e)%Z
  else
    let den := (2 ^ (- e))%Z in
    let q := (num / den)%Z in
    let r := (num mod den)%Z in
    let up := orb (den <? 2 * r)%Z (andb (den =? 2 * r)%Z (Z.odd q)) in
    Z.to_N (if up then q + 1 else q)%Z.

Definition fixed_digits (digits : nat) (sign : bool) (scaled : N) : string :=
  let unit := (10 ^ N.of_nat digits)%N in
  ((if sign then "-" else "")
   ++ decimal (scaled / unit)
   ++ (if Nat.eqb digits 0 then ""
       else "." ++ zero_pad digits (decimal (scaled mod unit))))%string.

Definition float_format_fixed (digits : nat) (x : float) : string :=
  match Prim2SF x with
  | S754_nan => "nan"
  | S754_infinity s => if s then "-inf" else "inf"
  | S754_zero s => fixed_digits digits s 0
  | S754_finite s m e => fixed_digits digits s (round_scaled digits m e)
  end.

#[export] Instance float_Formatter : Formatter float :=
  {| format_fixed := float_format_fixed |}.

(** A dataset without infinite costs (a NaN cost is a missing value, which
    the sums skip). *)
Definition no_infinite_cost (df : DataFrame float) : Prop :=
  Forall (fun r => PrimFloat.is_infinity (cost r) = false) df.

(** The finite numbers of the specification of binary64. *)
Definition sf_finite (s : spec_float) : Prop :=
  match s with S754_zero _ | S754_finite _ _ _ => True | _ => False end.

(** A key that orders the numbers as [<] does: the class first (negative
    infinity, negative, zero, positive, positive infinity), then exponent
    and mantissa. *)
Definition float_key (s : spec_float) : Z * (Z * Z) :=
  match s with
  | S754_infinity true => (-2, (0, 0))%Z
  | S754_finite true m e => (-1, (- e, Z.neg m))%Z
  | S754_zero _ | S754_nan => (0, (0, 0))%Z
  | S754_finite false m e => (1, (e, Z.pos m))%Z
  | S754_infinity false => (2, (0, 0))%Z
  end.

Definition fkey (x : float) : Z * (Z * Z) := float_key (Prim2SF x).

(** ** The example scenario of the specification

    Three providers report 100 a day from 2024-01-01 to 2024-01-10, except
    that AWS reports 500 on 2024-01-05. *)

Definition jan (d : nat) : datetime := mk_datetime 2024 1 d 0.

Definition scenario_row (provider : string) (d : nat) (c : nat) : Row float :=
  {| date := jan d; cloud_provider := provider; service := "Compute";
     cost := float_of_nat c; currency := "USD" |}.

Definition scenario : DataFrame float :=
  map (fun d => scenario_row "AWS" d (if d =? 5 then 500 else 100)) (seq 1 10)
  ++ map (fun d => scenario_row "Azure" d 100) (seq 1 10)
  ++ map (fun d => scenario_row "GCP" d 100) (seq 1 10).

(** ** Exact arithmetic: the real numbers *)

Definition Rltb (x y : R) : bool := if Rlt_dec x y then true else false.
Definition Reqb (x y : R) : bool := if Req_dec_T x y then true else false.

(** The real numbers have no NaN: [0/0] stands in its place. *)
#[export] Instance real_number : Number R := {|
  add := Rplus;
  sub := Rminus;
  mul := Rmult;
  div := Rdiv;
  sqrt := R_sqrt.sqrt;
  abs := Rabs;
  ltb := Rltb;
  eqb := Reqb;
  of_nat := INR;
  nan := (0 / 0)%R;
  lit_1_2 := (12 / 10)%R
|}.

(** ** Further datasets *)


(** Twelve days of AWS at 100 a day, except 500 on 2024-01-05 and on
    2024-01-10. *)
Definition two_spikes : DataFrame float :=
  map (fun d => scenario_row "AWS" d (if orb (d =? 5) (d =? 10) then 500 else 100))
      (seq 1 12).

(** Three days of AWS at a constant daily cost. *)
Definition constant_scenario (c : float) : DataFrame float :=
  map (fun d => {| date := jan d; cloud_provider := "AWS"; service := "Compute";
                   cost := c; currency := "USD" |}) (seq 1 3).

(** Two services with the same total, [B] recorded before [A]. *)
Definition tie_scenario : DataFrame float :=
  [ {| date := jan 1; cloud_provider := "AWS"; service := "B";
       cost := 10%float; currency := "USD" |};
    {| date := jan 1; cloud_provider := "AWS"; service := "A";
       cost := 10%float; currency := "USD" |} ].

(** Costs 0.2 (AWS), 0.1 (Azure), 0.3 (AWS): the total and the provider
    totals add them in different orders. *)
Definition rounding_example : DataFrame float :=
  [ {| date := jan 1; cloud_provider := "AWS"; service := "Compute";
       cost := 0x1.999999999999ap-3%float; currency := "USD" |};
    {| date := jan 1; cloud_provider := "Azure"; service := "Compute";
       cost := 0x1.999999999999ap-4%float; currency := "USD" |};
    {| date := jan 1; cloud_provider := "AWS"; service := "Compute";
       cost := 0x1.3333333333333p-2%float; currency := "USD" |} ].

(** Two providers whose costs hold infinities of both signs: every provider
    total is NaN. *)
Definition infinite_costs : DataFrame float :=
  flat_map (fun p => [ {| date := jan 1; cloud_provider := p; service := "Compute";
                          cost := infinity; currency := "USD" |};
                       {| date := jan 1; cloud_provider := p; service := "Compute";
                          cost := neg_infinity; currency := "USD" |} ])
           ["AWS"; "Azure"].

(** A dataset over the real numbers. *)
Definition real_example : DataFrame R :=
  [ {| date := jan 1; cloud_provider := "AWS"; service := "Compute";
       cost := 3%R; currency := "USD" |};
    {| date := jan 1; cloud_provider := "Azure"; service := "Storage";
       cost := 4%R; currency := "USD" |} ].

(** The daily totals of AWS in the scenario. *)
Definition scenario_aws_series : list float :=
  values (provider_data (daily_costs scenario) "AWS").

(** ** The claims of the specification that fail as stated *)

(** The claim of the specification for the scenario: the total is 3400 and
    the AWS record of 2024-01-05 is flagged with severity [high]. *)
Definition scenario_claim : Prop :=
  (exists s : Summary float,
      get_cost_summary scenario = SummaryOk s /\ total_cost s = 3400%float)
  /\ exists a : Anomaly float,
      In a (detect_anomalies scenario default_threshold)
      /\ a_date a = "2024-01-05" /\ a_provider a = "AWS" /\ a_severity a = "high".


(** The single-date claim: a provider whose records all fall on one date
    is never reported, whatever the threshold. *)
Definition single_date_claim : Prop :=
  forall (df : DataFrame float) (provider : string) (d : datetime) (threshold : float),
    (forall r, In r df -> cloud_provider r = provider -> date r = d) ->
    forall a, In a (detect_anomalies df threshold) -> a_provider a <> provider.


(** * The adapters, the report and [main] *)

(** ** Calls that may raise, in sequence *)

Definition bind {A B} (r : Result A) (k : A -> Result B) : Result B :=
  match r with
  | Returns a => k a
  | Raises exception => Raises exception
  end.

Notation "x <- r ;; k" := (bind r (fun x => k))
  (at level 61, r at next level, right associativity).

(** [d[key]] on a dict that may lack the key. *)
Definition getitem {A} (entry : option A) : Result A :=
  match entry with
  | Some a => Returns a
  | None => Raises "KeyError"
  end.

(** ** The calendar *)

(** [datetime.MAXYEAR] *)
Definition MAXYEAR : nat := 100 * 100 - 1.

Definition is_leap (y : nat) : bool :=
  Nat.eqb (y mod 4) 0 && (negb (Nat.eqb (y mod 100) 0) || Nat.eqb (y mod 400) 0).

Definition days_in_month (y m : nat) : nat :=
  match m with
  | 2 => if is_leap y then 29 else 28
  | 4 | 6 | 9 | 11 => 30
  | _ => 31
  end.

(** The days of the proleptic Gregorian calendar that a [datetime] can
    hold. *)
Definition calendar_date (d : datetime) : Prop :=
  1 <= year d <= MAXYEAR
  /\ 1 <= month d <= 12
  /\ 1 <= day d <= days_in_month (year d) (month d).

(** [d + timedelta(days=1)]: the same time on the next day. *)
Definition next_day (d : datetime) : Result datetime :=
  if day d <? days_in_month (year d) (month d) then
    Returns (mk_datetime (year d) (month d) (day d + 1) (time_of_day d))
  else if month d <? 12 then
    Returns (mk_datetime (year d) (month d + 1) 1 (time_of_day d))
  else if year d <? MAXYEAR then
    Returns (mk_datetime (year d + 1) 1 1 (time_of_day d))
  else Raises "OverflowError".

(** [d - timedelta(days=1)] *)
Definition previous_day (d : datetime) : Result datetime :=
  if 1 <? day d then
    Returns (mk_datetime (year d) (month d) (day d - 1) (time_of_day d))
  else if 1 <? month d then
    Returns (mk_datetime (year d) (month d - 1)
                         (days_in_month (year d) (month d - 1)) (time_of_day d))
  else if 1 <? year d then
    Returns (mk_datetime (year d - 1) 12 31 (time_of_day d))
  else Raises "OverflowError".

Fixpoint add_days (n : nat) (d : datetime) : Result datetime :=
  match n with
  | 0 => Returns d
  | S n' => d' <- next_day d ;; add_days n' d'
  end.

Fixpoint sub_days (n : nat) (d : datetime) : Result datetime :=
  match n with
  | 0 => Returns d
  | S n' => d' <- previous_day d ;; sub_days n' d'
  end.

(** [d - timedelta(days=days)] for an [int] number of days. *)
Definition minus_days (d : datetime) (days : Z) : Result datetime :=
  if (0 <=? days)%Z then sub_days (Z.to_nat days) d
  else add_days (Z.to_nat (- days)) d.

(** [str(d)]: the date, a space, the time, and the microseconds when there
    are any. *)
Definition str_datetime (d : datetime) : string :=
  let t := N.of_nat (time_of_day d) in
  let seconds := (t / 1000000)%N in
  let microsecond := (t mod 1000000)%N in
  (strftime d ++ " "
   ++ pad2 (N.to_nat (seconds / 3600)) ++ ":"
   ++ pad2 (N.to_nat ((seconds / 60) mod 60)) ++ ":"
   ++ pad2 (N.to_nat (seconds mod 60))
   ++ (if (microsecond =? 0)%N then EmptyString
       else "." ++ zero_pad 6 (decimal microsecond)))%string.

(** [int(c)] for one character. *)
Definition digit_value (c : ascii) : option nat :=
  let n := nat_of_ascii c in
  if (48 <=? n) && (n <=? 57) then Some (n - 48) else None.

(** The field [%m] of [strptime]: [1[0-2]|0[1-9]|[1-9]]. *)
Definition parse_month (s : string) : option nat :=
  match s with
  | String a EmptyString =>
      match digit_value a with
      | Some x => if 1 <=? x then Some x else None
      | None => None
      end
  | String a (String b EmptyString) =>
      match digit_value a, digit_value b with
      | Some 1, Some y => if y <=? 2 then Some (10 + y) else None
      | Some 0, Some y => if 1 <=? y then Some y else None
      | _, _ => None
      end
  | _ => None
  end.

(** The field [%d] of [strptime]: [3[0-1]|[1-2]\d|0[1-9]|[1-9]| [1-9]]. *)
Definition parse_day (s : string) : option nat :=
  match s with
  | String a EmptyString =>
      match digit_value a with
      | Some x => if 1 <=? x then Some x else None
      | None => None
      end
  | String a (String b EmptyString) =>
      if Ascii.eqb a " " then
        match digit_value b with
        | Some y => if 1 <=? y then Some y else None
        | None => None
        end
      else
        match digit_value a, digit_value b with
        | Some 3, Some y => if y <=? 1 then Some (30 + y) else None
        | Some 2, Some y => Some (20 + y)
        | Some 1, Some y => Some (10 + y)
        | Some 0, Some y => if 1 <=? y then Some y else None
        | _, _ => None
        end
  | _ => None
  end.

(** The text up to the first ['-'], and the text after it. *)
Fixpoint split_dash (s : string) : option (string * string) :=
  match s with
  | EmptyString => None
  | String c s' =>
      if Ascii.eqb c "-" then Some (EmptyString, s')
      else match split_dash s' with
           | Some (field, rest) => Some (String c field, rest)
           | None => None
           end
  end.

(** [datetime.strptime(s, '%Y-%m-%d')]: four digits, a dash, a month, a
    dash and a day, which have to name a day of the calendar; the time is
    midnight. *)
Definition strptime (s : string) : Result datetime :=
  match s with
  | String y1 (String y2 (String y3 (String y4 (String dash rest)))) =>
      match digit_value y1, digit_value y2, digit_value y3, digit_value y4,
            split_dash rest with
      | Some a, Some b, Some c, Some d, Some (m, dd) =>
          match parse_month m, parse_day dd with
          | Some mm, Some ddd =>
              let y := 1000 * a + 100 * b + 10 * c + d in
              if Ascii.eqb dash "-" && (1 <=? y) && (ddd <=? days_in_month y mm)
              then Returns (mk_datetime y mm ddd 0)
              else Raises "ValueError"
          | _, _ => Raises "ValueError"
          end
      | _, _, _, _, _ => Raises "ValueError"
      end
  | _ => Raises "ValueError"
  end.

(** ** The adapters *)

(** What the program hands to [logging]. *)
Inductive LogRecord :=
| Retrieved (count : nat) (provider : string)   (* info: "Retrieved n cost records from p" *)
| FailedToGetData (provider : string) (exception : string)
| ErrorFetching (cloud : string) (exception : string).

(** The response of Cost Explorer's [get_cost_and_usage], as [boto3]
    hands it over: nested dicts in which a key may be missing. *)
Record MetricValue := mk_MetricValue {
  Amount : option string;
  Unit : option string
}.

Record Group := mk_Group {
  Keys : option (list string);
  Metrics : option (list (string * MetricValue))
}.

Record DateInterval := mk_DateInterval {
  Start : option string
}.

Record ResultByTime := mk_ResultByTime {
  TimePeriod : option DateInterval;
  Groups : option (list Group)
}.

Record Response := mk_Response {
  ResultsByTime : option (list ResultByTime)
}.

(** [metrics[name]] *)
Definition metric (name : string) (metrics : list (string * MetricValue))
  : option MetricValue :=
  match find (fun entry => String.eqb (fst entry) name) metrics with
  | Some entry => Some (snd entry)
  | None => None
  end.

Section Adapters.
Context {F : Type} {num : Number F}.

(** An adapter's [get_cost_data(start_date, end_date)]: what it logs, and
    the records it returns or the exception it raises. *)
Definition Adapter : Type :=
  datetime -> datetime -> list LogRecord * Result (list (CostData F)).

(** [CloudCostAnalyzer.get_cost_data] *)
Definition CloudCostAnalyzer_get_cost_data : Adapter :=
  fun start_date end_date => ([], Raises "NotImplementedError").

(** *** AWS *)

(** [float(s)], which raises [ValueError] on a string that is no number. *)
Variable float_of_string : string -> Result F.

(** The body of the loop over the groups of one result. *)
Definition aws_cost_data (date : datetime) (group : Group) : Result (CostData F) :=
  keys <- getitem (Keys group) ;;
  service <- match keys with
             | key :: _ => Returns key
             | [] => Raises "IndexError"
             end ;;
  metrics <- getitem (Metrics group) ;;
  blended_cost <- getitem (metric "BlendedCost" metrics) ;;
  amount <- getitem (Amount blended_cost) ;;
  cost <- float_of_string amount ;;
  currency <- getitem (Unit blended_cost) ;;
  Returns {| cd_service := service;
             cd_cost := cost;
             cd_currency := currency;
             cd_date := date;
             cd_cloud_provider := "AWS";
             cd_resource_id := None;
             cd_tags := None |}.

Fixpoint aws_groups (date : datetime) (groups : list Group) (cost_data : list (CostData F))
  : Result (list (CostData F)) :=
  match groups with
  | [] => Returns cost_data
  | group :: groups' =>
      item <- aws_cost_data date group ;;
      aws_groups date groups' (cost_data ++ [item])
  end.

Fixpoint aws_results (results : list ResultByTime) (cost_data : list (CostData F))
  : Result (list (CostData F)) :=
  match results with
  | [] => Returns cost_data
  | result :: results' =>
      time_period <- getitem (TimePeriod result) ;;
      start <- getitem (Start time_period) ;;
      date <- strptime start ;;
      groups <- getitem (Groups result) ;;
      cost_data' <- aws_groups date groups cost_data ;;
      aws_results results' cost_data'
  end.

(** [AWSCostAnalyzer.get_cost_data]; [client] is the call of
    [get_cost_and_usage] with the two dates of [TimePeriod]. *)
Definition AWSCostAnalyzer_get_cost_data (client : string -> string -> Result Response)
  : Adapter :=
  fun start_date end_date =>
    match (response <- client (strftime start_date) (strftime end_date) ;;
           results <- getitem (ResultsByTime response) ;;
           aws_results results [])
    with
    | Returns cost_data => ([], Returns cost_data)
    | Raises exception => ([ErrorFetching "AWS" exception], Returns [])
    end.

(** *** Azure and GCP: generated data *)

(** Python's [hash] of a [str]: fixed within one run of the program. *)
Variable hash : string -> Z.

(** One generated record: [round(base + (hash(service + str(current_date))
    % modulus), 2)] is an [int], which [round] leaves as it is. *)
Definition mock_cost_data (cloud : string) (base modulus : Z) (current_date : datetime)
           (service : string) : CostData F :=
  {| cd_service := service;
     cd_cost := of_nat (Z.to_nat (base + hash (service ++ str_datetime current_date)%string
                                         mod modulus));
     cd_currency := "USD";
     cd_date := current_date;
     cd_cloud_provider := cloud;
     cd_resource_id := None;
     cd_tags := None |}.

(** The rounds of [while current_date <= end_date].  [rounds] bounds their
    number; [None] is returned when the bound is reached. *)
Fixpoint mock_loop (rounds : nat) (cloud : string) (services : list string)
         (base modulus : Z) (current_date end_date : datetime)
         (cost_data : list (CostData F)) : option (Result (list (CostData F))) :=
  match rounds with
  | 0 => None
  | S rounds' =>
      if key_ltb end_date current_date then Some (Returns cost_data)
      else
        let cost_data' :=
          cost_data ++ map (mock_cost_data cloud base modulus current_date) services in
        match next_day current_date with
        | Returns tomorrow =>
            mock_loop rounds' cloud services base modulus tomorrow end_date cost_data'
        | Raises exception => Some (Raises exception)
        end
  end.

(** A number that grows by at least one from a day to the next. *)
Definition day_number (d : datetime) : nat :=
  (year d * 12 + month d) * 31 + day d.

(** A bound on the rounds of the loop from [start_date] to [end_date]. *)
Definition rounds_between (start_date end_date : datetime) : nat :=
  S (S (day_number end_date) - day_number start_date).

Definition mock_get_cost_data (cloud : string) (services : list string) (base modulus : Z)
  : Adapter :=
  fun start_date end_date =>
    match mock_loop (rounds_between start_date end_date) cloud services base modulus
                    start_date end_date [] with
    | Some (Returns cost_data) => ([], Returns cost_data)
    | Some (Raises exception) => ([ErrorFetching cloud exception], Returns [])
    | None => ([], Returns [])
    end.

(** [AzureCostAnalyzer.get_cost_data] *)
Definition AzureCostAnalyzer_get_cost_data : Adapter :=
  mock_get_cost_data "Azure" ["Compute"; "Storage"; "Networking"; "Database"] 50 100.

(** [GCPCostAnalyzer.get_cost_data] *)
Definition GCPCostAnalyzer_get_cost_data : Adapter :=
  mock_get_cost_data "GCP" ["Compute Engine"; "Cloud Storage"; "BigQuery"; "Cloud SQL"]
                     30 80.

(** *** The report *)

(** The loop of [generate_cost_report] over [self.analyzers.items()]: the
    records collected and the log written. *)
Fixpoint collect (analyzers : list (string * Adapter)) (start_date end_date : datetime)
         (all_cost_data : list (CostData F)) (log : list LogRecord)
  : list (CostData F) * list LogRecord :=
  match analyzers with
  | [] => (all_cost_data, log)
  | (provider, analyzer) :: analyzers' =>
      match analyzer start_date end_date with
      | (written, Returns cost_data) =>
          collect analyzers' start_date end_date
                  (all_cost_data ++ cost_data)
                  (log ++ written ++ [Retrieved (List.length cost_data) provider])
      | (written, Raises exception) =>
          collect analyzers' start_date end_date
                  all_cost_data
                  (log ++ written ++ [FailedToGetData provider exception])
      end
  end.

(** [generate_cost_report(days_back)], called at the time [now]: the
    DataFrame and what was logged. *)
Definition generate_cost_report (analyzers : list (string * Adapter)) (now : datetime)
           (days_back : Z) : Result (DataFrame F * list LogRecord) :=
  start_date <- minus_days now days_back ;;
  let (all_cost_data, log) := collect analyzers start_date now [] [] in
  Returns (to_frame all_cost_data, log).

(** [self.analyzers], as [MultiCloudCostAnalyzer.__init__] builds it. *)
Definition analyzers_of (client : string -> string -> Result Response)
  : list (string * Adapter) :=
  [ ("aws", AWSCostAnalyzer_get_cost_data client);
    ("azure", AzureCostAnalyzer_get_cost_data);
    ("gcp", GCPCostAnalyzer_get_cost_data) ].

End Adapters.

Arguments Adapter F : clear implicits.

(** The days from [d] on, [n] of them (fewer at the end of the calendar). *)
Fixpoint days_from (n : nat) (d : datetime) : list datetime :=
  match n with
  | 0 => []
  | S n' =>
      d :: match next_day d with
           | Returns tomorrow => days_from n' tomorrow
           | Raises _ => []
           end
  end.

(** What a call delivers: the records it returns, none when it raises. *)
Definition delivered {A} (outcome : Result (list A)) : list A :=
  match outcome with
  | Returns records => records
  | Raises _ => []
  end.

(** The value a call returns, [default] when it raises. *)
Definition delivered_value {A} (default : A) (outcome : Result A) : A :=
  match outcome with
  | Returns value => value
  | Raises _ => default
  end.

(** What holds of every record the loop of the Azure and GCP adapters
    builds. *)
Definition generated {F} {num : Number F} (cloud : string) (services : list string)
           (base modulus : Z) (end_date start_date : datetime) (c : CostData F) : Prop :=
  cd_cloud_provider c = cloud
  /\ cd_currency c = "USD"
  /\ In (cd_service c) services
  /\ (exists n : nat, (base <= Z.of_nat n < base + modulus)%Z /\ cd_cost c = of_nat n)
  /\ key_ltb (cd_date c) start_date = false
  /\ key_ltb end_date (cd_date c) = false
  /\ time_of_day (cd_date c) = time_of_day start_date.

(** What one adapter adds to the log of [generate_cost_report]. *)
Definition log_of {F} (start_date end_date : datetime) (entry : string * Adapter F)
  : list LogRecord :=
  let outcome := snd entry start_date end_date in
  fst outcome
  ++ [ match snd outcome with
       | Returns cost_data => Retrieved (List.length cost_data) (fst entry)
       | Raises exception => FailedToGetData (fst entry) exception
       end ].

(** What holds of every record the AWS adapter builds. *)
Definition from_aws {F} (c : CostData F) : Prop :=
  cd_cloud_provider c = "AWS"
  /\ calendar_date (cd_date c)
  /\ time_of_day (cd_date c) = 0
  /\ cd_resource_id c = None
  /\ cd_tags c = None.

(** The number of groups in the results of a response. *)
Definition number_of_groups (results : list ResultByTime) : nat :=
  List.length (flat_map (fun result => match Groups result with
                                       | Some groups => groups
                                       | None => []
                                       end) results).

(** ** A well-formed response *)

(** The response that Cost Explorer documents, for a list of days with, on
    each day, groups given by service, amount and unit. *)
Definition aws_group (item : string * (string * string)) : Group :=
  {| Keys := Some [fst item];
     Metrics := Some [ ("BlendedCost",
                        {| Amount := Some (fst (snd item));
                           Unit := Some (snd (snd item)) |}) ] |}.

Definition aws_result (entry : datetime * list (string * (string * string)))
  : ResultByTime :=
  {| TimePeriod := Some {| Start := Some (strftime (fst entry)) |};
     Groups := Some (map aws_group (snd entry)) |}.

Definition aws_response (data : list (datetime * list (string * (string * string))))
  : Response :=
  {| ResultsByTime := Some (map aws_result data) |}.

(** The record expected for one group. *)
Definition aws_record {F} (parsed : string -> F) (d : datetime)
           (item : string * (string * string)) : CostData F :=
  {| cd_service := fst item;
     cd_cost := parsed (fst (snd item));
     cd_currency := snd (snd item);
     cd_date := mk_datetime (year d) (month d) (day d) 0;
     cd_cloud_provider := "AWS";
     cd_resource_id := None;
     cd_tags := None |}.

(** The rows that the Azure and the GCP adapter generate for a list of
    days. *)
Definition generated_rows {F} {num : Number F} (hash : string -> Z) (days : list datetime)
  : DataFrame F :=
  to_frame
    (flat_map (fun d => map (mock_cost_data hash "Azure" 50 100 d)
                            ["Compute"; "Storage"; "Networking"; "Database"]) days
     ++ flat_map (fun d => map (mock_cost_data hash "GCP" 30 80 d)
                               ["Compute Engine"; "Cloud Storage"; "BigQuery"; "Cloud SQL"])
                 days).

(** ** main *)




Section Main.
Context {F : Type} {num : Number F} {fmt : Formatter F}.







(** [to_csv] stands for [df.to_csv('cost_report.csv', index=False)]. *)
Variable to_csv : DataFrame F -> Result unit.


End Main.


(** ** Further data *)

(** Twelve days of AWS at 100 a day, except 500 on 2024-01-05. *)
Definition lone_spike : DataFrame float :=
  map (fun d => scenario_row "AWS" d (if d =? 5 then 500 else 100)) (seq 1 12).

(** Two days of AWS over the real numbers, at 1 and at 3. *)
Definition real_two_days : DataFrame R :=
  [ {| date := jan 1; cloud_provider := "AWS"; service := "Compute";
       cost := 1%R; currency := "USD" |};
    {| date := jan 2; cloud_provider := "AWS"; service := "Compute";
       cost := 3%R; currency := "USD" |} ].

(** A formatter for the real numbers that prints nothing. *)
Definition silent_Formatter : Formatter R := {| format_fixed := fun _ _ => EmptyString |}.

(** The last day of the calendar, at midnight. *)
Definition last_day : datetime := mk_datetime MAXYEAR 12 31 0.

(** One day of Cost Explorer data with two groups, and a [float] that reads
    the two amounts. *)
Definition sample_data : list (datetime * list (string * (string * string))) :=
  [(jan 5, [("Amazon EC2", ("12.5", "USD")); ("Amazon S3", ("0.25", "USD"))])].

Definition sample_float (s : string) : Result float :=
  if String.eqb s "12.5" then Returns 12.5%float
  else if String.eqb s "0.25" then Returns 0.25%float
       else Raises "ValueError".

Definition sample_parsed (s : string) : float := delivered_value 0%float (sample_float s).

(** * Auxiliary facts *)

(** ** Filters *)

Lemma filter_all_true {A} (p : A -> bool) (l : list A) :
  Forall (fun x => p x = true) l -> filter p l = l.
Proof.
  induction 1 as [|x l Hx _ IH]; simpl.
  - reflexivity.
  - now rewrite Hx, IH.
Qed.

(** ** The key orders are total orders *)

#[export] Instance nat_OrdLaws : OrdLaws nat.
Proof.
  split; simpl.
  - apply Nat.compare_eq_iff.
  - intros x y. apply Nat.compare_antisym.
  - intros x y z. rewrite !Nat.compare_lt_iff. lia.
Qed.

Lemma ascii_compare_refl (a : ascii) : Ascii.compare a a = Eq.
Proof. unfold Ascii.compare. apply N.compare_refl. Qed.

Lemma string_compare_refl (s : string) : String.compare s s = Eq.
Proof.
  induction s as [|a s IH]; simpl; [reflexivity|].
  now rewrite ascii_compare_refl.
Qed.

Lemma ascii_compare_lt_trans (a b c : ascii) :
  Ascii.compare a b = Lt -> Ascii.compare b c = Lt -> Ascii.compare a c = Lt.
Proof.
  unfold Ascii.compare. rewrite !N.compare_lt_iff. apply N.lt_trans.
Qed.

Lemma string_compare_lt_trans (s1 s2 s3 : string) :
  String.compare s1 s2 = Lt -> String.compare s2 s3 = Lt -> String.compare s1 s3 = Lt.
Proof.
  revert s2 s3.
  induction s1 as [|a s1 IH]; intros [|b s2] [|c s3]; simpl; try congruence.
  destruct (Ascii.compare a b) eqn:Hab; try discriminate;
    destruct (Ascii.compare b c) eqn:Hbc; try discriminate; intros H12 H23.
  - apply Ascii.compare_eq_iff in Hab, Hbc. subst.
    rewrite ascii_compare_refl. eauto.
  - apply Ascii.compare_eq_iff in Hab. subst. now rewrite Hbc.
  - apply Ascii.compare_eq_iff in Hbc. subst. now rewrite Hab.
  - now rewrite (ascii_compare_lt_trans _ _ _ Hab Hbc).
Qed.

#[export] Instance string_OrdLaws : OrdLaws string.
Proof.
  split; simpl.
  - intros x y. split; [apply String.compare_eq_iff|].
    intros ->. apply string_compare_refl.
  - intros x y. apply String.compare_antisym.
  - apply string_compare_lt_trans.
Qed.

Section OrdFacts.
Context {K : Type} `{OrdLaws K}.

Lemma key_compare_refl (x : K) : key_compare x x = Eq.
Proof. now apply key_compare_eq. Qed.

Lemma key_eqb_eq (x y : K) : key_eqb x y = true <-> x = y.
Proof.
  unfold key_eqb. rewrite <- key_compare_eq.
  destruct (key_compare x y); split; congruence.
Qed.

Lemma key_eqb_refl (x : K) : key_eqb x x = true.
Proof. now apply key_eqb_eq. Qed.

Lemma key_eqb_neq (x y : K) : key_eqb x y = false <-> x <> y.
Proof.
  rewrite <- key_eqb_eq. destruct (key_eqb x y); split; congruence.
Qed.

Lemma key_ltb_lt (x y : K) : key_ltb x y = true <-> key_compare x y = Lt.
Proof. unfold key_ltb. destruct (key_compare x y); split; congruence. Qed.

Lemma key_ltb_irrefl (x : K) : key_ltb x x = false.
Proof. unfold key_ltb. now rewrite key_compare_refl. Qed.

Lemma key_ltb_trans (x y z : K) :
  key_ltb x y = true -> key_ltb y z = true -> key_ltb x z = true.
Proof. rewrite !key_ltb_lt. apply key_compare_trans. Qed.

Lemma key_ltb_asym (x y : K) : key_ltb x y = true -> key_ltb y x = false.
Proof.
  rewrite key_ltb_lt. intros Hxy. unfold key_ltb.
  rewrite (key_compare_antisym x y), Hxy. reflexivity.
Qed.

(** Trichotomy, in the form the sort needs it. *)
Lemma key_ltb_total (x y : K) : key_ltb y x = false -> x <> y -> key_ltb x y = true.
Proof.
  intros Hyx Hne. unfold key_ltb in *.
  rewrite (key_compare_antisym x y) in Hyx.
  destruct (key_compare x y) eqn:E; simpl in Hyx; try congruence.
  apply key_compare_eq in E. contradiction.
Qed.

Lemma key_ltb_negtrans (x y z : K) :
  key_ltb y x = false -> key_ltb z y = false -> key_ltb z x = false.
Proof.
  intros Hyx Hzy.
  destruct (key_ltb z x) eqn:Hzx; [|reflexivity].
  assert (Hxz : x <> z).
  { intros ->. rewrite key_ltb_irrefl in Hzx. discriminate. }
  destruct (key_eqb_eq x y) as [_ Hxy].
  destruct (key_eqb x y) eqn:E.
  - apply key_eqb_eq in E. subst y. congruence.
  - apply key_eqb_neq in E.
    pose proof (key_ltb_total Hyx E) as Hlt.
    pose proof (key_ltb_trans _ _ _ Hzx Hlt) as Hzy'. congruence.
Qed.
End OrdFacts.

#[export] Instance prod_OrdLaws {A B} `{OrdLaws A} `{OrdLaws B} : OrdLaws (A * B).
Proof.
  split.
  - intros [a1 b1] [a2 b2]. simpl.
    destruct (key_compare a1 a2) eqn:Ea.
    + apply key_compare_eq in Ea. subst a2. rewrite key_compare_eq.
      split; [intros ->; reflexivity | now inversion 1].
    + split; [discriminate|]. inversion 1; subst.
      rewrite key_compare_refl in Ea. discriminate.
    + split; [discriminate|]. inversion 1; subst.
      rewrite key_compare_refl in Ea. discriminate.
  - intros [a1 b1] [a2 b2]. simpl.
    rewrite (key_compare_antisym a1 a2).
    destruct (key_compare a1 a2); simpl; try reflexivity.
    apply key_compare_antisym.
  - intros [a1 b1] [a2 b2] [a3 b3]. simpl.
    destruct (key_compare a1 a2) eqn:E12; try discriminate;
      destruct (key_compare a2 a3) eqn:E23; try discriminate; intros H12 H23.
    + apply key_compare_eq in E12, E23. subst.
      rewrite key_compare_refl. eapply key_compare_trans; eauto.
    + apply key_compare_eq in E12. subst. now rewrite E23.
    + apply key_compare_eq in E23. subst. now rewrite E12.
    + now rewrite (key_compare_trans _ _ _ E12 E23).
Qed.

Lemma datetime_fields_inj (a b : datetime) :
  datetime_fields a = datetime_fields b -> a = b.
Proof. destruct a, b. unfold datetime_fields. simpl. congruence. Qed.

#[export] Instance datetime_OrdLaws : OrdLaws datetime.
Proof.
  split.
  - intros a b. change (key_compare a b)
      with (key_compare (datetime_fields a) (datetime_fields b)).
    rewrite key_compare_eq. split; [apply datetime_fields_inj | now intros ->].
  - intros a b. change (key_compare (datetime_fields b) (datetime_fields a)
                        = CompOpp (key_compare (datetime_fields a) (datetime_fields b))).
    apply key_compare_antisym.
  - intros a b c. change (key_compare (datetime_fields a) (datetime_fields b) = Lt ->
                          key_compare (datetime_fields b) (datetime_fields c) = Lt ->
                          key_compare (datetime_fields a) (datetime_fields c) = Lt).
    apply key_compare_trans.
Qed.

(** ** Facts about the list operations *)

Section ListFacts.
Context {A : Type}.

Lemma StronglySorted_weaken (R S : A -> A -> Prop) (D : A -> Prop) (l : list A) :
  (forall a b, D a -> D b -> R a b -> S a b) ->
  Forall D l -> StronglySorted R l -> StronglySorted S l.
Proof.
  intros HRS HD. induction 1 as [|a l Hs IH Hfa]; constructor.
  - apply IH. now inversion HD.
  - inversion HD as [|? ? Da Dl]; subst.
    rewrite Forall_forall in *. intros b Hb. apply HRS; auto.
Qed.



Lemma StronglySorted_filter (R : A -> A -> Prop) (p : A -> bool) (l : list A) :
  StronglySorted R l -> StronglySorted R (filter p l).
Proof.
  induction 1 as [|a l Hs IH Hfa]; simpl; [constructor|].
  destruct (p a); [|assumption]. constructor; [assumption|].
  rewrite Forall_forall in *. intros b Hb. apply filter_In in Hb. apply Hfa, Hb.
Qed.


Lemma StronglySorted_map {B} (R : B -> B -> Prop) (f : A -> B) (l : list A) :
  StronglySorted (fun a b => R (f a) (f b)) l -> StronglySorted R (map f l).
Proof.
  induction 1 as [|a l Hs IH Hfa]; simpl; constructor; [assumption|].
  now apply Forall_map.
Qed.

(** In a strongly sorted list the relation holds between any two positions
    taken in order. *)
Lemma StronglySorted_nth (R : A -> A -> Prop) (l : list A) :
  StronglySorted R l ->
  forall i j a b, i < j -> nth_error l i = Some a -> nth_error l j = Some b -> R a b.
Proof.
  induction 1 as [|x l Hs IH Hfa]; intros i j a b Hij Hi Hj.
  - destruct i; discriminate.
  - destruct j as [|j]; [lia|]. simpl in Hj. destruct i as [|i]; simpl in Hi.
    + inversion Hi; subst. rewrite Forall_forall in Hfa.
      apply Hfa. eapply nth_error_In; eauto.
    + apply (IH i j); auto. lia.
Qed.

Variable lt : A -> A -> bool.

Lemma insert_perm (x : A) (l : list A) : Permutation (x :: l) (insert lt x l).
Proof.
  induction l as [|y l IH]; simpl; [reflexivity|].
  destruct (lt y x); [|reflexivity].
  rewrite perm_swap. now constructor.
Qed.

Lemma stable_sort_perm (l : list A) : Permutation l (stable_sort lt l).
Proof.
  induction l as [|x l IH]; simpl; [constructor|].
  rewrite <- insert_perm. now constructor.
Qed.

Lemma In_stable_sort (x : A) (l : list A) : In x (stable_sort lt l) <-> In x l.
Proof.
  split; apply Permutation_in;
    [symmetry|]; apply stable_sort_perm.
Qed.

Lemma Forall_stable_sort (P : A -> Prop) (l : list A) :
  Forall P l -> Forall P (stable_sort lt l).
Proof.
  rewrite !Forall_forall. intros HP x Hx. apply HP. now apply In_stable_sort.
Qed.

(** What the sort establishes: the output is sorted by [sorted_before].
    [D] is the domain on which [lt] behaves as an order (for numbers:
    everything but NaN), and [P] is the order of the input. *)
Variable D : A -> Prop.
Hypothesis lt_negtrans :
  forall x y z, D x -> D y -> D z -> lt y x = false -> lt z y = false -> lt z x = false.
Variable P : A -> A -> Prop.

Lemma insert_sorted (x : A) (l : list A) :
  D x -> Forall D l -> Forall (P x) l ->
  StronglySorted (sorted_before lt P) l -> StronglySorted (sorted_before lt P) (insert lt x l).
Proof.
  intros Dx Dl Px Hs. induction Hs as [|y l Hs IH Hfa]; simpl.
  - repeat constructor.
  - inversion Dl as [|? ? Dy Dl']; subst.
    inversion Px as [|? ? Pxy Pxl]; subst.
    destruct (lt y x) eqn:Hyx.
    + constructor; [now apply IH|].
      rewrite Forall_forall in *. intros z Hz.
      apply (Permutation_in _ (Permutation_sym (insert_perm x l))) in Hz.
      destruct Hz as [<-|Hz]; [now left | auto].
    + constructor; [now constructor|].
      constructor; [right; now split|].
      rewrite Forall_forall in *. intros z Hz.
      destruct (Hfa z Hz) as [Hyz|[Hzy Pyz]].
      * left. destruct (lt x z) eqn:Hxz; [reflexivity|].
        rewrite (lt_negtrans (x:=z) (y:=x) (z:=y)) in Hyz; auto.
      * right. split; [|auto].
        apply (lt_negtrans (x:=x) (y:=y) (z:=z)); auto.
Qed.

Lemma stable_sort_sorted (l : list A) :
  Forall D l -> StronglySorted P l -> StronglySorted (sorted_before lt P) (stable_sort lt l).
Proof.
  intros Dl Hs. induction Hs as [|x l Hs IH Hfa]; simpl; [constructor|].
  inversion Dl; subst.
  apply insert_sorted; auto.
  - now apply Forall_stable_sort.
  - now apply Forall_stable_sort.
Qed.
End ListFacts.

Section GroupKeys.
Context {K : Type} `{OrdLaws K}.

Lemma In_unique (x : K) (l : list K) : In x (unique key_eqb l) <-> In x l.
Proof.
  induction l as [|y l IH]; simpl; [tauto|].
  rewrite filter_In, IH. split.
  - intros [->|[Hx _]]; auto.
  - intros [->|Hx]; auto.
    destruct (key_eqb y x) eqn:E.
    + apply key_eqb_eq in E. auto.
    + right. split; [assumption | reflexivity].
Qed.

Lemma unique_distinct (l : list K) :
  StronglySorted (fun a b => a <> b) (unique key_eqb l).
Proof.
  induction l as [|y l IH]; simpl; constructor.
  - now apply StronglySorted_filter.
  - apply Forall_forall. intros z Hz. apply filter_In in Hz.
    destruct Hz as [_ Hz]. apply negb_true_iff in Hz. now apply key_eqb_neq.
Qed.

Lemma In_group_keys (x : K) (l : list K) : In x (group_keys l) <-> In x l.
Proof. unfold group_keys. now rewrite In_stable_sort, In_unique. Qed.

(** The labels of a groupby are strictly increasing. *)
Lemma group_keys_increasing (l : list K) :
  StronglySorted (fun a b => key_ltb a b = true) (group_keys l).
Proof.
  unfold group_keys.
  apply StronglySorted_weaken
    with (R := sorted_before key_ltb (fun a b => a <> b)) (D := fun _ => True).
  - intros a b _ _ [Hab|[Hba Hne]]; [assumption|]. now apply key_ltb_total.
  - apply Forall_forall. auto.
  - apply stable_sort_sorted with (D := fun _ => True).
    + intros x y z _ _ _. apply key_ltb_negtrans.
    + apply Forall_forall. auto.
    + apply unique_distinct.
Qed.

Lemma StronglySorted_ltb_NoDup (l : list K) :
  StronglySorted (fun a b => key_ltb a b = true) l -> NoDup l.
Proof.
  induction 1 as [|a l Hs IH Hfa]; constructor; [|assumption].
  intros Hin. rewrite Forall_forall in Hfa. specialize (Hfa a Hin).
  rewrite key_ltb_irrefl in Hfa. discriminate.
Qed.

Lemma group_keys_NoDup (l : list K) : NoDup (group_keys l).
Proof. apply StronglySorted_ltb_NoDup, group_keys_increasing. Qed.
End GroupKeys.

(** ** Python's [sorted] *)

(** [sorted(..., key=..., reverse=True)] leaves no element in front of one
    with a greater key. *)
Lemma py_sorted_reverse_descending {A K} `{OrdLaws K} (key : A -> K) (l : list A) :
  StronglySorted (fun a b => key_ltb (key a) (key b) = false) (py_sorted_reverse key l).
Proof.
  unfold py_sorted_reverse.
  apply StronglySorted_weaken
    with (R := sorted_before (fun a b => key_ltb (key b) (key a)) (fun _ _ => True))
         (D := fun _ => True).
  - intros a b _ _ [Hab|[Hba _]]; [|assumption]. now apply key_ltb_asym.
  - apply Forall_forall. auto.
  - apply stable_sort_sorted with (D := fun _ => True).
    + intros x y z _ _ _ Hxy Hyz. eapply key_ltb_negtrans; eauto.
    + apply Forall_forall. auto.
    + induction l; constructor; [assumption|]. apply Forall_forall. auto.
Qed.

(** ** The lines of the recommendations *)

Section Recommendations.
Context {F : Type} {num : Number F} {fmt : Formatter F}.

Lemma service_recommendation_not_warning (e : string * F) :
  service_recommendation e <> spike_warning.
Proof. unfold service_recommendation, spike_warning. simpl. congruence. Qed.

Lemma provider_recommendation_not_warning (p : string) (share : F) :
  provider_recommendation p share <> spike_warning.
Proof. unfold provider_recommendation, spike_warning. simpl. congruence. Qed.

Lemma warning_not_in_service_recommendations (df : DataFrame F) :
  ~ In spike_warning (service_recommendations df).
Proof.
  unfold service_recommendations. intros Hin. apply in_map_iff in Hin.
  destruct Hin as [e [He _]]. now apply service_recommendation_not_warning in He.
Qed.

Lemma warning_not_in_provider_recommendations (df : DataFrame F) (lines : list string) :
  provider_recommendations df = Returns lines -> ~ In spike_warning lines.
Proof.
  unfold provider_recommendations. intros Hret Hin.
  destruct (1 <? _).
  - destruct (idxmax _); [|discriminate].
    inversion Hret; subst lines.
    destruct Hin as [He|[]]. now apply provider_recommendation_not_warning in He.
  - inversion Hret; subst lines. contradiction.
Qed.

(** The call returns unless there are several providers and the total of
    each of them is NaN. *)
Lemma generate_recommendations_returns (df : DataFrame F) :
  List.length (groupby_sum (@cloud_provider F) df) <= 1
  \/ (exists e, In e (groupby_sum (@cloud_provider F) df) /\ notna (snd e) = true) ->
  exists recs, generate_recommendations df = Returns recs.
Proof.
  intros Hok. unfold generate_recommendations.
  destruct (empty df); [eauto|].
  assert (Hprov : exists lines, provider_recommendations df = Returns lines).
  { unfold provider_recommendations.
    destruct (1 <? _) eqn:Hlen; [|eauto].
    destruct Hok as [Hle|[e [Hin He]]].
    - apply Nat.ltb_lt in Hlen. lia.
    - unfold idxmax.
      destruct (filter _ _) as [|e0 s0] eqn:Hf; [|eauto].
      assert (Hin' : In e (filter (fun e1 : string * F => notna (snd e1))
                                  (groupby_sum (@cloud_provider F) df)))
        by (apply filter_In; auto).
      rewrite Hf in Hin'. contradiction. }
  destruct Hprov as [lines ->]. eauto.
Qed.
End Recommendations.

(** ** Where an anomaly comes from *)

Section Anomalies.
Context {F : Type} {num : Number F} {fmt : Formatter F}.

Lemma provider_anomalies_provider (threshold : F) (dc : Series F (datetime * string))
      (provider : string) (a : Anomaly F) :
  In a (provider_anomalies threshold (provider_data dc provider)) ->
  a_provider a = provider.
Proof.
  unfold provider_anomalies. intros Hin. apply in_flat_map in Hin.
  destruct Hin as [row [Hrow Ha]].
  unfold provider_data in Hrow. apply filter_In in Hrow.
  destruct Hrow as [_ Hp]. apply String.eqb_eq in Hp.
  destruct (ltb threshold _); [|contradiction].
  destruct Ha as [<-|[]]. exact Hp.
Qed.

(** Every reported anomaly was found in the rows of its own provider. *)
Lemma anomaly_of_provider (df : DataFrame F) (threshold : F) (a : Anomaly F) :
  In a (detect_anomalies df threshold) ->
  In a (provider_anomalies threshold (provider_data (daily_costs df) (a_provider a))).
Proof.
  unfold detect_anomalies. destruct (empty df); [contradiction|].
  unfold py_sorted_reverse. rewrite In_stable_sort.
  unfold anomalies_found. intros Hin. apply in_flat_map in Hin.
  destruct Hin as [provider [_ Ha]].
  now rewrite (provider_anomalies_provider _ _ _ _ Ha).
Qed.

(** When the guard [std_cost > 0] fails every z-score is 0, and nothing
    is reported unless [0 > threshold]. *)
Lemma provider_anomalies_guard_false (threshold : F) (pdata : Series F (datetime * string)) :
  ltb zero (pd_std (values pdata)) = false ->
  ltb threshold (abs zero) = false ->
  provider_anomalies threshold pdata = [].
Proof.
  intros Hguard Hthr. unfold provider_anomalies.
  revert Hguard. generalize (pd_std (values pdata)), (pd_mean (values pdata)).
  intros s m Hguard.
  induction pdata as [|row rows IH]; simpl; [reflexivity|].
  unfold z_score at 1. rewrite Hguard, Hthr. exact IH.
Qed.

(** The rows of one provider in [daily_costs], one for each of its dates. *)
Lemma provider_data_daily_costs (df : DataFrame F) (provider : string) :
  provider_data (daily_costs df) provider
  = map (fun k => (k, pd_sum (map (@cost F)
                    (filter (fun r => key_eqb (date r, cloud_provider r) k) df))))
        (filter (fun k => String.eqb (snd k) provider)
                (group_keys (map (fun r => (date r, cloud_provider r)) df))).
Proof.
  unfold provider_data, daily_costs, groupby_sum.
  induction (group_keys _) as [|k ks IH]; simpl; [reflexivity|].
  destruct (String.eqb (snd k) provider); simpl; now rewrite IH.
Qed.

Lemma filter_at_most_one {A} (p : A -> bool) (x0 : A) (l : list A) :
  NoDup l -> (forall x, In x l -> p x = true -> x = x0) ->
  List.length (filter p l) <= 1.
Proof.
  induction 1 as [|x l Hx Hnd IH]; intros Hp; simpl; [lia|].
  destruct (p x) eqn:Hpx.
  - assert (x = x0) by (apply Hp; simpl; auto). subst x0.
    assert (Hnil : filter p l = []).
    { destruct (filter p l) as [|y ys] eqn:E; [reflexivity|].
      assert (Hy : In y (filter p l)) by (rewrite E; simpl; auto).
      apply filter_In in Hy. destruct Hy as [Hyl Hpy].
      assert (y = x) by (apply Hp; simpl; auto). subst y. contradiction. }
    simpl. rewrite Hnil. simpl. lia.
  - apply IH. intros y Hy. apply Hp. simpl. auto.
Qed.

(** A provider whose records all carry one date has at most one row in
    [daily_costs]. *)
Lemma provider_data_single_date (df : DataFrame F) (provider : string) (d : datetime) :
  (forall r, In r df -> cloud_provider r = provider -> date r = d) ->
  List.length (provider_data (daily_costs df) provider) <= 1.
Proof.
  intros Hd. rewrite provider_data_daily_costs, length_map.
  apply filter_at_most_one with (x0 := (d, provider)).
  - apply group_keys_NoDup.
  - intros [d' p'] Hin Hp. simpl in Hp. apply String.eqb_eq in Hp. subst p'.
    apply (proj1 (In_group_keys _ _)) in Hin. apply in_map_iff in Hin.
    destruct Hin as [r [Hr Hin]]. inversion Hr; subst.
    f_equal. now apply Hd.
Qed.

Lemma length_filter_le {A} (p : A -> bool) (l : list A) :
  List.length (filter p l) <= List.length l.
Proof.
  induction l as [|x l IH]; simpl; [lia|]. destruct (p x); simpl; lia.
Qed.

(** The standard deviation of fewer than two values is NaN. *)
Lemma pd_std_short (l : list F) : List.length l <= 1 -> pd_std l = nan.
Proof.
  intros Hlen. unfold pd_std.
  pose proof (length_filter_le notna l) as Hf.
  replace (List.length (filter notna l) <=? 1) with true; [reflexivity|].
  symmetry. apply Nat.leb_le. lia.
Qed.
End Anomalies.

(** ** binary64 arithmetic *)

Lemma SF2Prim_of (x : float) (s : spec_float) : Prim2SF x = s -> x = SF2Prim s.
Proof. intros <-. symmetry. apply SF2Prim_Prim2SF. Qed.






(** ** The order of binary64 numbers *)

#[export] Instance Z_OrdLaws : OrdLaws Z.
Proof.
  split; simpl.
  - apply Z.compare_eq_iff.
  - intros x y. apply Z.compare_antisym.
  - intros x y z. rewrite !Z.compare_lt_iff. lia.
Qed.

Lemma SFcompare_float_key (x y : spec_float) :
  x <> S754_nan -> y <> S754_nan ->
  SFcompare x y = Some (key_compare (float_key x) (float_key y)).
Proof.
  intros Hx Hy.
  destruct x as [sx|sx| |sx mx ex], y as [sy|sy| |sy my ey]; try congruence;
    try destruct sx; try destruct sy; try reflexivity.
  - change (key_compare (float_key (S754_finite true mx ex))
                        (float_key (S754_finite true my ey)))
      with (match (- ex ?= - ey)%Z with
            | Eq => (Z.neg mx ?= Z.neg my)%Z
            | c => c
            end).
    unfold SFcompare.
    rewrite Z.compare_opp, (Z.compare_antisym ex ey).
    destruct (ex ?= ey)%Z; reflexivity.
Qed.

Lemma float_notna_spec (x : float) : notna x = true <-> Prim2SF x <> S754_nan.
Proof.
  unfold notna. simpl. rewrite eqb_spec. unfold SFeqb. split.
  - intros H E. rewrite E in H. discriminate.
  - intros H. rewrite (SFcompare_float_key H H), key_compare_refl. reflexivity.
Qed.

Lemma float_ltb_key (x y : float) :
  notna x = true -> notna y = true -> ltb x y = key_ltb (fkey x) (fkey y).
Proof.
  intros Hx Hy. apply float_notna_spec in Hx, Hy.
  simpl. rewrite ltb_spec. unfold SFltb.
  now rewrite (SFcompare_float_key Hx Hy).
Qed.

Lemma float_eqb_key (x y : float) :
  notna x = true -> notna y = true -> eqb x y = key_eqb (fkey x) (fkey y).
Proof.
  intros Hx Hy. apply float_notna_spec in Hx, Hy.
  simpl. rewrite eqb_spec. unfold SFeqb.
  now rewrite (SFcompare_float_key Hx Hy).
Qed.

(** NaN is not comparable. *)
Lemma float_ltb_nan_r (x y : float) : notna y = false -> ltb x y = false.
Proof.
  intros Hy. simpl. rewrite ltb_spec. unfold SFltb.
  destruct (Prim2SF y) eqn:E; try (now destruct (Prim2SF x));
    assert (Hn : notna y = true) by (apply float_notna_spec; congruence); congruence.
Qed.

Lemma float_eqb_notna (x y : float) : eqb x y = true -> notna x = true /\ notna y = true.
Proof.
  simpl. rewrite eqb_spec. unfold SFeqb. intros H.
  split; apply float_notna_spec; intros E; rewrite E in H;
    [|destruct (Prim2SF x)]; discriminate.
Qed.

(** On the numbers that are not NaN, [<] is the strict part of a total
    preorder. *)
Lemma float_ltb_negtrans (x y z : float) :
  notna x = true -> notna y = true -> notna z = true ->
  ltb y x = false -> ltb z y = false -> ltb z x = false.
Proof.
  intros Hx Hy Hz. rewrite !float_ltb_key by assumption.
  apply key_ltb_negtrans.
Qed.

Lemma float_ltb_asym (x y : float) : ltb x y = true -> ltb y x = false.
Proof.
  intros Hxy.
  destruct (notna x) eqn:Hx; [|now apply float_ltb_nan_r].
  destruct (notna y) eqn:Hy; [|now rewrite float_ltb_nan_r in Hxy].
  rewrite float_ltb_key in * by assumption. now apply key_ltb_asym.
Qed.

Lemma float_eqb_not_ltb (x y : float) : eqb x y = true -> ltb x y = false.
Proof.
  intros Heq. destruct (float_eqb_notna Heq) as [Hx Hy].
  rewrite float_eqb_key in Heq by assumption. rewrite float_ltb_key by assumption.
  apply key_eqb_eq in Heq. rewrite Heq. apply key_ltb_irrefl.
Qed.

(** ** The ranking of the services *)

Section Ranking.
Context {F : Type} {num : Number F} {K : Type} `{OrdLaws K}.

Hypothesis ltb_negtrans :
  forall x y z : F, notna x = true -> notna y = true -> notna z = true ->
                    ltb y x = false -> ltb z y = false -> ltb z x = false.

Lemma groupby_sum_increasing (key : Row F -> K) (df : DataFrame F) :
  StronglySorted (fun a b => key_ltb (fst a) (fst b) = true) (groupby_sum key df).
Proof.
  unfold groupby_sum. apply StronglySorted_map with (R := fun a b : K * F => key_ltb (fst a) (fst b) = true).
  simpl. apply group_keys_increasing.
Qed.



End Ranking.


(** ** Sums over groups *)

Section ExactSums.
Context {F : Type} {num : Number F}.
Hypothesis Hexact : exact_addition num.

Lemma add_assoc' (a b c : F) : add a (add b c) = add (add a b) c.
Proof. apply Hexact. Qed.

Lemma add_comm' (a b : F) : add a b = add b a.
Proof. apply Hexact. Qed.

Lemma add_zero_l (a : F) : add zero a = a.
Proof. apply Hexact. Qed.

Lemma add_zero_r (a : F) : add a zero = a.
Proof. rewrite add_comm'. apply add_zero_l. Qed.

Lemma fold_left_add (l : list F) (a : F) : fold_left add l a = add a (fsum l).
Proof.
  unfold fsum. revert a. induction l as [|x l IH]; intros a; simpl.
  - now rewrite add_zero_r.
  - rewrite IH, (IH (add zero x)), add_zero_l. symmetry. apply add_assoc'.
Qed.

Lemma fsum_cons (x : F) (l : list F) : fsum (x :: l) = add x (fsum l).
Proof. unfold fsum at 1. simpl. now rewrite fold_left_add, add_zero_l. Qed.

Lemma pd_sum_cons (r : Row F) (rows : list (Row F)) :
  pd_sum (map (@cost F) (r :: rows)) = add (contribution r) (pd_sum (map (@cost F) rows)).
Proof.
  unfold pd_sum, contribution. simpl. destruct (notna (cost r)).
  - apply fsum_cons.
  - now rewrite add_zero_l.
Qed.

Section Groups.
Context {K : Type} `{OrdLaws K}.

(** Adding [x] to the entry of one label adds [x] to the sum over the
    labels. *)
Lemma fsum_map_bump (k0 : K) (x : F) (g : K -> F) (ks : list K) :
  NoDup ks ->
  fsum (map (fun k => if key_eqb k0 k then add x (g k) else g k) ks)
  = if existsb (key_eqb k0) ks then add x (fsum (map g ks)) else fsum (map g ks).
Proof.
  induction 1 as [|k ks Hk Hnd IH]; simpl; [reflexivity|].
  rewrite !fsum_cons, IH.
  destruct (key_eqb k0 k) eqn:E; simpl.
  - apply key_eqb_eq in E. subst k0.
    replace (existsb (key_eqb k) ks) with false.
    + now rewrite add_assoc'.
    + symmetry. apply not_true_is_false. intros Hex.
      apply existsb_exists in Hex. destruct Hex as [k' [Hin Hk']].
      apply key_eqb_eq in Hk'. now subst k'.
  - destruct (existsb (key_eqb k0) ks); [|reflexivity].
    rewrite !add_assoc'. f_equal. apply add_comm'.
Qed.

Lemma fsum_zeros {A} (l : list A) : fsum (map (fun _ => zero) l) = zero.
Proof.
  induction l as [|a l IH]; simpl; [reflexivity|].
  now rewrite fsum_cons, IH, add_zero_l.
Qed.

(** The sums of the groups add up to the sum of the whole column. *)
Lemma group_sums_add_up (key : Row F -> K) (df : DataFrame F) (ks : list K) :
  NoDup ks -> (forall r, In r df -> In (key r) ks) ->
  fsum (map (fun k => pd_sum (map (@cost F) (filter (fun r => key_eqb (key r) k) df))) ks)
  = pd_sum (map (@cost F) df).
Proof.
  intros Hnd. induction df as [|r df IH]; intros Hin.
  - simpl. apply (fsum_zeros ks).
  - rewrite pd_sum_cons, <- IH by (intros r' Hr'; apply Hin; simpl; auto).
    set (g := fun k => pd_sum (map (@cost F) (filter (fun r0 => key_eqb (key r0) k) df))).
    assert (Hex : existsb (key_eqb (key r)) ks = true).
    { apply existsb_exists. exists (key r). split.
      - apply Hin. simpl. auto.
      - apply key_eqb_refl. }
    transitivity (fsum (map (fun k => if key_eqb (key r) k
                                      then add (contribution r) (g k) else g k) ks)).
    + f_equal. apply map_ext. intros k. simpl.
      destruct (key_eqb (key r) k); [|reflexivity].
      apply pd_sum_cons.
    + rewrite fsum_map_bump by assumption. now rewrite Hex.
Qed.

Lemma groupby_sum_total (key : Row F -> K) (df : DataFrame F) :
  fsum (values (groupby_sum key df)) = pd_sum (map (@cost F) df).
Proof.
  unfold values, groupby_sum. rewrite map_map. simpl.
  apply group_sums_add_up.
  - apply group_keys_NoDup.
  - intros r Hr. apply In_group_keys. now apply in_map.
Qed.
End Groups.
End ExactSums.

(** ** The real numbers add exactly *)

Lemma real_exact_addition : exact_addition real_number.
Proof.
  repeat split; simpl; intros.
  - symmetry. apply Rplus_assoc.
  - apply Rplus_comm.
  - unfold zero. simpl. apply Rplus_0_l.
Qed.

(** ** Dates as strings *)

Lemma digit_compare_small (x y : nat) :
  x < 10 -> y < 10 ->
  Ascii.compare (ascii_of_nat (48 + x)) (ascii_of_nat (48 + y)) = Nat.compare x y.
Proof.
  intros Hx Hy.
  do 10 (destruct x as [|x]; [do 10 (destruct y as [|y]; [reflexivity|]); lia|]); lia.
Qed.

Lemma digit_compare (a b : nat) :
  Ascii.compare (digit a) (digit b) = Nat.compare (a mod 10) (b mod 10).
Proof.
  unfold digit. apply digit_compare_small; apply Nat.mod_upper_bound; lia.
Qed.

(** Two decimal digits compare as the numbers they write. *)
Lemma compare_two_digits (m1 m2 : nat) (s t : string) :
  String.compare (String (digit (m1 / 10)) (String (digit m1) s))
                 (String (digit (m2 / 10)) (String (digit m2) t))
  = match Nat.compare (m1 mod 100) (m2 mod 100) with
    | Eq => String.compare s t
    | c => c
    end.
Proof.
  cbn [String.compare]. rewrite !digit_compare.
  pose proof (Nat.div_mod_eq m1 10). pose proof (Nat.mod_upper_bound m1 10).
  pose proof (Nat.div_mod_eq m2 10). pose proof (Nat.mod_upper_bound m2 10).
  pose proof (Nat.div_mod_eq (m1 / 10) 10). pose proof (Nat.mod_upper_bound (m1 / 10) 10).
  pose proof (Nat.div_mod_eq (m2 / 10) 10). pose proof (Nat.mod_upper_bound (m2 / 10) 10).
  pose proof (Nat.div_mod_eq m1 100). pose proof (Nat.mod_upper_bound m1 100).
  pose proof (Nat.div_mod_eq m2 100). pose proof (Nat.mod_upper_bound m2 100).
  assert (m1 / 10 / 10 = m1 / 100) by (rewrite Nat.Div0.div_div; reflexivity).
  assert (m2 / 10 / 10 = m2 / 100) by (rewrite Nat.Div0.div_div; reflexivity).
  destruct (Nat.compare_spec ((m1 / 10) mod 10) ((m2 / 10) mod 10));
    destruct (Nat.compare_spec (m1 mod 10) (m2 mod 10));
    destruct (Nat.compare_spec (m1 mod 100) (m2 mod 100)); try reflexivity; lia.
Qed.

Lemma compare_same_head (c : ascii) (s t : string) :
  String.compare (String c s) (String c t) = String.compare s t.
Proof. cbn [String.compare]. now rewrite ascii_compare_refl. Qed.

Lemma pad4_as_two_pairs (y : nat) (s : string) :
  (pad4 y ++ s)%string
  = String (digit (y / 100 / 10)) (String (digit (y / 100))
      (String (digit (y / 10)) (String (digit y) s))).
Proof.
  unfold pad4, pad2. cbn [append].
  rewrite (Nat.Div0.div_div y 100 10). reflexivity.
Qed.

(** On valid dates the strings of [strftime] are ordered as the calendar
    days are. *)
Lemma strftime_compare (d1 d2 : datetime) :
  valid_date d1 -> valid_date d2 ->
  String.compare (strftime d1) (strftime d2)
  = key_compare (calendar_day d1) (calendar_day d2).
Proof.
  intros (Hy1 & Hm1 & Hd1) (Hy2 & Hm2 & Hd2).
  unfold strftime. rewrite !pad4_as_two_pairs.
  rewrite 2 compare_two_digits.
  unfold pad2. cbn [append].
  rewrite compare_same_head, compare_two_digits.
  rewrite compare_same_head, compare_two_digits.
  cbn [String.compare].
  unfold calendar_day. cbn [key_compare prod_Ord nat_Ord fst snd].
  pose proof (Nat.div_mod_eq (year d1) 100). pose proof (Nat.mod_upper_bound (year d1) 100).
  pose proof (Nat.div_mod_eq (year d2) 100). pose proof (Nat.mod_upper_bound (year d2) 100).
  assert ((year d1 / 100) mod 100 = year d1 / 100)
    by (apply Nat.mod_small, Nat.Div0.div_lt_upper_bound; lia).
  assert ((year d2 / 100) mod 100 = year d2 / 100)
    by (apply Nat.mod_small, Nat.Div0.div_lt_upper_bound; lia).
  rewrite (Nat.mod_small (month d1) 100), (Nat.mod_small (month d2) 100) by lia.
  rewrite (Nat.mod_small (day d1) 100), (Nat.mod_small (day d2) 100) by lia.
  destruct (Nat.compare_spec ((year d1 / 100) mod 100) ((year d2 / 100) mod 100));
    destruct (Nat.compare_spec (year d1 mod 100) (year d2 mod 100));
    destruct (Nat.compare_spec (year d1) (year d2));
    try lia;
    destruct (month d1 ?= month d2); try reflexivity;
    destruct (day d1 ?= day d2); reflexivity.
Qed.

Lemma strftime_ltb (d1 d2 : datetime) :
  valid_date d1 -> valid_date d2 ->
  String.ltb (strftime d1) (strftime d2) = key_ltb (calendar_day d1) (calendar_day d2).
Proof.
  intros H1 H2. unfold String.ltb, key_ltb. now rewrite strftime_compare.
Qed.

(** The date of a reported anomaly is the formatted date of a record. *)
Lemma anomaly_date_of_row {F} {num : Number F} {fmt : Formatter F}
      (df : DataFrame F) (threshold : F) (a : Anomaly F) :
  In a (detect_anomalies df threshold) ->
  exists r, In r df /\ a_date a = strftime (date r) /\ a_provider a = cloud_provider r.
Proof.
  intros Hin. apply anomaly_of_provider in Hin.
  unfold provider_anomalies in Hin. apply in_flat_map in Hin.
  destruct Hin as [row [Hrow Ha]].
  apply filter_In in Hrow. destruct Hrow as [Hrow _].
  unfold daily_costs, groupby_sum in Hrow. apply in_map_iff in Hrow.
  destruct Hrow as [k [Hk Hin]]. apply (proj1 (In_group_keys _ _)) in Hin.
  apply in_map_iff in Hin. destruct Hin as [r [Hr Hin]].
  exists r. split; [assumption|].
  destruct (ltb threshold _); [|contradiction].
  destruct Ha as [<-|[]]. subst row k. simpl. auto.
Qed.


(** ** binary64 sums of finite costs are numbers *)

Lemma shr_1_nonneg (mrs : shr_record) : (0 <= shr_m mrs)%Z -> (0 <= shr_m (shr_1 mrs))%Z.
Proof.
  destruct mrs as [m r s]. simpl.
  destruct m as [|[p|p|]|p]; simpl; lia.
Qed.

Lemma iter_shr_1_nonneg (p : positive) (mrs : shr_record) :
  (0 <= shr_m mrs)%Z -> (0 <= shr_m (SpecFloat.iter_pos shr_1 p mrs))%Z.
Proof.
  revert mrs. induction p as [p IH|p IH|]; intros mrs Hm; simpl.
  - apply IH, IH, shr_1_nonneg, Hm.
  - apply IH, IH, Hm.
  - apply shr_1_nonneg, Hm.
Qed.

Lemma shr_fexp_nonneg (m e : Z) (l : location) :
  (0 <= m)%Z -> (0 <= shr_m (fst (shr_fexp prec emax m e l)))%Z.
Proof.
  intros Hm. unfold shr_fexp, shr.
  assert (H0 : (0 <= shr_m (shr_record_of_loc m l))%Z).
  { destruct l as [|[]]; exact Hm. }
  destruct (_ - e)%Z; simpl; auto using iter_shr_1_nonneg.
Qed.

Lemma round_nearest_even_nonneg (m : Z) (l : location) :
  (0 <= m)%Z -> (0 <= round_nearest_even m l)%Z.
Proof.
  intros Hm. destruct l as [|[]]; simpl; try lia. destruct (Z.even m); lia.
Qed.

(** Rounding a mantissa that is not negative never gives NaN. *)
Lemma binary_round_aux_not_nan (sx : bool) (m e : Z) (l : location) :
  (0 <= m)%Z -> binary_round_aux prec emax sx m e l <> S754_nan.
Proof.
  intros Hm. unfold binary_round_aux.
  pose proof (shr_fexp_nonneg e l Hm) as H1.
  destruct (shr_fexp prec emax m e l) as [mrs' e'] eqn:E1. simpl in H1.
  pose proof (shr_fexp_nonneg e' loc_Exact
                (round_nearest_even_nonneg (loc_of_shr_record mrs') H1)) as H2.
  destruct (shr_fexp prec emax (round_nearest_even _ _) e' loc_Exact) as [mrs'' e''] eqn:E2.
  simpl in H2.
  destruct (shr_m mrs''); simpl; try lia; try discriminate.
  destruct (_ <=? _)%Z; discriminate.
Qed.

Lemma binary_normalize_not_nan (m e : Z) (szero : bool) :
  binary_normalize prec emax m e szero <> S754_nan.
Proof.
  unfold binary_normalize, binary_round.
  destruct m as [|p|p]; [discriminate| |];
    destruct (shl_align _ _ _) as [mz ez]; apply binary_round_aux_not_nan; lia.
Qed.

(** NaN comes out of an addition only if it goes in, or if infinities of
    opposite signs meet. *)
Lemma SF64add_not_nan (x y : spec_float) :
  x <> S754_nan -> sf_finite y -> SF64add x y <> S754_nan.
Proof.
  intros Hx Hy. unfold SF64add, SFadd.
  destruct x as [sx|sx| |sx mx ex], y as [sy|sy| |sy my ey];
    try contradiction; cbv beta iota zeta;
    try apply binary_normalize_not_nan;
    try destruct sx; try destruct sy; discriminate.
Qed.

Lemma float_finite_spec (y : float) :
  notna y = true -> PrimFloat.is_infinity y = false -> sf_finite (Prim2SF y).
Proof.
  intros Hn Hi. apply float_notna_spec in Hn.
  destruct (Prim2SF y) as [s|s| |s m e] eqn:E; simpl; auto.
  apply SF2Prim_of in E. subst y. destruct s; discriminate.
Qed.

Lemma float_add_notna (x y : float) :
  notna x = true -> notna y = true -> PrimFloat.is_infinity y = false ->
  notna (add x y) = true.
Proof.
  intros Hx Hy Hi. apply float_notna_spec. simpl. rewrite add_spec.
  apply SF64add_not_nan.
  - now apply float_notna_spec.
  - now apply float_finite_spec.
Qed.

Lemma float_pd_sum_notna (l : list float) :
  Forall (fun y => PrimFloat.is_infinity y = false) l -> notna (pd_sum l) = true.
Proof.
  intros Hl. unfold pd_sum, fsum.
  assert (Hacc : forall acc, notna acc = true ->
                             notna (fold_left add (filter notna l) acc) = true).
  { induction Hl as [|y l Hy _ IH]; intros acc Hacc; [assumption|].
    cbn [filter]. destruct (notna y) eqn:Hn; [|now apply IH].
    cbn [fold_left]. apply IH. now apply float_add_notna. }
  apply Hacc. reflexivity.
Qed.

(** Without infinite costs every group total is a number. *)
Lemma groupby_sum_notna {K} {ord : Ord K} (key : Row float -> K) (df : DataFrame float) :
  no_infinite_cost df ->
  Forall (fun e => notna (snd e) = true) (groupby_sum key df).
Proof.
  intros Hdf. unfold groupby_sum. apply Forall_map, Forall_forall.
  intros k _. simpl. apply float_pd_sum_notna.
  apply Forall_map, Forall_forall. intros r Hr. apply filter_In in Hr.
  unfold no_infinite_cost in Hdf. rewrite Forall_forall in Hdf. apply Hdf, Hr.
Qed.

(** Without infinite costs [generate_recommendations] returns. *)
Lemma recommendations_return (df : DataFrame float) :
  no_infinite_cost df -> exists recs, generate_recommendations df = Returns recs.
Proof.
  intros Hdf. apply generate_recommendations_returns.
  pose proof (groupby_sum_notna (@cloud_provider float) Hdf) as Hall.
  destruct (groupby_sum (@cloud_provider float) df) as [|e s]; [left; simpl; lia|].
  right. exists e. split; [now left|]. now inversion Hall.
Qed.

(** ** Constant series in exact arithmetic *)

Lemma real_notna (x : R) : notna x = true.
Proof. unfold notna. simpl. unfold Reqb. destruct (Req_dec_T x x); congruence. Qed.

Lemma real_filter_notna (l : list R) : filter notna l = l.
Proof. apply filter_all_true, Forall_forall. intros x _. apply real_notna. Qed.

Lemma real_fsum_constant (c : R) (l : list R) :
  Forall (fun x => x = c) l -> fsum l = (INR (List.length l) * c)%R.
Proof.
  intros Hl. rewrite <- (Rplus_0_l (INR (List.length l) * c)).
  unfold fsum. change (@zero R real_number) with 0%R. generalize 0%R.
  induction Hl as [|x l Hx _ IH]; intros acc.
  - simpl. lra.
  - cbn [fold_left]. rewrite IH. subst x.
    change (List.length (c :: l)) with (S (List.length l)). rewrite S_INR.
    simpl. lra.
Qed.

(** Without rounding the mean of a constant series is its value, and its
    standard deviation is 0. *)
Lemma real_pd_mean_constant (c : R) (l : list R) :
  l <> [] -> Forall (fun x => x = c) l -> pd_mean l = c.
Proof.
  intros Hne Hl. unfold pd_mean. rewrite real_filter_notna, (real_fsum_constant Hl).
  simpl. field. apply not_0_INR. destruct l; [contradiction|discriminate].
Qed.

Lemma real_pd_std_constant (c : R) (l : list R) :
  Forall (fun x => x = c) l -> ltb zero (pd_std l) = false.
Proof.
  intros Hl.
  assert (Hzero : forall x : R, x = 0%R -> ltb zero x = false).
  { intros x ->. simpl. unfold Rltb, zero. simpl.
    destruct (Rlt_dec 0 0) as [H|H]; [lra|reflexivity]. }
  unfold pd_std. rewrite real_filter_notna.
  destruct (List.length l <=? 1) eqn:Hlen.
  - apply Hzero. simpl. unfold Rdiv. apply Rmult_0_l.
  - cbv zeta. apply Hzero.
    assert (Hne : l <> []) by (destruct l; [discriminate|congruence]).
    pose proof (real_pd_mean_constant Hne Hl) as Hmean.
    unfold pd_mean in Hmean. rewrite real_filter_notna in Hmean. rewrite Hmean.
    assert (Hsqr : Forall (fun x => x = 0%R) (map (fun x => mul (sub c x) (sub c x)) l)).
    { apply Forall_map. revert Hl. apply Forall_impl. intros x ->. simpl. lra. }
    rewrite (real_fsum_constant Hsqr). simpl.
    rewrite Rmult_0_r. unfold Rdiv. rewrite Rmult_0_l. apply sqrt_0.
Qed.

(** The zero-variance property in exact arithmetic: no premise on the
    mean is needed there. *)
Lemma constant_series_exact (fmt : Formatter R) :
  forall (df : DataFrame R) (provider : string) (c threshold : R),
    (forall row, In row (provider_data (daily_costs df) provider) -> snd row = c) ->
    (0 <= threshold)%R ->
    forall a, In a (detect_anomalies df threshold) -> a_provider a <> provider.
Proof.
  intros df provider c threshold Hconst Hthr a Hin Hp.
  apply anomaly_of_provider in Hin. rewrite Hp in Hin.
  rewrite provider_anomalies_guard_false in Hin; auto.
  - apply real_pd_std_constant with (c := c).
    apply Forall_map, Forall_forall. exact Hconst.
  - simpl. unfold zero. simpl. rewrite Rabs_R0. unfold Rltb.
    destruct (Rlt_dec threshold 0) as [H|H]; [lra|reflexivity].
Qed.

(** * The properties of the specification *)

(** ** The total *)



(** ** The example scenario *)

(** C2, as stated, fails: the only anomaly of the scenario has severity
    [medium]. *)
Lemma scenario_severity_is_not_high : ~ scenario_claim.
Proof.
  intros [_ [a [Hin [_ [_ Hsev]]]]].
  vm_compute in Hin. destruct Hin as [<-|[]]. discriminate Hsev.
Qed.

(** C2, amended: in the scenario the total is 3400, and with threshold 2.0
    [detect_anomalies] returns exactly one anomaly, the AWS record of
    2024-01-05 with cost 500, whose z-score, computed from the mean 140
    and the sample standard deviation of the ten AWS totals, is greater
    than 2 but not greater than 3, so its severity is [medium]. *)
Theorem scenario_results :
  (exists s : Summary float,
      get_cost_summary scenario = SummaryOk s /\ total_cost s = 3400%float)
  /\ detect_anomalies scenario default_threshold
     = [ {| a_date := "2024-01-05"; a_provider := "AWS"; a_cost := 500%float;
            a_expected_range := "-112.98 - 392.98"; a_severity := "medium" |} ]
  /\ pd_mean scenario_aws_series = 140%float
  /\ (let z := z_score 500%float (pd_mean scenario_aws_series) (pd_std scenario_aws_series) in
      ltb default_threshold (abs z) = true /\ ltb (of_nat 3) (abs z) = false).
Proof.
  split; [|split; [|split; [|split]]].
  - eexists. split; [reflexivity|]. vm_compute. reflexivity.
  - vm_compute. reflexivity.
  - vm_compute. reflexivity.
  - vm_compute. reflexivity.
  - vm_compute. reflexivity.
Qed.

(** ** Zero variance *)


(** Rounding alone can defeat the guard: the mean of three totals of 0.1
    is computed as 0.10000000000000002, the standard deviation is then
    positive, and with the threshold 0.5 all three days are reported. *)
Lemma zero_variance_rounding_example :
  let c := 0x1.999999999999ap-4%float in
  pd_mean (values (provider_data (daily_costs (constant_scenario c)) "AWS")) <> c
  /\ ltb zero (pd_std (values (provider_data (daily_costs (constant_scenario c)) "AWS"))) = true
  /\ List.length (detect_anomalies (constant_scenario c) 0.5%float) = 3.
Proof.
  cbv zeta. split; [|split].
  - vm_compute. intros H.
    assert (Hb : PrimFloat.eqb 0x1.999999999999bp-4%float 0x1.999999999999ap-4%float = true)
      by (rewrite H; reflexivity).
    vm_compute in Hb. discriminate.
  - vm_compute. reflexivity.
  - vm_compute. reflexivity.
Qed.



(** ** Empty input *)

(** C4: on an empty dataset [get_cost_summary] returns the no-data marker
    (the dict holding only [error]), [detect_anomalies] returns the empty
    list, and [generate_recommendations] returns the list holding exactly
    the no-data message; none of them raises.  This holds for every
    arithmetic, every formatter and every threshold. *)
Theorem empty_dataset_results :
  forall (F : Type) (num : Number F) (fmt : Formatter F) (threshold : F),
    get_cost_summary (@nil (Row F)) = @SummaryError F "No cost data available"
    /\ detect_anomalies (@nil (Row F)) threshold = []
    /\ generate_recommendations (@nil (Row F))
       = Returns ["No data available for recommendations"].
Proof.
  intros F num fmt threshold.
  repeat split.
Qed.

(** ** Ordering of the anomalies *)

(** C5: the list returned by [detect_anomalies] is ordered by date,
    descending: no entry precedes one with a later [date] string; each
    [date] is the formatted date of a record, and on valid dates the
    strings are ordered as the calendar days are, so the most recent
    anomaly comes first.  In particular an entry dated 2024-01-10 stands
    before every entry dated 2024-01-05. *)
Theorem anomalies_ordered_by_date_descending :
  forall (F : Type) (num : Number F) (fmt : Formatter F)
         (df : DataFrame F) (threshold : F),
    StronglySorted (fun a b => String.ltb (a_date a) (a_date b) = false)
                   (detect_anomalies df threshold)
    /\ (forall a, In a (detect_anomalies df threshold) ->
                  exists r, In r df /\ a_date a = strftime (date r))
    /\ (forall d1 d2, valid_date d1 -> valid_date d2 ->
                      String.ltb (strftime d1) (strftime d2)
                      = key_ltb (calendar_day d1) (calendar_day d2))
    /\ (forall i j a b,
          nth_error (detect_anomalies df threshold) i = Some a ->
          nth_error (detect_anomalies df threshold) j = Some b ->
          a_date a = "2024-01-10" -> a_date b = "2024-01-05" -> i < j).
Proof.
  intros F num fmt df threshold.
  assert (Hs : StronglySorted (fun a b => String.ltb (a_date a) (a_date b) = false)
                              (detect_anomalies df threshold)).
  { unfold detect_anomalies. destruct (empty df); [constructor|].
    exact (py_sorted_reverse_descending (@a_date F) (anomalies_found df threshold)). }
  split; [exact Hs|]. split; [|split].
  - intros a Ha. destruct (anomaly_date_of_row _ _ _ Ha) as [r [Hr [Hd _]]]. eauto.
  - apply strftime_ltb.
  - intros i j a b Hi Hj Ha Hb.
    destruct (Nat.lt_trichotomy i j) as [Hlt|[Heq|Hgt]]; [assumption| |].
    + subst j. rewrite Hi in Hj. inversion Hj; subst b.
      rewrite Ha in Hb. discriminate.
    + pose proof (StronglySorted_nth Hs Hgt Hj Hi) as Hba.
      simpl in Hba. rewrite Ha, Hb in Hba. discriminate.
Qed.

Lemma anomalies_ordered_by_date_descending_witness :
  exists a b : Anomaly float,
    nth_error (detect_anomalies two_spikes default_threshold) 0 = Some a
    /\ nth_error (detect_anomalies two_spikes default_threshold) 1 = Some b
    /\ a_date a = "2024-01-10" /\ a_date b = "2024-01-05" /\ 0 < 1.
Proof.
  eexists. eexists.
  assert (H0 : nth_error (detect_anomalies two_spikes default_threshold) 0
               = Some {| a_date := "2024-01-10"; a_provider := "AWS"; a_cost := 500%float;
                         a_expected_range := "-144.73 - 478.07"; a_severity := "medium" |})
    by (vm_compute; reflexivity).
  assert (H1 : nth_error (detect_anomalies two_spikes default_threshold) 1
               = Some {| a_date := "2024-01-05"; a_provider := "AWS"; a_cost := 500%float;
                         a_expected_range := "-144.73 - 478.07"; a_severity := "medium" |})
    by (vm_compute; reflexivity).
  split; [exact H0|]. split; [exact H1|]. split; [reflexivity|]. split; [reflexivity|].
  exact (proj2 (proj2 (proj2
           (@anomalies_ordered_by_date_descending float binary64 float_Formatter
              two_spikes default_threshold)))
           0 1 _ _ H0 H1 eq_refl eq_refl).
Defined.

(** ** The breakdown by provider *)



(** In binary64 the total and the sum of the provider totals of
    [rounding_example] differ in the last place. *)
Lemma binary64_sums_differ_by_rounding :
  pd_sum (map (@cost float) rounding_example) = 0x1.3333333333334p-1%float
  /\ fsum (values (groupby_sum (@cloud_provider float) rounding_example))
     = 0x1.3333333333333p-1%float.
Proof. split; vm_compute; reflexivity. Qed.

(** ** The cost-spike warning *)



(** With infinite costs of both signs in every provider the call raises. *)
Lemma recommendations_raise_on_nan_totals :
  generate_recommendations infinite_costs = Raises "KeyError".
Proof. vm_compute. reflexivity. Qed.

(** ** Ties among the top services *)




(** ** Determinism *)



(** ** A single date *)

(** C10, as stated, fails: with the threshold -1 the single AWS record of
    a one-record dataset is reported (z-score 0, standard deviation NaN). *)
Lemma single_date_negative_threshold : ~ single_date_claim.
Proof.
  intros Hclaim.
  specialize (Hclaim [scenario_row "AWS" 1 100] "AWS" (jan 1) (-1)%float).
  apply Hclaim with
    (a := {| a_date := "2024-01-01"; a_provider := "AWS"; a_cost := 100%float;
             a_expected_range := "nan - nan"; a_severity := "medium" |}).
  - intros r [<-|[]] _. reflexivity.
  - vm_compute. left. reflexivity.
  - reflexivity.
Qed.

(** C10, amended: when all the records of a provider carry the same date
    and the threshold is not negative, [detect_anomalies] (a total
    function: nothing is raised) reports nothing for that provider: the
    standard deviation of its series is NaN, the guard [std_cost > 0] is
    false for NaN, and every z-score is taken as 0. *)
Theorem single_date_no_anomaly :
  forall (df : DataFrame float) (provider : string) (d : datetime) (threshold : float),
    (forall r, In r df -> cloud_provider r = provider -> date r = d) ->
    ltb threshold zero = false ->
    let std_cost := pd_std (values (provider_data (daily_costs df) provider)) in
    std_cost = nan
    /\ ltb zero std_cost = false
    /\ (forall x mean_cost, z_score x mean_cost std_cost = zero)
    /\ forall a, In a (detect_anomalies df threshold) -> a_provider a <> provider.
Proof.
  intros df provider d threshold Hdate Hthr std_cost.
  assert (Hstd : std_cost = nan).
  { apply pd_std_short. unfold values. rewrite length_map.
    now apply provider_data_single_date with (d := d). }
  assert (Hguard : ltb zero std_cost = false) by (rewrite Hstd; reflexivity).
  split; [exact Hstd|]. split; [exact Hguard|]. split.
  - intros x mean_cost. unfold z_score. now rewrite Hguard.
  - intros a Hin Hp. apply anomaly_of_provider in Hin. rewrite Hp in Hin.
    rewrite provider_anomalies_guard_false in Hin; auto.
Qed.

Lemma single_date_no_anomaly_witness :
  (forall r, In r [scenario_row "AWS" 1 100] -> cloud_provider r = "AWS" -> date r = jan 1)
  /\ ltb (default_threshold : float) zero = false
  /\ forall a, In a (detect_anomalies [scenario_row "AWS" 1 100] default_threshold) ->
               a_provider a <> "AWS".
Proof.
  assert (H1 : forall r, In r [scenario_row "AWS" 1 100] ->
                         cloud_provider r = "AWS" -> date r = jan 1).
  { intros r [<-|[]] _. reflexivity. }
  assert (H2 : ltb (default_threshold : float) zero = false) by (vm_compute; reflexivity).
  split; [exact H1|]. split; [exact H2|].
  exact (proj2 (proj2 (proj2
           (@single_date_no_anomaly [scenario_row "AWS" 1 100] "AWS" (jan 1)
              default_threshold H1 H2)))).
Defined.

(** * Further properties of the code *)

(** ** Further facts about the list operations *)

Section MoreListFacts.
Context {A : Type}.

Lemma StronglySorted_app_inv (R : A -> A -> Prop) (l1 l2 : list A) :
  StronglySorted R (l1 ++ l2) -> forall a b, In a l1 -> In b l2 -> R a b.
Proof.
  induction l1 as [|x l1 IH]; simpl; intros Hs a b Ha Hb; [contradiction|].
  inversion Hs as [|? ? Hs' Hfa]; subst.
  destruct Ha as [<-|Ha].
  - rewrite Forall_forall in Hfa. apply Hfa, in_or_app. now right.
  - now apply IH.
Qed.

Lemma filter_split_perm (p : A -> bool) (l : list A) :
  Permutation l (filter p l ++ filter (fun x => negb (p x)) l).
Proof.
  induction l as [|x l IH]; simpl; [constructor|].
  destruct (p x); simpl.
  - now constructor.
  - now apply Permutation_cons_app.
Qed.

Lemma filter_perm (p : A -> bool) (l l' : list A) :
  Permutation l l' -> Permutation (filter p l) (filter p l').
Proof.
  induction 1 as [|x l l' _ IH|x y l|l l' l'' _ IH1 _ IH2]; simpl.
  - constructor.
  - destruct (p x); [now constructor | assumption].
  - destruct (p x), (p y); try reflexivity. apply perm_swap.
  - now transitivity (filter p l').
Qed.

Lemma length_stable_sort (lt : A -> A -> bool) (l : list A) :
  List.length (stable_sort lt l) = List.length l.
Proof. symmetry. apply Permutation_length, stable_sort_perm. Qed.

Lemma length_unique_le (eqb : A -> A -> bool) (l : list A) :
  List.length (unique eqb l) <= List.length l.
Proof.
  induction l as [|x l IH]; simpl; [lia|].
  pose proof (length_filter_le (fun y => negb (eqb x y)) (unique eqb l)). lia.
Qed.


End MoreListFacts.

(** ** Least and greatest key *)

Section MinMax.
Context {K : Type} `{OrdLaws K}.

Lemma key_min_spec (x : K) (l : list K) :
  In (key_min x l) (x :: l)
  /\ forall y, In y (x :: l) -> key_ltb y (key_min x l) = false.
Proof.
  unfold key_min. revert x. induction l as [|z l IH]; intros x.
  - simpl. split; [auto|]. intros y [<-|[]]. apply key_ltb_irrefl.
  - cbn [fold_left]. destruct (key_ltb z x) eqn:E.
    + destruct (IH z) as [Hin Hle]. split.
      * simpl in *. tauto.
      * intros y [<-|Hy]; [|now apply Hle].
        apply key_ltb_negtrans with (y := z).
        -- apply Hle. now left.
        -- now apply key_ltb_asym.
    + destruct (IH x) as [Hin Hle]. split.
      * simpl in *. tauto.
      * intros y [<-|[<-|Hy]].
        -- apply Hle. now left.
        -- apply key_ltb_negtrans with (y := x); [|assumption].
           apply Hle. now left.
        -- apply Hle. now right.
Qed.

Lemma key_max_spec (x : K) (l : list K) :
  In (key_max x l) (x :: l)
  /\ forall y, In y (x :: l) -> key_ltb (key_max x l) y = false.
Proof.
  unfold key_max. revert x. induction l as [|z l IH]; intros x.
  - simpl. split; [auto|]. intros y [<-|[]]. apply key_ltb_irrefl.
  - cbn [fold_left]. destruct (key_ltb x z) eqn:E.
    + destruct (IH z) as [Hin Hle]. split.
      * simpl in *. tauto.
      * intros y [<-|Hy]; [|now apply Hle].
        apply key_ltb_negtrans with (y := z).
        -- now apply key_ltb_asym.
        -- apply Hle. now left.
    + destruct (IH x) as [Hin Hle]. split.
      * simpl in *. tauto.
      * intros y [<-|[<-|Hy]].
        -- apply Hle. now left.
        -- apply key_ltb_negtrans with (y := x); [assumption|].
           apply Hle. now left.
        -- apply Hle. now right.
Qed.

(** The least element of a list is determined by the elements alone. *)
Lemma least_unique (l : list K) (m m' : K) :
  In m l -> (forall y, In y l -> key_ltb y m = false) ->
  In m' l -> (forall y, In y l -> key_ltb y m' = false) -> m = m'.
Proof.
  intros Hm Hle Hm' Hle'.
  destruct (key_eqb m m') eqn:E; [now apply key_eqb_eq|].
  apply key_eqb_neq in E.
  pose proof (key_ltb_total (Hle' m Hm) (fun Heq => E (eq_sym Heq))) as Hlt.
  rewrite (Hle m' Hm') in Hlt. discriminate.
Qed.

Lemma greatest_unique (l : list K) (m m' : K) :
  In m l -> (forall y, In y l -> key_ltb m y = false) ->
  In m' l -> (forall y, In y l -> key_ltb m' y = false) -> m = m'.
Proof.
  intros Hm Hle Hm' Hle'.
  destruct (key_eqb m m') eqn:E; [now apply key_eqb_eq|].
  apply key_eqb_neq in E.
  pose proof (key_ltb_total (Hle m' Hm') (fun Heq => E (eq_sym Heq))) as Hlt.
  rewrite (Hle' m Hm) in Hlt. discriminate.
Qed.

(** Two strictly increasing lists with the same elements are equal. *)
Lemma increasing_unique (l l' : list K) :
  StronglySorted (fun a b => key_ltb a b = true) l ->
  StronglySorted (fun a b => key_ltb a b = true) l' ->
  (forall x, In x l <-> In x l') -> l = l'.
Proof.
  intros Hs. revert l'. induction Hs as [|a l Hs IH Hfa]; intros l' Hs' Hin.
  - destruct l' as [|b l']; [reflexivity|].
    exfalso. apply (proj2 (Hin b)). now left.
  - destruct Hs' as [|b l' Hs' Hfb].
    + exfalso. apply (proj1 (Hin a)). now left.
    + rewrite Forall_forall in Hfa, Hfb.
      assert (Hab : a = b).
      { destruct (proj1 (Hin a) (or_introl eq_refl)) as [Hba|Ha]; [now symmetry|].
        destruct (proj2 (Hin b) (or_introl eq_refl)) as [Hab|Hb]; [assumption|].
        pose proof (Hfb a Ha) as H1. pose proof (Hfa b Hb) as H2.
        apply key_ltb_asym in H1. congruence. }
      subst b. f_equal. apply IH; [assumption|].
      intros x. split; intros Hx.
      * destruct (proj1 (Hin x) (or_intror Hx)) as [<-|Hx']; [|assumption].
        specialize (Hfa a Hx). rewrite key_ltb_irrefl in Hfa. discriminate.
      * destruct (proj2 (Hin x) (or_intror Hx)) as [<-|Hx']; [|assumption].
        specialize (Hfb a Hx). rewrite key_ltb_irrefl in Hfb. discriminate.
Qed.

(** The labels of a groupby depend on the set of keys only. *)
Lemma group_keys_ext (l l' : list K) :
  (forall x, In x l <-> In x l') -> group_keys l = group_keys l'.
Proof.
  intros Hin. apply increasing_unique; try apply group_keys_increasing.
  intros x. now rewrite !In_group_keys.
Qed.

Lemma length_group_keys_le (l : list K) : List.length (group_keys l) <= List.length l.
Proof.
  unfold group_keys. rewrite length_stable_sort. apply length_unique_le.
Qed.
End MinMax.

(** ** The summary *)



Section SummaryFacts.
Context {F : Type} {num : Number F}.

Lemma length_groupby_sum {K} {ord : Ord K} (key : Row F -> K) (df : DataFrame F) :
  List.length (groupby_sum key df) = List.length (group_keys (map key df)).
Proof. unfold groupby_sum. apply length_map. Qed.

Lemma groupby_sum_labels {K} {ord : Ord K} (key : Row F -> K) (df : DataFrame F) :
  map fst (groupby_sum key df) = group_keys (map key df).
Proof. unfold groupby_sum. rewrite map_map. simpl. apply map_id. Qed.

Lemma sort_values_descending_perm {K} (s : Series F K) :
  Permutation s (sort_values_descending s).
Proof.
  unfold sort_values_descending.
  eapply Permutation_trans; [apply (filter_split_perm (fun e => notna (snd e)))|].
  apply Permutation_app; [|reflexivity].
  eapply Permutation_trans; [apply Permutation_rev|].
  eapply Permutation_trans; [apply stable_sort_perm|].
  apply Permutation_rev.
Qed.

Lemma summary_of_nonempty (df : DataFrame F) (s : Summary F) :
  get_cost_summary df = SummaryOk s ->
  exists r rest,
    df = r :: rest
    /\ s = {| total_cost := pd_sum (map (@cost F) df);
              average_daily_cost := pd_mean (values (groupby_sum (@date F) df));
              cost_by_provider := groupby_sum (@cloud_provider F) df;
              cost_by_service := top_services 10 df;
              date_range_start := strftime (key_min (date r) (map (@date F) rest));
              date_range_end := strftime (key_max (date r) (map (@date F) rest)) |}.
Proof.
  destruct df as [|r rest]; [discriminate|].
  intros Hs. inversion Hs. eauto.
Qed.
End SummaryFacts.







(** ** Sums that do not depend on the order *)

Section ExactOrder.
Context {F : Type} {num : Number F}.
Hypothesis Hexact : exact_addition num.

Lemma fsum_perm (l l' : list F) : Permutation l l' -> fsum l = fsum l'.
Proof.
  induction 1 as [|x l l' _ IH|x y l|l l' l'' _ IH1 _ IH2].
  - reflexivity.
  - now rewrite !(fsum_cons Hexact), IH.
  - rewrite !(fsum_cons Hexact), !(add_assoc' Hexact). f_equal. apply (add_comm' Hexact).
  - congruence.
Qed.

Lemma pd_sum_perm (l l' : list F) : Permutation l l' -> pd_sum l = pd_sum l'.
Proof. intros Hp. unfold pd_sum. now apply fsum_perm, filter_perm. Qed.

Lemma groupby_sum_perm {K} `{OrdLaws K} (key : Row F -> K) (df df' : DataFrame F) :
  Permutation df df' -> groupby_sum key df = groupby_sum key df'.
Proof.
  intros Hp. unfold groupby_sum.
  rewrite (@group_keys_ext K _ _ (map key df) (map key df')).
  - apply map_ext. intros k. f_equal.
    apply pd_sum_perm, Permutation_map, filter_perm, Hp.
  - intros x. split; apply Permutation_in; [|symmetry]; now apply Permutation_map.
Qed.
End ExactOrder.

(** In an arithmetic whose addition does not round, and when the dataset
    has at most ten services, the values of [cost_by_service] add up to
    [total_cost]. *)
Theorem service_costs_sum_to_total :
  forall (F : Type) (num : Number F),
    exact_addition num ->
    forall (df : DataFrame F) (s : Summary F),
      get_cost_summary df = SummaryOk s ->
      List.length (group_keys (map (@service F) df)) <= 10 ->
      fsum (values (cost_by_service s)) = total_cost s.
Proof.
  intros F num Hexact df s Hs Hlen.
  destruct (summary_of_nonempty _ Hs) as [r [rest [Hdf ->]]].
  cbn [cost_by_service total_cost]. unfold top_services, head.
  pose proof (sort_values_descending_perm (groupby_sum (@service F) df)) as Hperm.
  rewrite firstn_all2.
  - rewrite <- (groupby_sum_total Hexact (@service F) df).
    apply (fsum_perm Hexact). unfold values. apply Permutation_map.
    now apply Permutation_sym.
  - rewrite <- (Permutation_length Hperm), length_groupby_sum. exact Hlen.
Qed.

Lemma service_costs_sum_to_total_witness :
  exact_addition real_number
  /\ List.length (group_keys (map (@service R) real_example)) <= 10
  /\ match get_cost_summary real_example with
     | SummaryOk s => fsum (values (cost_by_service s)) = total_cost s
     | SummaryError _ => False
     end.
Proof.
  assert (Hlen : List.length (group_keys (map (@service R) real_example)) <= 10)
    by (vm_compute; lia).
  split; [exact real_exact_addition|]. split; [exact Hlen|].
  cbv beta iota delta [get_cost_summary real_example].
  apply (@service_costs_sum_to_total R real_number real_exact_addition real_example).
  - reflexivity.
  - exact Hlen.
Defined.

(** In an arithmetic whose addition does not round, and when every total
    of a date is a number, [average_daily_cost] is [total_cost] divided by
    the number of distinct values of the [date] column. *)
Theorem average_daily_cost_is_total_over_dates :
  forall (F : Type) (num : Number F),
    exact_addition num ->
    forall (df : DataFrame F) (s : Summary F),
      get_cost_summary df = SummaryOk s ->
      Forall (fun e => notna (snd e) = true) (groupby_sum (@date F) df) ->
      average_daily_cost s
      = div (total_cost s) (of_nat (List.length (group_keys (map (@date F) df)))).
Proof.
  intros F num Hexact df s Hs Hnum.
  destruct (summary_of_nonempty _ Hs) as [r [rest [Hdf ->]]].
  cbn [average_daily_cost total_cost]. unfold pd_mean.
  rewrite filter_all_true by (unfold values; now apply Forall_map).
  rewrite (groupby_sum_total Hexact (@date F) df).
  unfold values. now rewrite length_map, length_groupby_sum.
Qed.

Lemma average_daily_cost_is_total_over_dates_witness :
  exact_addition real_number
  /\ Forall (fun e => notna (snd e) = true) (groupby_sum (@date R) real_example)
  /\ match get_cost_summary real_example with
     | SummaryOk s =>
         average_daily_cost s
         = div (total_cost s)
               (of_nat (List.length (group_keys (map (@date R) real_example))))
     | SummaryError _ => False
     end.
Proof.
  assert (Hnum : Forall (fun e => notna (snd e) = true)
                        (groupby_sum (@date R) real_example)).
  { apply Forall_forall. intros e _. apply real_notna. }
  split; [exact real_exact_addition|]. split; [exact Hnum|].
  cbv beta iota delta [get_cost_summary real_example].
  apply (@average_daily_cost_is_total_over_dates R real_number real_exact_addition
           real_example).
  - reflexivity.
  - exact Hnum.
Defined.

(** In an arithmetic whose addition does not round, the three analyses do
    not depend on the order of the records: on two datasets that hold the
    same records in different orders they give the same summary, the same
    anomalies and the same recommendations. *)
Theorem analysis_independent_of_record_order :
  forall (F : Type) (num : Number F) (fmt : Formatter F),
    exact_addition num ->
    forall (df df' : DataFrame F) (threshold : F),
      Permutation df df' ->
      get_cost_summary df = get_cost_summary df'
      /\ detect_anomalies df threshold = detect_anomalies df' threshold
      /\ generate_recommendations df = generate_recommendations df'.
Proof.
  intros F num fmt Hexact df df' threshold Hp.
  assert (Hgroup : forall (K : Type) (ord : Ord K) (laws : OrdLaws K) (key : Row F -> K),
             groupby_sum key df = groupby_sum key df').
  { intros K ord laws key. now apply groupby_sum_perm. }
  assert (Hempty : empty df = empty df').
  { destruct df as [|r rest], df' as [|r' rest']; try reflexivity.
    - apply Permutation_nil in Hp. discriminate.
    - apply Permutation_sym, Permutation_nil in Hp. discriminate. }
  assert (Htop : forall n, top_services n df = top_services n df').
  { intros n. unfold top_services. now rewrite (Hgroup _ _ _ (@service F)). }
  split; [|split].
  - destruct df as [|r rest], df' as [|r' rest']; try discriminate; [reflexivity|].
    unfold get_cost_summary. f_equal.
    rewrite (Hgroup _ _ _ (@date F)), (Hgroup _ _ _ (@cloud_provider F)), (Htop 10).
    rewrite (pd_sum_perm Hexact (Permutation_map (@cost F) Hp)).
    assert (Hin : forall y, In y (map (@date F) (r :: rest))
                            <-> In y (map (@date F) (r' :: rest'))).
    { intros y. split; apply Permutation_in; [|symmetry]; now apply Permutation_map. }
    destruct (key_min_spec (date r) (map (@date F) rest)) as [Hmin Hle].
    destruct (key_min_spec (date r') (map (@date F) rest')) as [Hmin' Hle'].
    destruct (key_max_spec (date r) (map (@date F) rest)) as [Hmax Hge].
    destruct (key_max_spec (date r') (map (@date F) rest')) as [Hmax' Hge'].
    change (date r :: map (@date F) rest) with (map (@date F) (r :: rest)) in *.
    change (date r' :: map (@date F) rest') with (map (@date F) (r' :: rest')) in *.
    rewrite (@least_unique _ _ _ (map (@date F) (r :: rest))
               (key_min (date r) (map (@date F) rest))
               (key_min (date r') (map (@date F) rest')));
      auto; try (now apply Hin); try (intros y Hy; apply Hle'; now apply Hin).
    rewrite (@greatest_unique _ _ _ (map (@date F) (r :: rest))
               (key_max (date r) (map (@date F) rest))
               (key_max (date r') (map (@date F) rest')));
      auto; try (now apply Hin); try (intros y Hy; apply Hge'; now apply Hin).
  - unfold detect_anomalies, anomalies_found, daily_costs.
    now rewrite Hempty, (Hgroup _ _ _ (fun r => (date r, cloud_provider r))).
  - unfold generate_recommendations, service_recommendations, provider_recommendations,
      trend_recommendations.
    now rewrite Hempty, (Htop 3), (Hgroup _ _ _ (@cloud_provider F)),
      (Hgroup _ _ _ (@date F)).
Qed.

Lemma analysis_independent_of_record_order_witness :
  exact_addition real_number
  /\ Permutation real_example (rev real_example)
  /\ get_cost_summary real_example = get_cost_summary (rev real_example).
Proof.
  assert (Hp : Permutation real_example (rev real_example)) by apply Permutation_rev.
  split; [exact real_exact_addition|]. split; [exact Hp|].
  exact (proj1 (@analysis_independent_of_record_order R real_number
                  {| format_fixed := fun _ _ => EmptyString |}
                  real_exact_addition real_example (rev real_example) 0%R Hp)).
Defined.

(** In binary64 the order of the records matters: 0.1 + 0.2 + 0.3 and
    0.3 + 0.2 + 0.1 differ in the last place. *)
Lemma binary64_total_depends_on_order :
  let costs := [0x1.999999999999ap-4; 0x1.999999999999ap-3; 0x1.3333333333333p-2]%float in
  pd_sum costs = 0x1.3333333333334p-1%float
  /\ pd_sum (rev costs) = 0x1.3333333333333p-1%float.
Proof. split; vm_compute; reflexivity. Qed.

(** ** The anomalies *)

Section UniqueFacts.
Context {A : Type}.
Variable eqb : A -> A -> bool.
Hypothesis eqb_eq : forall x y, eqb x y = true <-> x = y.

Lemma In_unique_eqb (x : A) (l : list A) : In x (unique eqb l) <-> In x l.
Proof.
  induction l as [|y l IH]; simpl; [tauto|].
  rewrite filter_In, IH. split.
  - intros [->|[Hx _]]; auto.
  - intros [->|Hx]; auto.
    destruct (eqb y x) eqn:E.
    + apply eqb_eq in E. auto.
    + right. split; [assumption | reflexivity].
Qed.



End UniqueFacts.

Section AnomalyFacts.
Context {F : Type} {num : Number F} {fmt : Formatter F}.

Lemma In_providers (dc : Series F (datetime * string)) (p : string) :
  In p (providers dc) <-> exists row, In row dc /\ snd (fst row) = p.
Proof.
  unfold providers. rewrite (@In_unique_eqb _ String.eqb String.eqb_eq), in_map_iff.
  split; intros [row Hrow]; exists row; tauto.
Qed.

(** The record that [detect_anomalies] builds for a row of daily totals. *)
Lemma In_anomalies_found (df : DataFrame F) (threshold : F) (a : Anomaly F) :
  In a (anomalies_found df threshold) <->
  exists row : (datetime * string) * F,
    In row (daily_costs df)
    /\ let series := values (provider_data (daily_costs df) (snd (fst row))) in
       let mean_cost := pd_mean series in
       let std_cost := pd_std series in
       let z := z_score (snd row) mean_cost std_cost in
       ltb threshold (abs z) = true
       /\ a = {| a_date := strftime (fst (fst row));
                 a_provider := snd (fst row);
                 a_cost := snd row;
                 a_expected_range := expected_range mean_cost std_cost threshold;
                 a_severity := if ltb (of_nat 3) (abs z) then "high" else "medium" |}.
Proof.
  unfold anomalies_found. rewrite in_flat_map. split.
  - intros [provider [Hp Ha]]. unfold provider_anomalies in Ha.
    apply in_flat_map in Ha. destruct Ha as [row [Hrow Ha]].
    apply filter_In in Hrow. destruct Hrow as [Hrow Heq].
    apply String.eqb_eq in Heq. subst provider.
    exists row. split; [assumption|]. cbv zeta.
    destruct (ltb threshold _); [|contradiction].
    destruct Ha as [<-|[]]. split; reflexivity.
  - intros [row [Hrow Ha]]. cbv zeta in Ha. destruct Ha as [Hz ->].
    exists (snd (fst row)). split.
    + apply In_providers. eauto.
    + unfold provider_anomalies. apply in_flat_map. exists row. split.
      * apply filter_In. split; [assumption|]. apply String.eqb_refl.
      * rewrite Hz. now left.
Qed.

Lemma detect_anomalies_found (df : DataFrame F) (threshold : F) (a : Anomaly F) :
  In a (detect_anomalies df threshold) <-> In a (anomalies_found df threshold).
Proof.
  unfold detect_anomalies. destruct df as [|r rest].
  - simpl. tauto.
  - cbn [empty]. unfold py_sorted_reverse. apply In_stable_sort.
Qed.


End AnomalyFacts.



(** ** The order of binary64 numbers, continued *)

Lemma float_ltb_nan_l (x y : float) : notna x = false -> ltb x y = false.
Proof.
  intros Hx. simpl. rewrite ltb_spec. unfold SFltb.
  destruct (Prim2SF x) eqn:E; try reflexivity;
    assert (Hn : notna x = true) by (apply float_notna_spec; congruence); congruence.
Qed.

Lemma float_ltb_notna (x y : float) :
  ltb x y = true -> notna x = true /\ notna y = true.
Proof.
  intros Hlt. split.
  - destruct (notna x) eqn:E; [reflexivity|]. now rewrite float_ltb_nan_l in Hlt.
  - destruct (notna y) eqn:E; [reflexivity|]. now rewrite float_ltb_nan_r in Hlt.
Qed.

Lemma float_ltb_trans (x y z : float) :
  ltb x y = true -> ltb y z = true -> ltb x z = true.
Proof.
  intros Hxy Hyz.
  destruct (float_ltb_notna Hxy) as [Hx Hy].
  destruct (float_ltb_notna Hyz) as [_ Hz].
  rewrite float_ltb_key in * by assumption. eapply key_ltb_trans; eauto.
Qed.

(** [x < y] and not [x < w] give [w < y] when [w] is a number. *)
Lemma float_ltb_le_trans (x y w : float) :
  ltb x y = true -> ltb x w = false -> notna w = true -> ltb w y = true.
Proof.
  intros Hxy Hxw Hw.
  destruct (float_ltb_notna Hxy) as [Hx Hy].
  destruct (ltb w y) eqn:Hwy; [reflexivity|].
  rewrite (float_ltb_negtrans Hy Hw Hx Hwy Hxw) in Hxy. discriminate.
Qed.

(** Every anomaly has the severity [high] or [medium], and with a threshold
    of 3 or more every anomaly has the severity [high]. *)
Theorem severity_is_high_from_threshold_three :
  forall (df : DataFrame float) (threshold : float) (a : Anomaly float),
    In a (detect_anomalies df threshold) ->
    (a_severity a = "high" \/ a_severity a = "medium")
    /\ (ltb threshold (of_nat 3) = false -> a_severity a = "high").
Proof.
  intros df threshold a Hin.
  apply detect_anomalies_found, In_anomalies_found in Hin.
  destruct Hin as [row [_ Ha]]. cbv zeta in Ha. destruct Ha as [Hz ->].
  cbn [a_severity].
  destruct (ltb (of_nat 3) _) eqn:H3.
  - split; [now left | reflexivity].
  - split; [now right|]. intros Hthr.
    rewrite (float_ltb_le_trans Hz Hthr) in H3; [discriminate | reflexivity].
Qed.

Lemma severity_is_high_from_threshold_three_witness :
  exists a : Anomaly float,
    In a (detect_anomalies lone_spike 3%float)
    /\ ltb 3%float (of_nat 3) = false
    /\ a_severity a = "high".
Proof.
  assert (Hin : In {| a_date := "2024-01-05"; a_provider := "AWS"; a_cost := 500%float;
                      a_expected_range := "-213.08 - 479.74"; a_severity := "high" |}
                   (detect_anomalies lone_spike 3%float)).
  { vm_compute. left. reflexivity. }
  assert (Hthr : ltb 3%float (of_nat 3) = false) by (vm_compute; reflexivity).
  eexists. split; [exact Hin|]. split; [exact Hthr|].
  exact (proj2 (severity_is_high_from_threshold_three _ _ _ Hin) Hthr).
Defined.

(** ** The recommendations *)

Section RecommendationFacts.
Context {F : Type} {num : Number F} {fmt : Formatter F}.

Lemma length_trend_recommendations (df : DataFrame F) :
  List.length (trend_recommendations df) <= 1.
Proof.
  unfold trend_recommendations.
  destruct (7 <? _); [destruct (recent_above_average _)|]; simpl; lia.
Qed.

Lemma length_provider_recommendations (df : DataFrame F) (lines : list string) :
  provider_recommendations df = Returns lines ->
  List.length lines
  = if 1 <? List.length (group_keys (map (@cloud_provider F) df)) then 1 else 0.
Proof.
  unfold provider_recommendations. rewrite length_groupby_sum.
  destruct (1 <? _).
  - destruct (idxmax _); [|discriminate]. intros Hr. now inversion Hr.
  - intros Hr. now inversion Hr.
Qed.

Lemma length_top_services (n : nat) (df : DataFrame F) :
  List.length (top_services n df)
  = Nat.min n (List.length (group_keys (map (@service F) df))).
Proof.
  unfold top_services, head.
  rewrite length_firstn,
    <- (Permutation_length (sort_values_descending_perm (groupby_sum (@service F) df))).
  now rewrite length_groupby_sum.
Qed.

Lemma group_keys_nonempty {K} `{OrdLaws K} (key : Row F -> K) (df : DataFrame F) :
  df <> [] -> 1 <= List.length (group_keys (map key df)).
Proof.
  destruct df as [|r rest]; [contradiction|]. intros _.
  assert (Hin : In (key r) (group_keys (map key (r :: rest)))).
  { apply In_group_keys. now left. }
  destruct (group_keys _); [contradiction | simpl; lia].
Qed.
End RecommendationFacts.

Lemma recommendations_shape :
  forall (F : Type) (num : Number F) (fmt : Formatter F)
         (df : DataFrame F) (recs : list string),
    df <> [] ->
    generate_recommendations df = Returns recs ->
    exists provider_lines : list string,
      recs = service_recommendations df ++ provider_lines ++ trend_recommendations df
      /\ List.length (service_recommendations df)
         = Nat.min 3 (List.length (group_keys (map (@service F) df)))
      /\ List.length provider_lines
         = (if 1 <? List.length (group_keys (map (@cloud_provider F) df)) then 1 else 0)
      /\ List.length (trend_recommendations df) <= 1
      /\ 1 <= List.length recs <= 5
      /\ exists top,
          nth_error (sort_values_descending (groupby_sum (@service F) df)) 0 = Some top
          /\ nth_error recs 0 = Some (service_recommendation top).
Proof.
  intros F num fmt df recs Hne Hret.
  unfold generate_recommendations in Hret.
  destruct df as [|r df']; [contradiction|]. cbn [empty] in Hret.
  set (df := r :: df') in *.
  destruct (provider_recommendations df) as [lines|exn] eqn:Hprov; [|discriminate].
  inversion Hret; subst recs; clear Hret.
  exists lines.
  assert (Hsvc : List.length (service_recommendations df)
                 = Nat.min 3 (List.length (group_keys (map (@service F) df)))).
  { unfold service_recommendations. rewrite length_map. apply length_top_services. }
  pose proof (length_provider_recommendations _ Hprov) as Hlines.
  pose proof (length_trend_recommendations df) as Htrend.
  pose proof (group_keys_nonempty (@service F) Hne) as Hone.
  split; [reflexivity|]. split; [exact Hsvc|]. split; [exact Hlines|].
  split; [exact Htrend|]. split.
  - rewrite !length_app, Hsvc, Hlines. clear Hsvc Hlines.
    destruct (1 <? _); lia.
  - unfold service_recommendations, top_services, head.
    pose proof (Permutation_length
                  (sort_values_descending_perm (groupby_sum (@service F) df))) as Hl.
    rewrite length_groupby_sum in Hl.
    destruct (sort_values_descending (groupby_sum (@service F) df)) as [|top rest].
    + cbn [List.length] in Hl. lia.
    + exists top. split; reflexivity.
Qed.

(** On a dataset that is not empty the list of recommendations holds, in
    this order: one line for each of the three costliest services (fewer
    when there are fewer services, but at least one), one line about the
    distribution over the providers when there is more than one provider,
    and at most one line about the trend.  So it has between one and five
    entries, and its first entry is about the costliest service. *)
Theorem recommendations_between_one_and_five :
  forall (F : Type) (num : Number F) (fmt : Formatter F)
         (df : DataFrame F) (recs : list string),
    df <> [] ->
    generate_recommendations df = Returns recs ->
    exists provider_lines : list string,
      recs = service_recommendations df ++ provider_lines ++ trend_recommendations df
      /\ List.length (service_recommendations df)
         = Nat.min 3 (List.length (group_keys (map (@service F) df)))
      /\ List.length provider_lines
         = (if 1 <? List.length (group_keys (map (@cloud_provider F) df)) then 1 else 0)
      /\ List.length (trend_recommendations df) <= 1
      /\ 1 <= List.length recs <= 5
      /\ exists top,
          nth_error (sort_values_descending (groupby_sum (@service F) df)) 0 = Some top
          /\ nth_error recs 0 = Some (service_recommendation top).
Proof. exact recommendations_shape. Qed.

Lemma recommendations_between_one_and_five_witness :
  tie_scenario <> []
  /\ exists recs, generate_recommendations tie_scenario = Returns recs
                  /\ 1 <= List.length recs <= 5.
Proof.
  assert (Hne : tie_scenario <> []) by (vm_compute; discriminate).
  split; [exact Hne|]. eexists. split; [vm_compute; reflexivity|].
  destruct (@recommendations_between_one_and_five float binary64 float_Formatter
              tie_scenario _ Hne eq_refl) as [lines [_ [_ [_ [_ [Hlen _]]]]]].
  exact Hlen.
Defined.

(** With records on seven or fewer distinct dates the recommendations never
    hold the cost-spike warning, whatever the costs are. *)
Theorem no_spike_warning_within_seven_dates :
  forall (F : Type) (num : Number F) (fmt : Formatter F)
         (df : DataFrame F) (recs : list string),
    List.length (group_keys (map (@date F) df)) <= 7 ->
    generate_recommendations df = Returns recs ->
    ~ In spike_warning recs.
Proof.
  intros F num fmt df recs Hlen Hret Hin.
  unfold generate_recommendations in Hret.
  destruct (empty df).
  - inversion Hret; subst recs. destruct Hin as [Hin|[]]. discriminate Hin.
  - destruct (provider_recommendations df) as [lines|exn] eqn:Hprov; [|discriminate].
    inversion Hret; subst recs; clear Hret.
    apply in_app_or in Hin. destruct Hin as [Hin|Hin].
    + now apply warning_not_in_service_recommendations in Hin.
    + apply in_app_or in Hin. destruct Hin as [Hin|Hin].
      * now apply (warning_not_in_provider_recommendations _ Hprov) in Hin.
      * unfold trend_recommendations in Hin. rewrite length_groupby_sum in Hin.
        replace (7 <? _) with false in Hin; [contradiction|].
        symmetry. apply Nat.ltb_ge. exact Hlen.
Qed.

Lemma no_spike_warning_within_seven_dates_witness :
  List.length (group_keys (map (@date float) tie_scenario)) <= 7
  /\ exists recs, generate_recommendations tie_scenario = Returns recs
                  /\ ~ In spike_warning recs.
Proof.
  assert (Hlen : List.length (group_keys (map (@date float) tie_scenario)) <= 7)
    by (vm_compute; lia).
  split; [exact Hlen|]. eexists. split; [vm_compute; reflexivity|].
  exact (@no_spike_warning_within_seven_dates float binary64 float_Formatter
           tie_scenario _ Hlen eq_refl).
Defined.

(** ** The costliest provider *)

Section FirstGreatest.
Context {K : Type}.

Lemma fold_first_greatest (rest l1 : list (K * float)) (b : K * float) (l2 : list (K * float)) :
  Forall (fun e => notna (snd e) = true) (l1 ++ b :: l2 ++ rest) ->
  Forall (fun x => ltb (snd x) (snd b) = true) l1 ->
  Forall (fun x => ltb (snd b) (snd x) = false) l2 ->
  exists l1' b' l2',
    fold_left (fun best x => if ltb (snd best) (snd x) then x else best) rest b = b'
    /\ l1 ++ b :: l2 ++ rest = l1' ++ b' :: l2'
    /\ Forall (fun x => ltb (snd x) (snd b') = true) l1'
    /\ Forall (fun x => ltb (snd b') (snd x) = false) l2'.
Proof.
  revert l1 b l2. induction rest as [|x rest IH]; intros l1 b l2 Hnum H1 H2.
  - exists l1, b, l2. rewrite app_nil_r. auto.
  - cbn [fold_left].
    assert (Hlist : l1 ++ b :: l2 ++ x :: rest = (l1 ++ b :: l2) ++ x :: [] ++ rest).
    { rewrite <- app_assoc. reflexivity. }
    assert (Hlist' : l1 ++ b :: l2 ++ x :: rest = l1 ++ b :: (l2 ++ [x]) ++ rest).
    { rewrite <- app_assoc. reflexivity. }
    destruct (ltb (snd b) (snd x)) eqn:Hbx.
    + rewrite Hlist in *. apply IH; auto.
      apply Forall_app. split; [|constructor].
      * revert H1. apply Forall_impl. intros y Hy. eapply float_ltb_trans; eauto.
      * exact Hbx.
      * rewrite Forall_forall in *. intros y Hy.
        apply (float_ltb_le_trans Hbx); [now apply H2|].
        apply Hnum. rewrite !in_app_iff. left. right. simpl. now right.
    + rewrite Hlist' in *. apply IH; auto.
      apply Forall_app. split; [assumption|]. constructor; [assumption|constructor].
Qed.

(** [idxmax] returns the label of the first of the greatest entries. *)
Lemma idxmax_first_greatest (s : Series float K) (p : K) :
  idxmax s = Some p ->
  exists l1 b l2,
    filter (fun e => notna (snd e)) s = l1 ++ b :: l2
    /\ fst b = p
    /\ Forall (fun x => ltb (snd x) (snd b) = true) l1
    /\ Forall (fun x => ltb (snd b) (snd x) = false) l2.
Proof.
  unfold idxmax.
  assert (Hnum : Forall (fun e : K * float => notna (snd e) = true)
                        (filter (fun e => notna (snd e)) s)).
  { apply Forall_forall. intros e He. apply filter_In in He. tauto. }
  destruct (filter (fun e => notna (snd e)) s) as [|e s'] eqn:E; [discriminate|].
  intros Hp.
  destruct (@fold_first_greatest s' [] e [] Hnum (Forall_nil _) (Forall_nil _))
    as [l1 [b [l2 [Hb [Hl [H1 H2]]]]]].
  exists l1, b, l2. simpl in Hl. rewrite Hb in Hp. injection Hp as Hp'. auto.
Qed.
End FirstGreatest.

Lemma loc_of_entry {F} {num : Number F} {K} `{OrdLaws K} (s : Series F K) (b : K * F) :
  NoDup (map fst s) -> In b s -> loc s (fst b) = snd b.
Proof.
  unfold loc. induction s as [|e s IH]; intros Hnd Hin; [contradiction|].
  inversion Hnd as [|? ? He Hnd']; subst. cbn [find].
  destruct (key_eqb (fst e) (fst b)) eqn:E.
  - apply key_eqb_eq in E. destruct Hin as [->|Hin]; [reflexivity|].
    exfalso. apply He. rewrite E. now apply in_map.
  - destruct Hin as [->|Hin]; [|now apply IH].
    rewrite key_eqb_refl in E. discriminate.
Qed.

(** The line about the distribution over the providers is there exactly
    when the dataset has more than one provider.  The provider it names has
    the greatest total: its total is a number, no provider has a greater
    one, and a provider with an equal total does not come before it in the
    order of the names. *)
Theorem provider_line_names_costliest_provider :
  forall (df : DataFrame float) (lines : list string),
    provider_recommendations df = Returns lines ->
    let totals := groupby_sum (@cloud_provider float) df in
    (List.length totals <= 1 /\ lines = [])
    \/ (1 < List.length totals
        /\ exists p : string,
            lines = [ provider_recommendation p
                        (mul (div (loc totals p) (pd_sum (values totals))) (of_nat 100)) ]
            /\ In (p, loc totals p) totals
            /\ notna (loc totals p) = true
            /\ forall q v, In (q, v) totals ->
                 ltb (loc totals p) v = false
                 /\ (eqb v (loc totals p) = true -> String.ltb q p = false)).
Proof.
  intros df lines Hret totals. unfold provider_recommendations in Hret.
  fold totals in Hret.
  destruct (1 <? List.length totals) eqn:Hlen.
  2:{ left. apply Nat.ltb_ge in Hlen. split; [assumption|]. now inversion Hret. }
  right. apply Nat.ltb_lt in Hlen. split; [assumption|].
  destruct (idxmax totals) as [p|] eqn:Hmax; [|discriminate].
  inversion Hret; subst lines; clear Hret.
  exists p. split; [reflexivity|].
  destruct (idxmax_first_greatest _ Hmax) as [l1 [b [l2 [Hf [Hb [H1 H2]]]]]].
  assert (Hsorted : StronglySorted (fun a b : string * float => key_ltb (fst a) (fst b) = true)
                                   (l1 ++ b :: l2)).
  { rewrite <- Hf. apply StronglySorted_filter. apply groupby_sum_increasing. }
  assert (Hin : In b totals /\ notna (snd b) = true).
  { apply (proj1 (filter_In (fun e : string * float => notna (snd e)) b totals)).
    rewrite Hf. apply in_or_app. right. now left. }
  destruct Hin as [Hin Hnum].
  assert (Hloc : loc totals p = snd b).
  { rewrite <- Hb. apply loc_of_entry; [|assumption].
    unfold totals. rewrite groupby_sum_labels. apply group_keys_NoDup. }
  rewrite Hloc. split; [|split].
  - rewrite <- Hb. now destruct b.
  - exact Hnum.
  - intros q v Hqv.
    destruct (notna v) eqn:Hv.
    2:{ split; [now apply float_ltb_nan_r|].
        intros Heq. apply float_eqb_notna in Heq. destruct Heq as [Hv' _]. congruence. }
    assert (Hin' : In (q, v) (l1 ++ b :: l2)).
    { rewrite <- Hf. apply filter_In. auto. }
    rewrite Forall_forall in H1, H2.
    apply in_app_or in Hin'. destruct Hin' as [Hin'|[Heq|Hin']].
    + specialize (H1 _ Hin'). cbn [snd] in H1. split; [now apply float_ltb_asym|].
      intros Heq. apply float_eqb_not_ltb in Heq. congruence.
    + subst b. simpl. split.
      * apply float_eqb_not_ltb. exact Hnum.
      * intros _. simpl in Hb. subst q. exact (key_ltb_irrefl p).
    + specialize (H2 _ Hin'). cbn [snd] in H2. split; [assumption|].
      intros _.
      assert (Hsorted' : StronglySorted
                           (fun a b : string * float => key_ltb (fst a) (fst b) = true)
                           ((l1 ++ [b]) ++ l2)).
      { rewrite <- app_assoc. exact Hsorted. }
      assert (Hb1 : In b (l1 ++ [b])) by (apply in_or_app; right; now left).
      pose proof (@StronglySorted_app_inv _ _ _ _ Hsorted' b (q, v) Hb1 Hin') as Hbq.
      simpl in Hbq. rewrite Hb in Hbq. exact (key_ltb_asym _ _ Hbq).
Qed.

Lemma provider_line_names_costliest_provider_witness :
  exists lines : list string,
    provider_recommendations rounding_example = Returns lines
    /\ 1 < List.length (groupby_sum (@cloud_provider float) rounding_example)
    /\ exists p : string,
        lines = [ provider_recommendation p
                    (mul (div (loc (groupby_sum (@cloud_provider float) rounding_example) p)
                              (pd_sum (values (groupby_sum (@cloud_provider float)
                                                           rounding_example))))
                         (of_nat 100)) ].
Proof.
  eexists. split; [vm_compute; reflexivity|].
  destruct (@provider_line_names_costliest_provider rounding_example _ eq_refl)
    as [[Hlen _]|[Hlen [p [Hlines _]]]].
  - vm_compute in Hlen. lia.
  - split; [exact Hlen|]. exists p. exact Hlines.
Defined.

(** ** The threshold *)

(** Raising the threshold never adds an anomaly: what is reported with a
    threshold is reported, with the same date, provider, cost and
    severity, with every smaller threshold. *)
Theorem higher_threshold_reports_less :
  forall (df : DataFrame float) (low high : float) (a : Anomaly float),
    notna low = true ->
    ltb high low = false ->
    In a (detect_anomalies df high) ->
    exists a' : Anomaly float,
      In a' (detect_anomalies df low)
      /\ a_date a' = a_date a /\ a_provider a' = a_provider a
      /\ a_cost a' = a_cost a /\ a_severity a' = a_severity a.
Proof.
  intros df low high a Hlow Hle Hin.
  apply detect_anomalies_found, In_anomalies_found in Hin.
  destruct Hin as [row [Hrow Ha]]. cbv zeta in Ha. destruct Ha as [Hz ->].
  eexists. split.
  - apply detect_anomalies_found, In_anomalies_found. exists row.
    split; [exact Hrow|]. cbv zeta. split; [|reflexivity].
    exact (float_ltb_le_trans Hz Hle Hlow).
  - repeat split.
Qed.

Lemma higher_threshold_reports_less_witness :
  exists a' : Anomaly float,
    In a' (detect_anomalies lone_spike 2%float)
    /\ a_date a' = "2024-01-05" /\ a_severity a' = "high".
Proof.
  assert (Hin : In {| a_date := "2024-01-05"; a_provider := "AWS"; a_cost := 500%float;
                      a_expected_range := "-213.08 - 479.74"; a_severity := "high" |}
                   (detect_anomalies lone_spike 3%float)).
  { vm_compute. left. reflexivity. }
  destruct (@higher_threshold_reports_less lone_spike 2%float 3%float _ eq_refl eq_refl Hin)
    as [a' (Hin' & Hdate & _ & _ & Hsev)].
  exists a'. split; [exact Hin'|]. split; [exact Hdate | exact Hsev].
Defined.

(** ** The expected range *)

(** In exact arithmetic, and with a threshold that is not negative, the
    cost of a reported anomaly lies outside the expected range: it is less
    than the mean minus the threshold times the standard deviation, or
    greater than the mean plus the threshold times the standard deviation,
    of the daily totals of its provider. *)
Theorem anomaly_cost_outside_expected_range :
  forall (fmt : Formatter R) (df : DataFrame R) (threshold : R) (a : Anomaly R),
    (0 <= threshold)%R ->
    In a (detect_anomalies df threshold) ->
    exists row : (datetime * string) * R,
      In row (daily_costs df)
      /\ a_date a = strftime (fst (fst row))
      /\ a_provider a = snd (fst row)
      /\ a_cost a = snd row
      /\ let series := values (provider_data (daily_costs df) (snd (fst row))) in
         (a_cost a < pd_mean series - threshold * pd_std series
          \/ a_cost a > pd_mean series + threshold * pd_std series)%R.
Proof.
  intros fmt df threshold a Hthr Hin.
  apply detect_anomalies_found, In_anomalies_found in Hin.
  destruct Hin as [row [Hrow Ha]]. cbv zeta in Ha. destruct Ha as [Hz ->].
  exists row. cbn [a_date a_provider a_cost].
  split; [exact Hrow|]. split; [reflexivity|]. split; [reflexivity|].
  split; [reflexivity|]. cbv zeta.
  set (m := pd_mean _) in *. set (s := pd_std _) in *.
  unfold z_score in Hz.
  change (@ltb R real_number) with Rltb in Hz.
  change (@abs R real_number) with Rabs in Hz.
  change (@div R real_number) with Rdiv in Hz.
  change (@sub R real_number) with Rminus in Hz.
  change (@zero R real_number) with 0%R in Hz.
  change (@mul R real_number) with Rmult.
  change (@sub R real_number) with Rminus.
  change (@add R real_number) with Rplus.
  unfold Rltb in Hz.
  destruct (Rlt_dec 0 s) as [Hs|Hs].
  - destruct (Rlt_dec threshold (Rabs ((snd row - m) / s))) as [Hlt|]; [|discriminate].
    assert (Hdiv : ((snd row - m) / s * s = snd row - m)%R) by (field; lra).
    unfold Rabs in Hlt. destruct (Rcase_abs ((snd row - m) / s)) as [Hneg|Hpos].
    + left.
      assert (H1 : (threshold * s < - ((snd row - m) / s) * s)%R)
        by (apply Rmult_lt_compat_r; assumption).
      lra.
    + right.
      assert (H1 : (threshold * s < (snd row - m) / s * s)%R)
        by (apply Rmult_lt_compat_r; assumption).
      lra.
  - destruct (Rlt_dec threshold (Rabs 0)) as [Hlt|]; [|discriminate].
    rewrite Rabs_R0 in Hlt. lra.
Qed.

Lemma real_two_days_daily_costs :
  daily_costs real_two_days = [((jan 1, "AWS"), 1%R); ((jan 2, "AWS"), 3%R)].
Proof.
  unfold daily_costs, groupby_sum.
  assert (Hk : group_keys (map (fun r : Row R => (date r, cloud_provider r)) real_two_days)
               = [(jan 1, "AWS"); (jan 2, "AWS")]) by reflexivity.
  rewrite Hk. cbn [map].
  assert (H1 : filter (fun r : Row R => key_eqb (date r, cloud_provider r) (jan 1, "AWS"))
                      real_two_days
               = [ {| date := jan 1; cloud_provider := "AWS"; service := "Compute";
                      cost := 1%R; currency := "USD" |} ]) by reflexivity.
  assert (H2 : filter (fun r : Row R => key_eqb (date r, cloud_provider r) (jan 2, "AWS"))
                      real_two_days
               = [ {| date := jan 2; cloud_provider := "AWS"; service := "Compute";
                      cost := 3%R; currency := "USD" |} ]) by reflexivity.
  rewrite H1, H2. unfold pd_sum. rewrite !real_filter_notna.
  unfold fsum. cbn [map fold_left cost].
  change (@add R real_number) with Rplus. change (@zero R real_number) with 0%R.
  now rewrite !Rplus_0_l.
Qed.

Lemma real_two_days_anomaly :
  exists a : Anomaly R,
    In a (@detect_anomalies R real_number silent_Formatter real_two_days 0%R).
Proof.
  eexists. apply detect_anomalies_found, In_anomalies_found.
  exists ((jan 2, "AWS"), 3%R). rewrite real_two_days_daily_costs.
  split; [right; left; reflexivity|]. cbv zeta. split; [|reflexivity].
  change (values (provider_data [(jan 1, "AWS", 1%R); (jan 2, "AWS", 3%R)]
                                (snd (fst (jan 2, "AWS", 3%R)))))
    with [1%R; 3%R].
  cbn [snd].
  assert (Hmean : pd_mean [1%R; 3%R] = 2%R).
  { unfold pd_mean. rewrite real_filter_notna. unfold fsum. simpl. field. }
  assert (Hstd : pd_std [1%R; 3%R] = R_sqrt.sqrt 2).
  { unfold pd_std. rewrite real_filter_notna. unfold fsum. simpl. f_equal. field. }
  rewrite Hmean, Hstd.
  assert (Hpos : (0 < R_sqrt.sqrt 2)%R) by (apply sqrt_lt_R0; lra).
  unfold z_score.
  change (@ltb R real_number) with Rltb. change (@abs R real_number) with Rabs.
  change (@div R real_number) with Rdiv. change (@sub R real_number) with Rminus.
  change (@zero R real_number) with 0%R.
  unfold Rltb. destruct (Rlt_dec 0 (R_sqrt.sqrt 2)) as [_|Hn]; [|contradiction].
  destruct (Rlt_dec 0 (Rabs ((3 - 2) / R_sqrt.sqrt 2))) as [_|Hn]; [reflexivity|].
  exfalso. apply Hn. apply Rabs_pos_lt.
  apply Rgt_not_eq. apply Rdiv_lt_0_compat; lra.
Qed.

Lemma anomaly_cost_outside_expected_range_witness :
  exists (a : Anomaly R) (row : (datetime * string) * R),
    In a (@detect_anomalies R real_number silent_Formatter real_two_days 0%R)
    /\ In row (daily_costs real_two_days)
    /\ a_cost a = snd row.
Proof.
  destruct real_two_days_anomaly as [a Hin].
  assert (Hthr : (0 <= 0)%R) by apply Rle_refl.
  destruct (@anomaly_cost_outside_expected_range silent_Formatter real_two_days 0%R a
              Hthr Hin) as [row (Hrow & _ & _ & Hcost & _)].
  exists a, row. split; [exact Hin|]. split; [exact Hrow | exact Hcost].
Defined.

(** ** The calendar *)

Lemma datetime_ltb_spec (a b : datetime) :
  key_ltb a b = true <->
  year a < year b
  \/ (year a = year b
      /\ (month a < month b
          \/ (month a = month b
              /\ (day a < day b
                  \/ (day a = day b /\ time_of_day a < time_of_day b))))).
Proof.
  unfold key_ltb.
  cbn [key_compare datetime_Ord prod_Ord nat_Ord datetime_fields fst snd].
  destruct (Nat.compare_spec (year a) (year b));
    destruct (Nat.compare_spec (month a) (month b));
    destruct (Nat.compare_spec (day a) (day b));
    destruct (Nat.compare_spec (time_of_day a) (time_of_day b));
    split; intros; try discriminate; try reflexivity; lia.
Qed.

Lemma datetime_ltb_false (a b : datetime) :
  key_ltb a b = false <->
  year b < year a
  \/ (year b = year a
      /\ (month b < month a
          \/ (month b = month a
              /\ (day b < day a
                  \/ (day b = day a /\ time_of_day b <= time_of_day a))))).
Proof.
  pose proof (datetime_ltb_spec a b) as Hs.
  destruct (key_ltb a b).
  - split; [discriminate|]. intros H.
    assert (Ht : true = true) by reflexivity. apply Hs in Ht. lia.
  - split; [intros _ | reflexivity].
    assert (Hn : ~ (year a < year b
                    \/ (year a = year b
                        /\ (month a < month b
                            \/ (month a = month b
                                /\ (day a < day b
                                    \/ (day a = day b
                                        /\ time_of_day a < time_of_day b))))))).
    { intros HP. apply Hs in HP. discriminate. }
    lia.
Qed.

Lemma days_in_month_bounds (y m : nat) : 28 <= days_in_month y m <= 31.
Proof.
  unfold days_in_month.
  do 12 (destruct m as [|m]; [try destruct (is_leap y); lia|]). lia.
Qed.

Lemma next_day_later (d d' : datetime) :
  next_day d = Returns d' -> key_ltb d d' = true.
Proof.
  unfold next_day. intros H. apply datetime_ltb_spec.
  destruct (day d <? _) eqn:E1; [inversion H; subst; simpl; lia|].
  destruct (month d <? 12) eqn:E2; [inversion H; subst; simpl; lia|].
  destruct (year d <? MAXYEAR) eqn:E3; [inversion H; subst; simpl; lia|].
  discriminate.
Qed.

Lemma next_day_time (d d' : datetime) :
  next_day d = Returns d' -> time_of_day d' = time_of_day d.
Proof.
  unfold next_day. intros H.
  destruct (day d <? _); [now inversion H|].
  destruct (month d <? 12); [now inversion H|].
  destruct (year d <? MAXYEAR); [now inversion H|discriminate].
Qed.

Lemma next_day_calendar (d d' : datetime) :
  calendar_date d -> next_day d = Returns d' -> calendar_date d'.
Proof.
  unfold next_day, calendar_date. intros (Hy & Hm & Hd) H.
  destruct (day d <? _) eqn:E1.
  { apply Nat.ltb_lt in E1. inversion H; subst; simpl. lia. }
  destruct (month d <? 12) eqn:E2.
  { apply Nat.ltb_lt in E2. inversion H; subst; simpl.
    pose proof (days_in_month_bounds (year d) (month d + 1)). lia. }
  destruct (year d <? MAXYEAR) eqn:E3; [|discriminate].
  apply Nat.ltb_lt in E3. inversion H; subst; simpl. lia.
Qed.

Lemma day_number_next (d d' : datetime) :
  calendar_date d -> next_day d = Returns d' -> day_number d < day_number d'.
Proof.
  unfold next_day, calendar_date, day_number. intros (Hy & Hm & Hd) H.
  pose proof (days_in_month_bounds (year d) (month d)).
  destruct (day d <? _) eqn:E1.
  { inversion H; subst; simpl. lia. }
  destruct (month d <? 12) eqn:E2.
  { inversion H; subst; simpl. lia. }
  destruct (year d <? MAXYEAR) eqn:E3; [|discriminate].
  apply Nat.ltb_ge in E2. inversion H; subst; simpl. lia.
Qed.

Lemma day_number_le (a b : datetime) :
  calendar_date a -> calendar_date b -> key_ltb b a = false ->
  day_number a <= day_number b.
Proof.
  unfold calendar_date, day_number. intros (Hya & Hma & Hda) (Hyb & Hmb & Hdb) Hle.
  apply datetime_ltb_false in Hle.
  pose proof (days_in_month_bounds (year a) (month a)).
  pose proof (days_in_month_bounds (year b) (month b)).
  lia.
Qed.

Lemma add_days_calendar (k : nat) (d d' : datetime) :
  calendar_date d -> add_days k d = Returns d' ->
  calendar_date d' /\ day_number d + k <= day_number d'
  /\ time_of_day d' = time_of_day d.
Proof.
  revert d. induction k as [|k IH]; intros d Hd H; simpl in H.
  - inversion H; subst. split; [exact Hd|]. split; [lia|reflexivity].
  - unfold bind in H. destruct (next_day d) as [d1|e] eqn:E; [|discriminate].
    destruct (IH d1 (next_day_calendar Hd E) H) as (Hc & Hn & Ht).
    pose proof (day_number_next Hd E). pose proof (next_day_time _ E).
    split; [exact Hc|]. split; [lia|congruence].
Qed.

Lemma add_days_not_earlier (k : nat) (d d' : datetime) :
  add_days k d = Returns d' -> key_ltb d' d = false.
Proof.
  revert d. induction k as [|k IH]; intros d H; simpl in H.
  - inversion H; subst. apply key_ltb_irrefl.
  - unfold bind in H. destruct (next_day d) as [d1|e] eqn:E; [|discriminate].
    apply key_ltb_negtrans with (y := d1).
    + apply key_ltb_asym. now apply next_day_later.
    + now apply IH.
Qed.

Lemma length_days_from (k : nat) (d d' : datetime) :
  add_days k d = Returns d' -> List.length (days_from (S k) d) = S k.
Proof.
  revert d. induction k as [|k IH]; intros d H.
  - simpl. now destruct (next_day d).
  - cbn [add_days] in H. unfold bind in H.
    destruct (next_day d) as [d1|e] eqn:E; [|discriminate].
    change (days_from (S (S k)) d)
      with (d :: match next_day d with
                 | Returns tomorrow => days_from (S k) tomorrow
                 | Raises _ => []
                 end).
    rewrite E. cbn [List.length]. now rewrite (IH d1 H).
Qed.

(** Going back a day and forth again. *)
Lemma next_previous_day (d d' : datetime) :
  calendar_date d -> previous_day d = Returns d' ->
  calendar_date d' /\ next_day d' = Returns d.
Proof.
  unfold previous_day, calendar_date. intros (Hy & Hm & Hd) H.
  destruct d as [y m dd t]. cbn [year month day time_of_day] in *.
  destruct (1 <? dd) eqn:E1.
  { apply Nat.ltb_lt in E1. inversion H; subst d'; clear H.
    unfold next_day. cbn [year month day time_of_day].
    split; [lia|].
    replace (dd - 1 <? days_in_month y m) with true by (symmetry; apply Nat.ltb_lt; lia).
    do 2 f_equal. lia. }
  apply Nat.ltb_ge in E1.
  destruct (1 <? m) eqn:E2.
  { apply Nat.ltb_lt in E2. inversion H; subst d'; clear H.
    unfold next_day. cbn [year month day time_of_day].
    pose proof (days_in_month_bounds y (m - 1)).
    split; [lia|].
    rewrite Nat.ltb_irrefl.
    replace (m - 1 <? 12) with true by (symmetry; apply Nat.ltb_lt; lia).
    f_equal. f_equal; lia. }
  apply Nat.ltb_ge in E2.
  destruct (1 <? y) eqn:E3; [|discriminate].
  apply Nat.ltb_lt in E3. inversion H; subst d'; clear H.
  unfold next_day. cbn [year month day time_of_day].
  assert (Hmax : y - 1 < MAXYEAR) by lia.
  split; [change (days_in_month (y - 1) 12) with 31; lia|].
  change (days_in_month (y - 1) 12) with 31. rewrite Nat.ltb_irrefl.
  apply Nat.ltb_lt in Hmax. rewrite Hmax.
  change (12 <? 12) with false. cbv iota.
  f_equal. f_equal; lia.
Qed.

Lemma add_days_succ_r (k : nat) (d d1 d2 : datetime) :
  add_days k d = Returns d1 -> next_day d1 = Returns d2 -> add_days (S k) d = Returns d2.
Proof.
  revert d. induction k as [|k IH]; intros d H1 H2.
  - simpl in H1. inversion H1; subst. simpl. unfold bind. now rewrite H2.
  - cbn [add_days] in *. unfold bind in *.
    destruct (next_day d) as [d'|e]; [|discriminate]. now apply IH.
Qed.

(** [k] days back and [k] days forth again. *)
Lemma add_sub_days (k : nat) (d d' : datetime) :
  calendar_date d -> sub_days k d = Returns d' ->
  calendar_date d' /\ add_days k d' = Returns d.
Proof.
  revert d. induction k as [|k IH]; intros d Hd H; simpl in H.
  - inversion H; subst. auto.
  - unfold bind in H. destruct (previous_day d) as [d1|e] eqn:E; [|discriminate].
    destruct (next_previous_day Hd E) as [Hd1 Hnext].
    destruct (IH d1 Hd1 H) as [Hd' Hadd].
    split; [assumption|]. now apply add_days_succ_r with (d1 := d1).
Qed.

Lemma next_day_returns (d : datetime) :
  year d < MAXYEAR -> exists d', next_day d = Returns d'.
Proof.
  intros Hy. unfold next_day.
  destruct (day d <? _); [eauto|].
  destruct (month d <? 12); [eauto|].
  apply Nat.ltb_lt in Hy. rewrite Hy. eauto.
Qed.

(** ** The generated data of the Azure and GCP adapters *)

Section MockFacts.
Context {F : Type} {num : Number F}.
Variable hash : string -> Z.
Variable cloud : string.
Variable services : list string.
Variables base modulus : Z.
Variable end_date : datetime.

(** The loop over a window that ends on [end_date]. *)
Lemma mock_loop_window (k : nat) :
  forall (current last : datetime) (acc : list (CostData F)) (rounds : nat),
    add_days k current = Returns last ->
    key_ltb end_date last = false ->
    (exists next, next_day last = Returns next /\ key_ltb end_date next = true) ->
    k + 2 <= rounds ->
    mock_loop hash rounds cloud services base modulus current end_date acc
    = Some (Returns (acc ++ flat_map (fun d => map (mock_cost_data hash cloud base modulus d)
                                                   services)
                                     (days_from (S k) current))).
Proof.
  induction k as [|k IH]; intros current last acc rounds Hadd Hle Hnext Hrounds.
  - simpl in Hadd. inversion Hadd; subst last; clear Hadd.
    destruct Hnext as [next [Hnext Hgt]].
    destruct rounds as [|[|rounds]]; try lia.
    cbn [mock_loop]. rewrite Hle, Hnext, Hgt.
    cbn [days_from flat_map]. rewrite Hnext. cbn [flat_map].
    now rewrite app_nil_r.
  - cbn [add_days] in Hadd. unfold bind in Hadd.
    destruct (next_day current) as [d1|e] eqn:E; [|discriminate].
    destruct rounds as [|rounds]; [lia|].
    cbn [mock_loop].
    assert (Hguard : key_ltb end_date current = false).
    { apply key_ltb_negtrans with (y := last); [|assumption].
      apply (@add_days_not_earlier (S k)). cbn [add_days]. unfold bind. now rewrite E. }
    rewrite Hguard, E.
    rewrite (IH d1 last) by (auto; lia).
    change (days_from (S (S k)) current)
      with (current :: match next_day current with
                       | Returns tomorrow => days_from (S k) tomorrow
                       | Raises _ => []
                       end).
    rewrite E. cbn [flat_map]. now rewrite app_assoc.
Qed.

Lemma mock_loop_generated (start_date : datetime) (rounds : nat) :
  (0 <= base)%Z -> (0 < modulus)%Z ->
  forall (current : datetime) (acc recs : list (CostData F)),
    key_ltb current start_date = false ->
    time_of_day current = time_of_day start_date ->
    Forall (generated cloud services base modulus end_date start_date) acc ->
    mock_loop hash rounds cloud services base modulus current end_date acc
    = Some (Returns recs) ->
    Forall (generated cloud services base modulus end_date start_date) recs.
Proof.
  intros Hbase Hmod.
  induction rounds as [|rounds IH]; intros current acc recs Hge Htime Hacc Hloop;
    [discriminate|].
  cbn [mock_loop] in Hloop.
  destruct (key_ltb end_date current) eqn:Hguard.
  { inversion Hloop; subst recs. exact Hacc. }
  destruct (next_day current) as [d1|e] eqn:E; [|discriminate].
  apply (IH d1) in Hloop; [assumption| | |].
  - apply key_ltb_negtrans with (y := current); [assumption|].
    apply key_ltb_asym. now apply next_day_later.
  - rewrite (next_day_time _ E). exact Htime.
  - apply Forall_app. split; [assumption|].
    apply Forall_map, Forall_forall. intros service Hin.
    unfold generated, mock_cost_data. cbn.
    repeat split; auto.
    exists (Z.to_nat (base + hash (service ++ str_datetime current) mod modulus)).
    pose proof (Z.mod_pos_bound (hash (service ++ str_datetime current)) modulus Hmod).
    split; [|reflexivity]. rewrite Z2Nat.id; lia.
Qed.

(** On the last day of the calendar the step to the next day fails. *)
Lemma mock_loop_overflow (n : nat) :
  year end_date = MAXYEAR -> month end_date = 12 -> day end_date = 31 ->
  forall (current : datetime) (acc : list (CostData F)) (rounds : nat),
    calendar_date current ->
    time_of_day current <= time_of_day end_date ->
    day_number end_date - day_number current <= n ->
    n + 1 <= rounds ->
    mock_loop hash rounds cloud services base modulus current end_date acc
    = Some (Raises "OverflowError").
Proof.
  intros Hy Hm Hd.
  assert (Hlast : forall d, calendar_date d -> time_of_day d <= time_of_day end_date ->
                            key_ltb end_date d = false
                            /\ day_number d <= day_number end_date).
  { intros d (Hyd & Hmd & Hdd) Ht.
    pose proof (days_in_month_bounds (year d) (month d)).
    split.
    - apply datetime_ltb_false. lia.
    - unfold day_number. rewrite Hy, Hm, Hd. lia. }
  induction n as [|n IH]; intros current acc rounds Hc Ht Hn Hrounds;
    (destruct rounds as [|rounds]; [lia|]); cbn [mock_loop];
    destruct (Hlast current Hc Ht) as [Hguard Hle]; rewrite Hguard;
    destruct (next_day current) as [d1|e] eqn:E.
  - pose proof (day_number_next Hc E).
    assert (Ht1 : time_of_day d1 <= time_of_day end_date)
      by (rewrite (next_day_time _ E); exact Ht).
    destruct (Hlast d1 (next_day_calendar Hc E) Ht1). lia.
  - unfold next_day in E.
    destruct (day current <? _); [discriminate|].
    destruct (month current <? 12); [discriminate|].
    destruct (year current <? MAXYEAR); [discriminate|]. now inversion E.
  - pose proof (day_number_next Hc E).
    assert (Ht1 : time_of_day d1 <= time_of_day end_date)
      by (rewrite (next_day_time _ E); exact Ht).
    apply IH; auto.
    + now apply next_day_calendar with (d := current).
    + lia.
    + lia.
  - unfold next_day in E.
    destruct (day current <? _); [discriminate|].
    destruct (month current <? 12); [discriminate|].
    destruct (year current <? MAXYEAR); [discriminate|]. now inversion E.
Qed.
End MockFacts.

Lemma length_flat_map_const {A B} (f : A -> list B) (n : nat) (l : list A) :
  (forall a, List.length (f a) = n) -> List.length (flat_map f l) = n * List.length l.
Proof.
  intros Hf. induction l as [|a l IH]; simpl; [lia|].
  rewrite length_app, Hf, IH. lia.
Qed.

Lemma generated_window :
  forall (F : Type) (num : Number F) (hash : string -> Z)
         (start_date end_date : datetime) (k : nat),
    calendar_date start_date ->
    add_days k start_date = Returns end_date ->
    year end_date < MAXYEAR ->
    let days := days_from (S k) start_date in
    let azure :=
      flat_map (fun d => map (@mock_cost_data F num hash "Azure" 50 100 d)
                             ["Compute"; "Storage"; "Networking"; "Database"]) days in
    let gcp :=
      flat_map (fun d => map (@mock_cost_data F num hash "GCP" 30 80 d)
                             ["Compute Engine"; "Cloud Storage"; "BigQuery"; "Cloud SQL"])
               days in
    List.length days = S k
    /\ AzureCostAnalyzer_get_cost_data hash start_date end_date = ([], Returns azure)
    /\ GCPCostAnalyzer_get_cost_data hash start_date end_date = ([], Returns gcp)
    /\ List.length azure = 4 * (k + 1)
    /\ List.length gcp = 4 * (k + 1).
Proof.
  intros F num hash start_date end_date k Hstart Hadd Hyear days azure gcp.
  assert (Hlen : List.length days = S k) by (apply (length_days_from _ _ Hadd)).
  destruct (add_days_calendar _ Hstart Hadd) as (Hend & Hnum & _).
  destruct (next_day_returns _ Hyear) as [next Hnext].
  assert (Hwindow : forall cloud services base modulus,
             @mock_get_cost_data F num hash cloud services base modulus start_date end_date
             = ([], Returns (flat_map (fun d => map (mock_cost_data hash cloud base modulus d)
                                                    services) days))).
  { intros cloud services base modulus. unfold mock_get_cost_data.
    rewrite (@mock_loop_window F num hash cloud services base modulus end_date k
               start_date end_date []); auto.
    - apply key_ltb_irrefl.
    - exists next. split; [assumption|]. now apply next_day_later.
    - unfold rounds_between. lia. }
  assert (Hcount : forall (cloud : string) (base modulus : Z) (services : list string),
             List.length services = 4 ->
             List.length (flat_map (fun d => map (@mock_cost_data F num hash cloud base
                                                                   modulus d) services) days)
             = 4 * (k + 1)).
  { intros cloud base modulus services Hs.
    rewrite (@length_flat_map_const _ _ _ 4).
    - rewrite Hlen. lia.
    - intros d. now rewrite length_map. }
  split; [exact Hlen|]. split; [apply Hwindow|]. split; [apply Hwindow|].
  split; apply Hcount; reflexivity.
Qed.

(** When the window from [start_date] to [end_date] is [k] whole days long
    (and does not end in the last year of the calendar) the Azure and the
    GCP adapter return, without logging anything, four records (one for
    each of their services) for each of the [k + 1] days of the window, day
    by day: [4 * (k + 1)] records each. *)
Theorem generated_data_four_records_a_day :
  forall (F : Type) (num : Number F) (hash : string -> Z)
         (start_date end_date : datetime) (k : nat),
    calendar_date start_date ->
    add_days k start_date = Returns end_date ->
    year end_date < MAXYEAR ->
    let days := days_from (S k) start_date in
    let azure :=
      flat_map (fun d => map (@mock_cost_data F num hash "Azure" 50 100 d)
                             ["Compute"; "Storage"; "Networking"; "Database"]) days in
    let gcp :=
      flat_map (fun d => map (@mock_cost_data F num hash "GCP" 30 80 d)
                             ["Compute Engine"; "Cloud Storage"; "BigQuery"; "Cloud SQL"])
               days in
    List.length days = S k
    /\ AzureCostAnalyzer_get_cost_data hash start_date end_date = ([], Returns azure)
    /\ GCPCostAnalyzer_get_cost_data hash start_date end_date = ([], Returns gcp)
    /\ List.length azure = 4 * (k + 1)
    /\ List.length gcp = 4 * (k + 1).
Proof. exact generated_window. Qed.

Lemma generated_data_four_records_a_day_witness :
  calendar_date (jan 1)
  /\ add_days 2 (jan 1) = Returns (jan 3)
  /\ year (jan 3) < MAXYEAR
  /\ List.length (delivered (snd (@AzureCostAnalyzer_get_cost_data float binary64
                                    (fun _ => 7%Z) (jan 1) (jan 3)))) = 4 * (2 + 1).
Proof.
  assert (H1 : calendar_date (jan 1)).
  { unfold calendar_date, MAXYEAR, jan. cbn [year month day days_in_month]. lia. }
  assert (H2 : add_days 2 (jan 1) = Returns (jan 3)) by (vm_compute; reflexivity).
  assert (H3 : year (jan 3) < MAXYEAR).
  { unfold MAXYEAR, jan. cbn [year]. lia. }
  split; [exact H1|]. split; [exact H2|]. split; [exact H3|].
  destruct (@generated_data_four_records_a_day float binary64 (fun _ => 7%Z)
              (jan 1) (jan 3) 2 H1 H2 H3) as (_ & Hazure & _ & Hlen & _).
  rewrite Hazure. exact Hlen.
Defined.

Lemma mock_adapter_generated {F} {num : Number F} (hash : string -> Z) (cloud : string)
      (services : list string) (base modulus : Z) (start_date end_date : datetime) :
  (0 <= base)%Z -> (0 < modulus)%Z ->
  exists recs : list (CostData F),
    snd (mock_get_cost_data hash cloud services base modulus start_date end_date)
    = Returns recs
    /\ Forall (generated cloud services base modulus end_date start_date) recs.
Proof.
  intros Hbase Hmod. unfold mock_get_cost_data.
  destruct (mock_loop _ _ _ _ _ _ _ _ _) as [[recs|e]|] eqn:Hloop; cbn [snd].
  - exists recs. split; [reflexivity|].
    eapply mock_loop_generated; try exact Hloop; auto.
    apply key_ltb_irrefl.
  - exists []. split; [reflexivity|constructor].
  - exists []. split; [reflexivity|constructor].
Qed.

(** Whatever the dates and the hash function are, the Azure and the GCP
    adapter return (they never raise), and every record they return
    carries the name of the cloud, the currency USD, one of the four
    services of the adapter, a whole number as cost (from 50 to 149 for
    Azure, from 30 to 109 for GCP), and a date that lies in the window and
    has the time of day of [start_date]. *)
Theorem generated_records_are_in_range :
  forall (F : Type) (num : Number F) (hash : string -> Z)
         (start_date end_date : datetime),
    (exists recs : list (CostData F),
        snd (AzureCostAnalyzer_get_cost_data hash start_date end_date) = Returns recs
        /\ forall c, In c recs ->
             cd_cloud_provider c = "Azure"
             /\ cd_currency c = "USD"
             /\ In (cd_service c) ["Compute"; "Storage"; "Networking"; "Database"]
             /\ (exists n : nat, 50 <= n <= 149 /\ cd_cost c = of_nat n)
             /\ key_ltb (cd_date c) start_date = false
             /\ key_ltb end_date (cd_date c) = false
             /\ time_of_day (cd_date c) = time_of_day start_date)
    /\ (exists recs : list (CostData F),
        snd (GCPCostAnalyzer_get_cost_data hash start_date end_date) = Returns recs
        /\ forall c, In c recs ->
             cd_cloud_provider c = "GCP"
             /\ cd_currency c = "USD"
             /\ In (cd_service c)
                   ["Compute Engine"; "Cloud Storage"; "BigQuery"; "Cloud SQL"]
             /\ (exists n : nat, 30 <= n <= 109 /\ cd_cost c = of_nat n)
             /\ key_ltb (cd_date c) start_date = false
             /\ key_ltb end_date (cd_date c) = false
             /\ time_of_day (cd_date c) = time_of_day start_date).
Proof.
  intros F num hash start_date end_date.
  split.
  - destruct (@mock_adapter_generated F num hash "Azure"
                ["Compute"; "Storage"; "Networking"; "Database"] 50%Z 100%Z
                start_date end_date) as [recs [Hret Hall]]; try lia.
    exists recs. split; [exact Hret|]. intros c Hc.
    rewrite Forall_forall in Hall.
    destruct (Hall c Hc) as (H1 & H2 & H3 & [n [Hn H4]] & H5 & H6 & H7).
    repeat split; auto. exists n. split; [lia|exact H4].
  - destruct (@mock_adapter_generated F num hash "GCP"
                ["Compute Engine"; "Cloud Storage"; "BigQuery"; "Cloud SQL"] 30%Z 80%Z
                start_date end_date) as [recs [Hret Hall]]; try lia.
    exists recs. split; [exact Hret|]. intros c Hc.
    rewrite Forall_forall in Hall.
    destruct (Hall c Hc) as (H1 & H2 & H3 & [n [Hn H4]] & H5 & H6 & H7).
    repeat split; auto. exists n. split; [lia|exact H4].
Qed.

(** A window that ends on the last day of the calendar: the step past
    [end_date] raises [OverflowError] inside the adapter, which logs the
    error and returns no record at all. *)
Theorem generated_data_lost_at_end_of_calendar :
  forall (F : Type) (num : Number F) (hash : string -> Z)
         (start_date end_date : datetime),
    calendar_date start_date ->
    year end_date = MAXYEAR -> month end_date = 12 -> day end_date = 31 ->
    time_of_day start_date <= time_of_day end_date ->
    @AzureCostAnalyzer_get_cost_data F num hash start_date end_date
    = ([ErrorFetching "Azure" "OverflowError"], Returns [])
    /\ @GCPCostAnalyzer_get_cost_data F num hash start_date end_date
       = ([ErrorFetching "GCP" "OverflowError"], Returns []).
Proof.
  intros F num hash start_date end_date Hstart Hy Hm Hd Ht.
  assert (Hmock : forall cloud services base modulus,
             @mock_get_cost_data F num hash cloud services base modulus start_date end_date
             = ([ErrorFetching cloud "OverflowError"], Returns [])).
  { intros cloud services base modulus. unfold mock_get_cost_data.
    rewrite (@mock_loop_overflow F num hash cloud services base modulus end_date
               (day_number end_date - day_number start_date) Hy Hm Hd); auto.
    unfold rounds_between. lia. }
  split; apply Hmock.
Qed.

Lemma generated_data_lost_at_end_of_calendar_witness :
  calendar_date last_day
  /\ @AzureCostAnalyzer_get_cost_data float binary64 (fun _ => 7%Z) last_day last_day
     = ([ErrorFetching "Azure" "OverflowError"], Returns []).
Proof.
  assert (H1 : calendar_date last_day).
  { unfold calendar_date, last_day. cbn [year month day days_in_month].
    unfold MAXYEAR. lia. }
  split; [exact H1|].
  exact (proj1 (@generated_data_lost_at_end_of_calendar float binary64 (fun _ => 7%Z)
                  last_day last_day H1 eq_refl eq_refl eq_refl (Nat.le_refl _))).
Defined.

(** ** The report *)

Section ReportFacts.
Context {F : Type}.

Lemma collect_spec (analyzers : list (string * Adapter F)) (start_date end_date : datetime) :
  forall (all_cost_data : list (CostData F)) (log : list LogRecord),
    collect analyzers start_date end_date all_cost_data log
    = (all_cost_data
       ++ flat_map (fun entry => delivered (snd (snd entry start_date end_date))) analyzers,
       log ++ flat_map (log_of start_date end_date) analyzers).
Proof.
  induction analyzers as [|[provider analyzer] analyzers IH]; intros all_cost_data log.
  - simpl. now rewrite !app_nil_r.
  - cbn [collect flat_map]. unfold log_of at 1. cbn [fst snd].
    destruct (analyzer start_date end_date) as [written [cost_data|exception]];
      rewrite IH; cbn [fst snd delivered].
    + now rewrite <- !app_assoc.
    + now rewrite <- !app_assoc.
Qed.

Lemma to_frame_app {num : Number F} (l1 l2 : list (CostData F)) :
  to_frame (l1 ++ l2) = to_frame l1 ++ to_frame l2.
Proof. unfold to_frame. apply map_app. Qed.

Lemma generate_cost_report_spec (analyzers : list (string * Adapter F)) (now : datetime)
      (days_back : Z) :
  generate_cost_report analyzers now days_back
  = (start_date <- minus_days now days_back ;;
     Returns (to_frame (flat_map (fun entry => delivered (snd (snd entry start_date now)))
                                 analyzers),
              flat_map (log_of start_date now) analyzers)).
Proof.
  unfold generate_cost_report, bind.
  destruct (minus_days now days_back) as [start_date|e]; [|reflexivity].
  now rewrite collect_spec.
Qed.
End ReportFacts.

(** The DataFrame of a report holds the records that the adapters
    delivered, adapter after adapter in the order of [self.analyzers] and,
    within an adapter, in the order in which it returned them; each row
    carries the date, provider, service, cost and currency of its record.
    An adapter that raises adds no row, and takes none away: the report is
    the one that would be made without that adapter.  The log holds, for
    each adapter in turn, what the adapter logged and then the number of
    records retrieved or the failure. *)
Theorem report_is_what_the_adapters_deliver :
  forall (F : Type) (analyzers : list (string * Adapter F)) (now : datetime)
         (days_back : Z) (df : DataFrame F) (log : list LogRecord),
    generate_cost_report analyzers now days_back = Returns (df, log) ->
    exists start_date : datetime,
      minus_days now days_back = Returns start_date
      /\ df = to_frame (flat_map (fun entry => delivered (snd (snd entry start_date now)))
                                 analyzers)
      /\ log = flat_map (log_of start_date now) analyzers
      /\ forall before name failing after exception,
          analyzers = before ++ (name, failing) :: after ->
          snd (failing start_date now) = Raises exception ->
          exists log',
            generate_cost_report (before ++ after) now days_back = Returns (df, log').
Proof.
  intros F analyzers now days_back df log Hrep.
  rewrite generate_cost_report_spec in Hrep. unfold bind in Hrep.
  destruct (minus_days now days_back) as [start_date|e] eqn:Hstart; [|discriminate].
  inversion Hrep as [[Hdf Hlog]]. clear Hrep.
  exists start_date. split; [reflexivity|]. split; [reflexivity|]. split; [reflexivity|].
  intros before name failing after exception Han Hfail.
  rewrite generate_cost_report_spec, Hstart. unfold bind.
  eexists. f_equal. f_equal. subst analyzers.
  rewrite !flat_map_app. cbn [flat_map snd]. rewrite Hfail. reflexivity.
Qed.

Lemma report_is_what_the_adapters_deliver_witness :
  exists (df : DataFrame float) (log log' : list LogRecord),
    generate_cost_report
      [("base", CloudCostAnalyzer_get_cost_data);
       ("azure", AzureCostAnalyzer_get_cost_data (fun _ => 7%Z))] (jan 3) 2
    = Returns (df, log)
    /\ generate_cost_report
         [("azure", @AzureCostAnalyzer_get_cost_data float binary64 (fun _ => 7%Z))]
         (jan 3) 2
       = Returns (df, log').
Proof.
  eexists. eexists.
  assert (Hrep : generate_cost_report
                   [("base", CloudCostAnalyzer_get_cost_data);
                    ("azure", @AzureCostAnalyzer_get_cost_data float binary64
                                (fun _ => 7%Z))] (jan 3) 2
                 = Returns (to_frame
                              (delivered
                                 (snd (@AzureCostAnalyzer_get_cost_data float binary64
                                         (fun _ => 7%Z) (jan 1) (jan 3)))),
                            [FailedToGetData "base" "NotImplementedError";
                             Retrieved 12 "azure"])).
  { vm_compute. reflexivity. }
  destruct (report_is_what_the_adapters_deliver _ _ _ Hrep)
    as [start_date [Hstart [_ [_ Hskip]]]].
  destruct (Hskip [] "base" CloudCostAnalyzer_get_cost_data
                  [("azure", @AzureCostAnalyzer_get_cost_data float binary64
                               (fun _ => 7%Z))]
                  "NotImplementedError" eq_refl eq_refl) as [log' Hrep'].
  exists log'. split; [exact Hrep|exact Hrep'].
Defined.

Lemma flat_map_nil {A B} (f : A -> list B) (l : list A) :
  (forall a, In a l -> f a = []) -> flat_map f l = [].
Proof.
  induction l as [|a l IH]; intros Hall; [reflexivity|].
  cbn [flat_map]. rewrite (Hall a) by now left.
  apply IH. intros a' Hin. apply Hall. now right.
Qed.

(** A report is empty exactly when no adapter delivered a record, and then
    the three analyses give their no-data results. *)
Theorem no_data_when_no_adapter_delivers :
  forall (F : Type) (num : Number F) (fmt : Formatter F)
         (analyzers : list (string * Adapter F)) (now : datetime) (days_back : Z)
         (df : DataFrame F) (log : list LogRecord) (threshold : F),
    generate_cost_report analyzers now days_back = Returns (df, log) ->
    exists start_date : datetime,
      minus_days now days_back = Returns start_date
      /\ (df = [] <-> forall entry, In entry analyzers ->
                        delivered (snd (snd entry start_date now)) = [])
      /\ (df = [] ->
          get_cost_summary df = @SummaryError F "No cost data available"
          /\ detect_anomalies df threshold = []
          /\ generate_recommendations df = Returns [no_data_message]).
Proof.
  intros F num fmt analyzers now days_back df log threshold Hrep.
  rewrite generate_cost_report_spec in Hrep. unfold bind in Hrep.
  destruct (minus_days now days_back) as [start_date|e] eqn:Hstart; [|discriminate].
  inversion Hrep as [[Hdf Hlog]]. clear Hrep.
  exists start_date. split; [reflexivity|]. split.
  - unfold to_frame. split.
    + intros Hnil. apply map_eq_nil in Hnil.
      intros entry Hin.
      destruct (delivered (snd (snd entry start_date now))) as [|c cs] eqn:E;
        [reflexivity|].
      assert (Hc : In c (flat_map (fun entry => delivered (snd (snd entry start_date now)))
                                  analyzers)).
      { apply in_flat_map. exists entry. split; [assumption|].
        cbv beta. unfold Adapter in *. rewrite E. now left. }
      rewrite Hnil in Hc. contradiction.
    + intros Hall. rewrite flat_map_nil; [reflexivity|exact Hall].
  - intros Hnil. rewrite Hnil. repeat split.
Qed.

Lemma no_data_when_no_adapter_delivers_witness :
  exists log : list LogRecord,
    generate_cost_report [("base", @CloudCostAnalyzer_get_cost_data float)] (jan 3) 2
    = Returns ([], log)
    /\ generate_recommendations (@nil (Row float)) = Returns [no_data_message].
Proof.
  eexists.
  assert (Hrep : generate_cost_report [("base", @CloudCostAnalyzer_get_cost_data float)]
                                      (jan 3) 2
                 = Returns ([], [FailedToGetData "base" "NotImplementedError"]))
    by (vm_compute; reflexivity).
  split; [exact Hrep|].
  destruct (@no_data_when_no_adapter_delivers float binary64 float_Formatter
              _ _ _ _ _ 0%float Hrep) as [start_date [_ [_ Hnone]]].
  exact (proj2 (proj2 (Hnone eq_refl))).
Defined.

(** ** The AWS adapter *)

Lemma digit_value_bound (c : ascii) (x : nat) : digit_value c = Some x -> x <= 9.
Proof.
  unfold digit_value. destruct (_ && _) eqn:E; [|discriminate].
  apply andb_true_iff in E. destruct E as [_ E]. apply Nat.leb_le in E.
  intros H. inversion H. lia.
Qed.

Lemma parse_month_bounds (s : string) (m : nat) : parse_month s = Some m -> 1 <= m <= 12.
Proof.
  unfold parse_month. destruct s as [|a [|b [|c s]]]; try discriminate.
  - destruct (digit_value a) as [x|] eqn:Ea; [|discriminate].
    apply digit_value_bound in Ea.
    destruct (1 <=? x) eqn:E; [|discriminate].
    apply Nat.leb_le in E. intros H. inversion H. lia.
  - destruct (digit_value a) as [[|[|x]]|] eqn:Ea; try discriminate;
      destruct (digit_value b) as [y|] eqn:Eb; try discriminate;
      apply digit_value_bound in Eb.
    + destruct (1 <=? y) eqn:E; [|discriminate].
      apply Nat.leb_le in E. intros H. inversion H. lia.
    + destruct (y <=? 2) eqn:E; [|discriminate].
      apply Nat.leb_le in E. intros H. inversion H. lia.
Qed.

Lemma parse_day_positive (s : string) (d : nat) : parse_day s = Some d -> 1 <= d.
Proof.
  unfold parse_day. destruct s as [|a [|b [|c s]]]; try discriminate.
  - destruct (digit_value a) as [x|]; [|discriminate].
    destruct (1 <=? x) eqn:E; [|discriminate].
    apply Nat.leb_le in E. intros H. inversion H. lia.
  - destruct (Ascii.eqb a " ").
    + destruct (digit_value b) as [y|]; [|discriminate].
      destruct (1 <=? y) eqn:E; [|discriminate].
      apply Nat.leb_le in E. intros H. inversion H. lia.
    + destruct (digit_value a) as [[|[|[|[|x]]]]|]; try discriminate;
        destruct (digit_value b) as [y|]; try discriminate.
      * destruct (1 <=? y) eqn:E; [|discriminate].
        apply Nat.leb_le in E. intros H. inversion H. lia.
      * intros H. inversion H. lia.
      * intros H. inversion H. lia.
      * destruct (y <=? 1); [|discriminate]. intros H. inversion H. lia.
Qed.

(** [strptime] returns days of the calendar, at midnight. *)
Lemma strptime_calendar (s : string) (d : datetime) :
  strptime s = Returns d -> calendar_date d /\ time_of_day d = 0.
Proof.
  unfold strptime.
  destruct s as [|y1 [|y2 [|y3 [|y4 [|dash rest]]]]]; try discriminate.
  destruct (digit_value y1) as [a|] eqn:E1; [|discriminate].
  destruct (digit_value y2) as [b|] eqn:E2; [|discriminate].
  destruct (digit_value y3) as [c|] eqn:E3; [|discriminate].
  destruct (digit_value y4) as [e|] eqn:E4; [|discriminate].
  destruct (split_dash rest) as [[m dd]|]; [|discriminate].
  destruct (parse_month m) as [mm|] eqn:Em; [|discriminate].
  destruct (parse_day dd) as [ddd|] eqn:Ed; [|discriminate].
  cbv zeta. destruct (_ && _) eqn:E; [|discriminate].
  apply andb_true_iff in E. destruct E as [E Hdim].
  apply andb_true_iff in E. destruct E as [_ Hy].
  apply Nat.leb_le in Hdim, Hy.
  apply digit_value_bound in E1, E2, E3, E4.
  apply parse_month_bounds in Em. apply parse_day_positive in Ed.
  intros H.
  assert (Hd : d = mk_datetime (1000 * a + 100 * b + 10 * c + e) mm ddd 0) by congruence.
  subst d. unfold calendar_date, MAXYEAR. cbn [year month day time_of_day].
  repeat split; lia.
Qed.

Section AwsFacts.
Context {F : Type} {num : Number F}.
Variable float_of_string : string -> Result F.

Lemma aws_cost_data_from_aws (date : datetime) (group : Group) (c : CostData F) :
  calendar_date date -> time_of_day date = 0 ->
  aws_cost_data float_of_string date group = Returns c -> from_aws c.
Proof.
  intros Hcal Ht. unfold aws_cost_data, bind.
  destruct (getitem (Keys group)) as [keys|]; [|discriminate].
  destruct keys as [|key keys]; [discriminate|].
  destruct (getitem (Metrics group)) as [metrics|]; [|discriminate].
  destruct (getitem (metric "BlendedCost" metrics)) as [blended|]; [|discriminate].
  destruct (getitem (Amount blended)) as [amount|]; [|discriminate].
  destruct (float_of_string amount) as [cost|]; [|discriminate].
  destruct (getitem (Unit blended)) as [currency|]; [|discriminate].
  intros H. inversion H; subst c. unfold from_aws. cbn. auto.
Qed.

Lemma aws_groups_spec (date : datetime) (groups : list Group) :
  calendar_date date -> time_of_day date = 0 ->
  forall (cost_data recs : list (CostData F)),
    aws_groups float_of_string date groups cost_data = Returns recs ->
    exists new, recs = cost_data ++ new
                /\ List.length new = List.length groups
                /\ Forall from_aws new.
Proof.
  intros Hcal Ht. induction groups as [|group groups IH]; intros cost_data recs H.
  - simpl in H. inversion H; subst. exists []. rewrite app_nil_r. auto.
  - cbn [aws_groups] in H. unfold bind in H.
    destruct (aws_cost_data float_of_string date group) as [item|] eqn:E; [|discriminate].
    destruct (IH _ _ H) as [new [Hrecs [Hlen Hall]]].
    exists (item :: new). rewrite Hrecs, <- app_assoc. split; [reflexivity|].
    split; [simpl; now rewrite Hlen|].
    constructor; [|assumption]. now apply aws_cost_data_from_aws with (date := date) (group := group).
Qed.

Lemma aws_results_spec (results : list ResultByTime) :
  forall (cost_data recs : list (CostData F)),
    aws_results float_of_string results cost_data = Returns recs ->
    exists new, recs = cost_data ++ new
                /\ List.length new = number_of_groups results
                /\ Forall from_aws new.
Proof.
  unfold number_of_groups.
  induction results as [|result results IH]; intros cost_data recs H.
  - simpl in H. inversion H; subst. exists []. rewrite app_nil_r. auto.
  - cbn [aws_results] in H. unfold bind in H.
    destruct (getitem (TimePeriod result)) as [period|]; [|discriminate].
    destruct (getitem (Start period)) as [start|]; [|discriminate].
    destruct (strptime start) as [date|] eqn:Edate; [|discriminate].
    destruct (Groups result) as [groups|] eqn:Eg; [|discriminate].
    cbn [getitem] in H.
    destruct (aws_groups float_of_string date groups cost_data) as [cost_data'|] eqn:E;
      [|discriminate].
    destruct (strptime_calendar _ Edate) as [Hcal Ht].
    destruct (aws_groups_spec _ Hcal Ht _ E) as [new1 [Hr1 [Hl1 Ha1]]].
    destruct (IH _ _ H) as [new2 [Hr2 [Hl2 Ha2]]].
    exists (new1 ++ new2). rewrite Hr2, Hr1, <- app_assoc. split; [reflexivity|].
    cbn [flat_map]. rewrite Eg, !length_app, Hl1, Hl2.
    split; [reflexivity|]. now apply Forall_app.
Qed.
End AwsFacts.

Lemma aws_all_or_nothing :
  forall (F : Type) (float_of_string : string -> Result F)
         (client : string -> string -> Result Response)
         (start_date end_date : datetime),
    let outcome := AWSCostAnalyzer_get_cost_data float_of_string client
                                                 start_date end_date in
    (exists exception, outcome = ([ErrorFetching "AWS" exception], Returns []))
    \/ (exists response results recs,
           client (strftime start_date) (strftime end_date) = Returns response
           /\ ResultsByTime response = Some results
           /\ outcome = ([], Returns recs)
           /\ List.length recs = number_of_groups results
           /\ Forall (@from_aws F) recs).
Proof.
  intros F float_of_string client start_date end_date outcome.
  unfold outcome, AWSCostAnalyzer_get_cost_data, bind.
  destruct (client (strftime start_date) (strftime end_date)) as [response|e];
    [|left; eauto].
  destruct (ResultsByTime response) as [results|] eqn:Eres; cbn [getitem];
    [|left; eauto].
  destruct (aws_results float_of_string results []) as [recs|e] eqn:E; [|left; eauto].
  right. exists response, results, recs.
  destruct (aws_results_spec _ _ _ E) as [new [Hrecs [Hlen Hall]]].
  simpl in Hrecs. subst new. auto.
Qed.

(** The AWS adapter never raises, and it returns all or nothing.  Either
    something failed (the call of the API, a missing key, an empty list of
    keys, a date or an amount that does not parse): then the error is
    logged and no record is returned, whatever had been read before.  Or
    nothing is logged and there is one record for every group of every
    result of the response, each marked AWS and dated at midnight of a day
    of the calendar. *)
Theorem aws_adapter_returns_all_or_nothing :
  forall (F : Type) (float_of_string : string -> Result F)
         (client : string -> string -> Result Response)
         (start_date end_date : datetime),
    let outcome := AWSCostAnalyzer_get_cost_data float_of_string client
                                                 start_date end_date in
    (exists exception, outcome = ([ErrorFetching "AWS" exception], Returns []))
    \/ (exists response results recs,
           client (strftime start_date) (strftime end_date) = Returns response
           /\ ResultsByTime response = Some results
           /\ outcome = ([], Returns recs)
           /\ List.length recs = number_of_groups results
           /\ Forall (@from_aws F) recs).
Proof. exact aws_all_or_nothing. Qed.

(** ** Dates written and read back *)

Lemma digit_value_digit (n : nat) : digit_value (digit n) = Some (n mod 10).
Proof.
  unfold digit, digit_value.
  pose proof (Nat.mod_upper_bound n 10 ltac:(lia)) as Hlt.
  rewrite nat_ascii_embedding by lia. cbv zeta.
  replace (48 <=? 48 + n mod 10) with true by (symmetry; apply Nat.leb_le; lia).
  replace (48 + n mod 10 <=? 57) with true by (symmetry; apply Nat.leb_le; lia).
  cbn [andb]. f_equal. lia.
Qed.

Lemma digit_not_dash (n : nat) : Ascii.eqb (digit n) "-" = false.
Proof.
  unfold digit. pose proof (Nat.mod_upper_bound n 10 ltac:(lia)) as Hlt.
  destruct (n mod 10) as [|k]; [reflexivity|].
  do 9 (destruct k as [|k]; [reflexivity|]). lia.
Qed.

Lemma digit_not_space (n : nat) : Ascii.eqb (digit n) " " = false.
Proof.
  unfold digit. pose proof (Nat.mod_upper_bound n 10 ltac:(lia)) as Hlt.
  destruct (n mod 10) as [|k]; [reflexivity|].
  do 9 (destruct k as [|k]; [reflexivity|]). lia.
Qed.

Lemma parse_month_pad2 (m : nat) : 1 <= m <= 12 -> parse_month (pad2 m) = Some m.
Proof.
  intros Hm. destruct m as [|m]; [lia|].
  do 12 (destruct m as [|m]; [reflexivity|]). lia.
Qed.

Lemma parse_day_pad2 (d : nat) : 1 <= d <= 31 -> parse_day (pad2 d) = Some d.
Proof.
  intros Hd. destruct d as [|d]; [lia|].
  do 31 (destruct d as [|d]; [reflexivity|]). lia.
Qed.

Lemma four_digits (y : nat) :
  y < 100 * 100 ->
  1000 * ((y / 1000) mod 10) + 100 * ((y / 100) mod 10) + 10 * ((y / 10) mod 10) + y mod 10
  = y.
Proof.
  intros Hy.
  pose proof (Nat.div_mod_eq y 10). pose proof (Nat.mod_upper_bound y 10).
  pose proof (Nat.div_mod_eq (y / 10) 10). pose proof (Nat.mod_upper_bound (y / 10) 10).
  pose proof (Nat.div_mod_eq (y / 100) 10). pose proof (Nat.mod_upper_bound (y / 100) 10).
  pose proof (Nat.div_mod_eq (y / 1000) 10). pose proof (Nat.mod_upper_bound (y / 1000) 10).
  assert (y / 10 / 10 = y / 100) by (rewrite Nat.Div0.div_div; reflexivity).
  assert (y / 100 / 10 = y / 1000) by (rewrite Nat.Div0.div_div; reflexivity).
  assert (y / 1000 < 10) by (apply Nat.Div0.div_lt_upper_bound; lia).
  assert ((y / 1000) / 10 = 0) by (apply Nat.div_small; lia).
  lia.
Qed.

Lemma strftime_round_trip (d : datetime) :
  calendar_date d ->
  1000 <= year d ->
  strptime (strftime d) = Returns (mk_datetime (year d) (month d) (day d) 0).
Proof.
  intros (Hy & Hm & Hd) Hy4.
  pose proof (days_in_month_bounds (year d) (month d)) as Hdim.
  unfold strftime, pad4. cbn [append]. unfold strptime.
  rewrite !digit_value_digit.
  unfold pad2 at 1. cbn [append].
  unfold pad2 at 1. cbn [append split_dash].
  rewrite !digit_not_dash.
  change (Ascii.eqb "-" "-") with true. cbv beta iota zeta.
  change (String (digit (month d / 10)) (String (digit (month d)) EmptyString))
    with (pad2 (month d)).
  rewrite parse_month_pad2, parse_day_pad2 by lia.
  rewrite !digit_value_digit.
  cbv beta iota zeta. rewrite four_digits by (unfold MAXYEAR in Hy; lia).
  replace (1 <=? year d) with true by (symmetry; apply Nat.leb_le; lia).
  replace (day d <=? days_in_month (year d) (month d)) with true
    by (symmetry; apply Nat.leb_le; lia).
  reflexivity.
Qed.

(** [strptime] reads back the day that [strftime] wrote, at midnight:
    the dates that the AWS adapter sends in its request and the dates it
    finds in the response are written the same way. *)
Theorem strptime_reads_what_strftime_writes :
  forall d : datetime,
    calendar_date d ->
    1000 <= year d ->
    strptime (strftime d) = Returns (mk_datetime (year d) (month d) (day d) 0).
Proof. exact strftime_round_trip. Qed.

Lemma strptime_reads_what_strftime_writes_witness :
  calendar_date (mk_datetime 2024 2 29 4711)
  /\ 1000 <= 2024
  /\ strptime "2024-02-29" = Returns (mk_datetime 2024 2 29 0).
Proof.
  assert (H1 : calendar_date (mk_datetime 2024 2 29 4711)).
  { unfold calendar_date, MAXYEAR. cbn [year month day].
    change (days_in_month 2024 2) with 29. lia. }
  assert (H2 : 1000 <= 2024) by lia.
  split; [exact H1|]. split; [exact H2|].
  exact (strptime_reads_what_strftime_writes H1 H2).
Defined.

(** ** A well-formed response *)

Section AwsComplete.
Context {F : Type}.
Variable float_of_string : string -> Result F.
Variable parsed : string -> F.

Lemma aws_groups_complete (date d : datetime) (items : list (string * (string * string))) :
  date = mk_datetime (year d) (month d) (day d) 0 ->
  (forall item, In item items ->
                float_of_string (fst (snd item)) = Returns (parsed (fst (snd item)))) ->
  forall cost_data,
    aws_groups float_of_string date (map aws_group items) cost_data
    = Returns (cost_data ++ map (aws_record parsed d) items).
Proof.
  intros Hdate. induction items as [|item items IH]; intros Hparse cost_data.
  - simpl. now rewrite app_nil_r.
  - cbn [map aws_groups]. unfold aws_cost_data, bind, aws_group at 1 2.
    cbn [Keys Metrics getitem metric find fst snd String.eqb Ascii.eqb Bool.eqb Amount Unit].
    rewrite (Hparse item) by now left.
    rewrite IH by (intros item' Hin; apply Hparse; now right).
    rewrite <- app_assoc. unfold aws_record at 2. now rewrite Hdate.
Qed.

Lemma aws_results_complete (data : list (datetime * list (string * (string * string)))) :
  (forall entry, In entry data -> calendar_date (fst entry) /\ 1000 <= year (fst entry)) ->
  (forall entry item, In entry data -> In item (snd entry) ->
                      float_of_string (fst (snd item)) = Returns (parsed (fst (snd item)))) ->
  forall cost_data,
    aws_results float_of_string (map aws_result data) cost_data
    = Returns (cost_data
               ++ flat_map (fun entry => map (aws_record parsed (fst entry)) (snd entry))
                           data).
Proof.
  induction data as [|entry data IH]; intros Hdates Hparse cost_data.
  - simpl. now rewrite app_nil_r.
  - cbn [map aws_results flat_map]. unfold bind, aws_result at 1 2 3.
    cbn [TimePeriod Start Groups getitem].
    destruct (Hdates entry (or_introl eq_refl)) as [Hcal Hy].
    rewrite (strftime_round_trip Hcal Hy).
    rewrite (@aws_groups_complete _ (fst entry) (snd entry) eq_refl)
      by (intros item Hin; apply (Hparse entry); [now left|assumption]).
    rewrite IH.
    + now rewrite <- app_assoc.
    + intros entry' Hin. apply Hdates. now right.
    + intros entry' item Hin. apply Hparse. now right.
Qed.
End AwsComplete.

(** A response in which every result carries its [Start] date, written as
    [strftime] writes it, and every group carries a key and a
    [BlendedCost] with an amount that [float] accepts and a unit, is read
    completely: the adapter logs nothing and returns one record for each
    group, in the order of the response, with the first key as service, the
    amount as cost, the unit as currency, and midnight of the result's day
    as date. *)
Theorem aws_adapter_reads_every_group :
  forall (F : Type) (float_of_string : string -> Result F) (parsed : string -> F)
         (client : string -> string -> Result Response)
         (start_date end_date : datetime)
         (data : list (datetime * list (string * (string * string)))),
    client (strftime start_date) (strftime end_date) = Returns (aws_response data) ->
    (forall entry, In entry data -> calendar_date (fst entry) /\ 1000 <= year (fst entry)) ->
    (forall entry item, In entry data -> In item (snd entry) ->
        float_of_string (fst (snd item)) = Returns (parsed (fst (snd item)))) ->
    AWSCostAnalyzer_get_cost_data float_of_string client start_date end_date
    = ([], Returns (flat_map (fun entry => map (aws_record parsed (fst entry)) (snd entry))
                             data)).
Proof.
  intros F float_of_string parsed client start_date end_date data Hclient Hdates Hparse.
  unfold AWSCostAnalyzer_get_cost_data, bind. rewrite Hclient.
  unfold aws_response. cbn [ResultsByTime getitem].
  now rewrite (aws_results_complete _ _ _ Hdates Hparse).
Qed.

Lemma aws_adapter_reads_every_group_witness :
  AWSCostAnalyzer_get_cost_data sample_float (fun _ _ => Returns (aws_response sample_data))
                                (jan 1) (jan 6)
  = ([], Returns [ aws_record sample_parsed (jan 5) ("Amazon EC2", ("12.5", "USD"));
                   aws_record sample_parsed (jan 5) ("Amazon S3", ("0.25", "USD")) ]).
Proof.
  apply (@aws_adapter_reads_every_group float sample_float sample_parsed
           (fun _ _ => Returns (aws_response sample_data)) (jan 1) (jan 6) sample_data
           eq_refl).
  - intros entry [<-|[]]. split.
    + unfold calendar_date, MAXYEAR, jan. cbn [fst year month day days_in_month]. lia.
    + unfold jan. cbn [fst year]. lia.
  - intros entry item [<-|[]] [<-|[<-|[]]]; reflexivity.
Defined.

(** ** The report of the three adapters *)

Lemma default_report :
  forall (F : Type) (num : Number F) (float_of_string : string -> Result F)
         (hash : string -> Z) (client : string -> string -> Result Response)
         (now start_date : datetime) (k : nat),
    calendar_date now ->
    year now < MAXYEAR ->
    sub_days k now = Returns start_date ->
    let days := days_from (S k) start_date in
    let azure :=
      flat_map (fun d => map (@mock_cost_data F num hash "Azure" 50 100 d)
                             ["Compute"; "Storage"; "Networking"; "Database"]) days in
    let gcp :=
      flat_map (fun d => map (@mock_cost_data F num hash "GCP" 30 80 d)
                             ["Compute Engine"; "Cloud Storage"; "BigQuery"; "Cloud SQL"])
               days in
    exists (aws : list (CostData F)) (log : list LogRecord),
      generate_cost_report (analyzers_of float_of_string hash client) now (Z.of_nat k)
      = Returns (to_frame (aws ++ azure ++ gcp), log)
      /\ snd (AWSCostAnalyzer_get_cost_data float_of_string client start_date now)
         = Returns aws
      /\ Forall (@from_aws F) aws
      /\ List.length days = k + 1
      /\ List.length (to_frame (aws ++ azure ++ gcp)) = List.length aws + 8 * (k + 1).
Proof.
  intros F num float_of_string hash client now start_date k Hnow Hyear Hsub days azure gcp.
  destruct (add_sub_days _ Hnow Hsub) as [Hstart Hadd].
  destruct (@generated_window F num hash start_date now k Hstart Hadd Hyear)
    as (Hlen & Hazure & Hgcp & Hla & Hlg).
  fold days in Hlen, Hazure, Hgcp, Hla, Hlg. fold azure in Hazure, Hla. fold gcp in Hgcp, Hlg.
  assert (Haws : exists aws, snd (AWSCostAnalyzer_get_cost_data float_of_string client
                                    start_date now) = Returns aws
                             /\ Forall (@from_aws F) aws).
  { destruct (@aws_all_or_nothing F float_of_string client start_date now)
      as [[e He]|[response [results [recs [_ [_ [Hout [_ Hall]]]]]]]].
    - rewrite He. exists []. split; [reflexivity|constructor].
    - rewrite Hout. exists recs. split; [reflexivity|assumption]. }
  destruct Haws as [aws [Haws Hall]].
  exists aws. eexists.
  split; [|split; [|split; [|split]]].
  - rewrite generate_cost_report_spec. unfold minus_days.
    replace (0 <=? Z.of_nat k)%Z with true by (symmetry; apply Z.leb_le; lia).
    rewrite Nat2Z.id, Hsub. unfold bind, analyzers_of. cbn [flat_map snd].
    rewrite Haws, Hazure, Hgcp. cbn [snd delivered]. rewrite app_nil_r.
    reflexivity.
  - exact Haws.
  - exact Hall.
  - rewrite Hlen. lia.
  - unfold to_frame. rewrite length_map, !length_app, Hla, Hlg. lia.
Qed.

(** The report that [generate_cost_report(days_back=k)] makes with the
    three adapters of [MultiCloudCostAnalyzer], when the window of [k] days
    before [now] lies within the calendar: it is returned, and it holds
    the rows of AWS (each marked AWS and dated at midnight), then four
    Azure rows for each of the [k + 1] days from [now] minus [k] days to
    [now], then four GCP rows for each of these days. *)
Theorem default_report_holds_the_whole_window :
  forall (F : Type) (num : Number F) (float_of_string : string -> Result F)
         (hash : string -> Z) (client : string -> string -> Result Response)
         (now start_date : datetime) (k : nat),
    calendar_date now ->
    year now < MAXYEAR ->
    sub_days k now = Returns start_date ->
    let days := days_from (S k) start_date in
    let azure :=
      flat_map (fun d => map (@mock_cost_data F num hash "Azure" 50 100 d)
                             ["Compute"; "Storage"; "Networking"; "Database"]) days in
    let gcp :=
      flat_map (fun d => map (@mock_cost_data F num hash "GCP" 30 80 d)
                             ["Compute Engine"; "Cloud Storage"; "BigQuery"; "Cloud SQL"])
               days in
    exists (aws : list (CostData F)) (log : list LogRecord),
      generate_cost_report (analyzers_of float_of_string hash client) now (Z.of_nat k)
      = Returns (to_frame (aws ++ azure ++ gcp), log)
      /\ snd (AWSCostAnalyzer_get_cost_data float_of_string client start_date now)
         = Returns aws
      /\ Forall (@from_aws F) aws
      /\ List.length days = k + 1
      /\ List.length (to_frame (aws ++ azure ++ gcp)) = List.length aws + 8 * (k + 1).
Proof. exact default_report. Qed.

Lemma default_report_holds_the_whole_window_witness :
  exists (df : DataFrame float) (log : list LogRecord),
    generate_cost_report
      (analyzers_of (fun _ => Raises "ValueError") (fun _ => 7%Z)
                    (fun _ _ => Raises "NoCredentialsError")) (jan 3) (Z.of_nat 2)
    = Returns (df, log)
    /\ List.length df = 0 + 8 * (2 + 1).
Proof.
  assert (H1 : calendar_date (jan 3)).
  { unfold calendar_date, MAXYEAR, jan. cbn [year month day days_in_month]. lia. }
  assert (H2 : year (jan 3) < MAXYEAR) by (unfold MAXYEAR, jan; cbn [year]; lia).
  assert (H3 : sub_days 2 (jan 3) = Returns (jan 1)) by (vm_compute; reflexivity).
  destruct (@default_report_holds_the_whole_window float binary64
              (fun _ => Raises "ValueError") (fun _ => 7%Z)
              (fun _ _ => Raises "NoCredentialsError") (jan 3) (jan 1) 2 H1 H2 H3)
    as [aws [log (Hrep & Haws & _ & _ & Hlen)]].
  assert (Hnil : aws = []).
  { cbv in Haws. congruence. }
  subst aws.
  eexists. exists log. split; [exact Hrep | exact Hlen].
Defined.

(** ** A run with the generated data only *)

Lemma days_from_window (k : nat) :
  forall d d' : datetime,
    add_days k d = Returns d' ->
    In d (days_from (S k) d)
    /\ In d' (days_from (S k) d)
    /\ forall y, In y (days_from (S k) d) ->
                 key_ltb y d = false /\ key_ltb d' y = false.
Proof.
  induction k as [|k IH]; intros d d' Hadd.
  - simpl in Hadd. inversion Hadd; subst d'. cbn [days_from].
    assert (Hl : forall y, In y (d :: match next_day d with
                                      | Returns _ => []
                                      | Raises _ => []
                                      end) -> y = d).
    { intros y [<-|Hy]; [reflexivity|]. destruct (next_day d); contradiction. }
    split; [now left|]. split; [now left|].
    intros y Hy. rewrite (Hl y Hy). split; apply key_ltb_irrefl.
  - cbn [add_days] in Hadd. unfold bind in Hadd.
    destruct (next_day d) as [d1|e] eqn:E; [|discriminate].
    change (days_from (S (S k)) d)
      with (d :: match next_day d with
                 | Returns tomorrow => days_from (S k) tomorrow
                 | Raises _ => []
                 end).
    rewrite E. destruct (IH d1 d' Hadd) as (H1 & H2 & H3).
    pose proof (next_day_later _ E) as Hlater.
    split; [now left|]. split; [now right|].
    intros y [<-|Hy].
    + split; [apply key_ltb_irrefl|].
      apply key_ltb_negtrans with (y := d1).
      * now apply key_ltb_asym.
      * apply (H3 d1 H1).
    + destruct (H3 y Hy) as [Hy1 Hy2]. split; [|assumption].
      apply key_ltb_negtrans with (y := d1); [|assumption].
      now apply key_ltb_asym.
Qed.

Section GeneratedRows.
Context {F : Type} {num : Number F}.
Variable hash : string -> Z.

Lemma In_generated_rows (days : list datetime) (r : Row F) :
  In r (generated_rows hash days) <->
  exists d, In d days
            /\ ((exists s, In s ["Compute"; "Storage"; "Networking"; "Database"]
                           /\ r = {| date := d; cloud_provider := "Azure"; service := s;
                                     cost := cd_cost (@mock_cost_data F num hash "Azure"
                                                                      50 100 d s);
                                     currency := "USD" |})
                \/ (exists s, In s ["Compute Engine"; "Cloud Storage"; "BigQuery";
                                    "Cloud SQL"]
                              /\ r = {| date := d; cloud_provider := "GCP"; service := s;
                                        cost := cd_cost (@mock_cost_data F num hash "GCP"
                                                                         30 80 d s);
                                        currency := "USD" |})).
Proof.
  unfold generated_rows, to_frame. rewrite in_map_iff. split.
  - intros [c [Hr Hc]]. apply in_app_or in Hc. destruct Hc as [Hc|Hc];
      apply in_flat_map in Hc; destruct Hc as [d [Hd Hc]];
      apply in_map_iff in Hc; destruct Hc as [s [Hs Hin]];
      exists d; (split; [exact Hd|]); subst c r; [left|right]; exists s; auto.
  - intros [d [Hd [[s [Hs ->]]|[s [Hs ->]]]]].
    + exists (mock_cost_data hash "Azure" 50 100 d s). split; [reflexivity|].
      apply in_or_app. left. apply in_flat_map. exists d. split; [assumption|].
      now apply in_map.
    + exists (mock_cost_data hash "GCP" 30 80 d s). split; [reflexivity|].
      apply in_or_app. right. apply in_flat_map. exists d. split; [assumption|].
      now apply in_map.
Qed.

Lemma generated_dates (days : list datetime) (y : datetime) :
  In y (map (@date F) (generated_rows hash days)) <-> In y days.
Proof.
  rewrite in_map_iff. split.
  - intros [r [Hy Hr]]. apply In_generated_rows in Hr.
    destruct Hr as [d [Hd [[s [_ ->]]|[s [_ ->]]]]]; simpl in Hy; now subst.
  - intros Hy. eexists. split; [|apply In_generated_rows; exists y; split;
                                   [exact Hy | left; exists "Compute"; split;
                                                [now left | reflexivity]]].
    reflexivity.
Qed.

Lemma generated_providers (days : list datetime) (p : string) :
  days <> [] ->
  In p (map (@cloud_provider F) (generated_rows hash days)) <-> In p ["Azure"; "GCP"].
Proof.
  intros Hne. rewrite in_map_iff. split.
  - intros [r [Hp Hr]]. apply In_generated_rows in Hr.
    destruct Hr as [d [Hd [[s [_ ->]]|[s [_ ->]]]]]; simpl in Hp; subst p; simpl; auto.
  - destruct days as [|d days]; [contradiction|].
    intros [<-|[<-|[]]].
    + eexists. split; [|apply In_generated_rows; exists d; split;
                         [now left | left; exists "Compute"; split;
                                     [now left | reflexivity]]].
      reflexivity.
    + eexists. split; [|apply In_generated_rows; exists d; split;
                         [now left | right; exists "BigQuery"; split;
                                     [simpl; tauto | reflexivity]]].
      reflexivity.
Qed.

Lemma generated_services (days : list datetime) (x : string) :
  days <> [] ->
  In x (map (@service F) (generated_rows hash days))
  <-> In x ["Compute"; "Storage"; "Networking"; "Database";
            "Compute Engine"; "Cloud Storage"; "BigQuery"; "Cloud SQL"].
Proof.
  intros Hne. rewrite in_map_iff. split.
  - intros [r [Hx Hr]]. apply In_generated_rows in Hr.
    destruct Hr as [d [Hd [[s [Hs ->]]|[s [Hs ->]]]]]; simpl in Hx; subst x;
      simpl in *; tauto.
  - destruct days as [|d days]; [contradiction|].
    intros Hx.
    assert (Hcases : In x ["Compute"; "Storage"; "Networking"; "Database"]
                     \/ In x ["Compute Engine"; "Cloud Storage"; "BigQuery"; "Cloud SQL"])
      by (simpl in *; tauto).
    destruct Hcases as [Hs|Hs].
    + eexists. split; [|apply In_generated_rows; exists d; split;
                         [now left | left; exists x; split; [exact Hs | reflexivity]]].
      reflexivity.
    + eexists. split; [|apply In_generated_rows; exists d; split;
                         [now left | right; exists x; split; [exact Hs | reflexivity]]].
      reflexivity.
Qed.
End GeneratedRows.

(** A run in which AWS delivers nothing (as when the call of the API
    fails) and the window of [k] days before [now] lies within the
    calendar: the report holds the [8 * (k + 1)] generated rows; the date
    range of its summary is the window, from [now] minus [k] days to
    [now]; the breakdown by provider has the two entries Azure and GCP, in
    this order; and the breakdown by service has all eight services. *)
Theorem summary_of_generated_report :
  forall (F : Type) (num : Number F) (float_of_string : string -> Result F)
         (hash : string -> Z) (client : string -> string -> Result Response)
         (now start_date : datetime) (k : nat),
    calendar_date now ->
    year now < MAXYEAR ->
    sub_days k now = Returns start_date ->
    snd (AWSCostAnalyzer_get_cost_data float_of_string client start_date now) = Returns [] ->
    exists (df : DataFrame F) (log : list LogRecord) (s : Summary F),
      generate_cost_report (analyzers_of float_of_string hash client) now (Z.of_nat k)
      = Returns (df, log)
      /\ df = generated_rows hash (days_from (S k) start_date)
      /\ List.length df = 8 * (k + 1)
      /\ get_cost_summary df = SummaryOk s
      /\ date_range_start s = strftime start_date
      /\ date_range_end s = strftime now
      /\ map fst (cost_by_provider s) = ["Azure"; "GCP"]
      /\ List.length (cost_by_service s) = 8.
Proof.
  intros F num float_of_string hash client now start_date k Hnow Hyear Hsub Haws.
  destruct (@default_report F num float_of_string hash client now start_date k
              Hnow Hyear Hsub) as [aws [log (Hrep & Haws' & _ & Hdays & Hlen)]].
  rewrite Haws in Haws'. inversion Haws'; subst aws; clear Haws'.
  cbn [app List.length] in Hrep, Hlen.
  fold (@generated_rows F num hash (days_from (S k) start_date)) in Hrep, Hlen.
  set (days := days_from (S k) start_date) in *.
  set (df := generated_rows hash days) in *.
  destruct (add_sub_days _ Hnow Hsub) as [Hstart Hadd].
  destruct (days_from_window _ _ Hadd) as (Hfirst & Hlast & Hwin). fold days in Hfirst, Hlast, Hwin.
  assert (Hne : days <> []) by (intros E; rewrite E in Hfirst; contradiction).
  destruct df as [|r rest] eqn:Edf.
  { simpl in Hlen. lia. }
  rewrite <- Edf in *.
  exists df, log. eexists.
  split; [exact Hrep|]. split; [reflexivity|]. split; [exact Hlen|].
  split; [rewrite Edf; reflexivity|].
  cbn [date_range_start date_range_end cost_by_provider cost_by_service].
  assert (Hdates : forall y, In y (date r :: map (@date F) rest) <-> In y days).
  { intros y. change (date r :: map (@date F) rest) with (map (@date F) (r :: rest)).
    rewrite <- Edf. apply generated_dates. }
  destruct (key_min_spec (date r) (map (@date F) rest)) as [Hmin Hle].
  destruct (key_max_spec (date r) (map (@date F) rest)) as [Hmax Hge].
  split; [|split; [|split]].
  - f_equal. apply (@least_unique _ _ _ (date r :: map (@date F) rest)); auto.
    + now apply Hdates.
    + intros y Hy. apply Hwin. now apply Hdates.
  - f_equal. apply (@greatest_unique _ _ _ (date r :: map (@date F) rest)); auto.
    + now apply Hdates.
    + intros y Hy. apply Hwin. now apply Hdates.
  - rewrite <- Edf, groupby_sum_labels.
    rewrite (@group_keys_ext _ _ _ _ ["Azure"; "GCP"]); [reflexivity|].
    intros p. now apply generated_providers.
  - rewrite <- Edf, length_top_services.
    rewrite (@group_keys_ext _ _ _ _ ["Compute"; "Storage"; "Networking"; "Database";
                                      "Compute Engine"; "Cloud Storage"; "BigQuery";
                                      "Cloud SQL"]); [reflexivity|].
    intros x. now apply generated_services.
Qed.

(** ** The recommendations of a run with the generated data only *)

(** The whole numbers up to 149 are finite binary64 numbers. *)
Lemma small_float_finite (n : nat) :
  n <= 149 -> PrimFloat.is_infinity (float_of_nat n) = false.
Proof.
  intros Hn.
  do 150 (destruct n as [|n]; [vm_compute; reflexivity|]). lia.
Qed.

Lemma generated_rows_finite (hash : string -> Z) (days : list datetime) :
  no_infinite_cost (@generated_rows float binary64 hash days).
Proof.
  unfold no_infinite_cost. apply Forall_forall. intros r Hr.
  apply In_generated_rows in Hr.
  destruct Hr as [d [_ [[s [_ ->]]|[s [_ ->]]]]]; cbn [cost mock_cost_data cd_cost];
    apply small_float_finite.
  - pose proof (Z.mod_pos_bound (hash (s ++ str_datetime d)%string) 100 ltac:(lia)). lia.
  - pose proof (Z.mod_pos_bound (hash (s ++ str_datetime d)%string) 80 ltac:(lia)). lia.
Qed.

(** A run in which AWS delivers nothing and the window of [k] days before
    [now] lies within the calendar ends with four or five recommendations:
    the three costliest of the eight generated services, the line about
    the distribution over the two providers, and the cost-spike warning or
    not.  With fewer than seven days back there are exactly four. *)
Theorem recommendations_of_generated_report :
  forall (float_of_string : string -> Result float)
         (hash : string -> Z) (client : string -> string -> Result Response)
         (now start_date : datetime) (k : nat),
    calendar_date now ->
    year now < MAXYEAR ->
    sub_days k now = Returns start_date ->
    snd (AWSCostAnalyzer_get_cost_data float_of_string client start_date now) = Returns [] ->
    exists (df : DataFrame float) (log : list LogRecord) (recs provider_lines : list string),
      generate_cost_report (analyzers_of float_of_string hash client) now (Z.of_nat k)
      = Returns (df, log)
      /\ generate_recommendations df = Returns recs
      /\ recs = service_recommendations df ++ provider_lines ++ trend_recommendations df
      /\ List.length (service_recommendations df) = 3
      /\ List.length provider_lines = 1
      /\ 4 <= List.length recs <= 5
      /\ (k < 7 -> List.length recs = 4).
Proof.
  intros float_of_string hash client now start_date k Hnow Hyear Hsub Haws.
  destruct (@default_report float binary64 float_of_string hash client now start_date k
              Hnow Hyear Hsub) as [aws [log (Hrep & Haws' & _ & Hdays & Hlen)]].
  rewrite Haws in Haws'. inversion Haws'; subst aws; clear Haws'.
  cbn [app List.length] in Hrep, Hlen.
  fold (@generated_rows float binary64 hash (days_from (S k) start_date)) in Hrep, Hlen.
  set (days := days_from (S k) start_date) in *.
  set (df := generated_rows hash days) in *.
  assert (Hne : days <> []) by (intros E; rewrite E in Hdays; simpl in Hdays; lia).
  assert (Hdf : df <> []) by (intros E; rewrite E in Hlen; simpl in Hlen; lia).
  destruct (recommendations_return (generated_rows_finite hash days)) as [recs Hrecs].
  fold df in Hrecs.
  destruct (@recommendations_shape float binary64 float_Formatter df recs Hdf Hrecs)
    as [lines (Hsplit & Hsvc & Hlines & Htrend & _ & _)].
  assert (Hservices : List.length (group_keys (map (@service float) df)) = 8).
  { unfold df.
    rewrite (@group_keys_ext _ _ _ _ ["Compute"; "Storage"; "Networking"; "Database";
                                      "Compute Engine"; "Cloud Storage"; "BigQuery";
                                      "Cloud SQL"]); [reflexivity|].
    intros x. now apply generated_services. }
  assert (Hproviders : List.length (group_keys (map (@cloud_provider float) df)) = 2).
  { unfold df. rewrite (@group_keys_ext _ _ _ _ ["Azure"; "GCP"]); [reflexivity|].
    intros p. now apply generated_providers. }
  rewrite Hservices in Hsvc. rewrite Hproviders in Hlines.
  change (Nat.min 3 8) with 3 in Hsvc. change (1 <? 2) with true in Hlines.
  exists df, log, recs, lines.
  split; [exact Hrep|]. split; [exact Hrecs|]. split; [exact Hsplit|].
  split; [exact Hsvc|]. split; [exact Hlines|].
  split.
  - rewrite Hsplit, !length_app, Hsvc, Hlines. lia.
  - intros Hk. rewrite Hsplit, !length_app, Hsvc, Hlines.
    unfold trend_recommendations. rewrite length_groupby_sum.
    replace (7 <? _) with false; [reflexivity|].
    symmetry. apply Nat.ltb_ge.
    unfold df. rewrite (@group_keys_ext _ _ _ _ days) by (intros y; apply generated_dates).
    eapply Nat.le_trans; [apply length_group_keys_le|]. lia.
Qed.

Lemma summary_of_generated_report_witness :
  exists (df : DataFrame float) (log : list LogRecord) (s : Summary float),
    generate_cost_report
      (analyzers_of (fun _ => Raises "ValueError") (fun _ => 7%Z)
                    (fun _ _ => Raises "NoCredentialsError")) (jan 3) (Z.of_nat 2)
    = Returns (df, log)
    /\ get_cost_summary df = SummaryOk s
    /\ date_range_start s = "2024-01-01"
    /\ date_range_end s = "2024-01-03".
Proof.
  assert (H1 : calendar_date (jan 3)).
  { unfold calendar_date, MAXYEAR, jan. cbn [year month day days_in_month]. lia. }
  assert (H2 : year (jan 3) < MAXYEAR) by (unfold MAXYEAR, jan; cbn [year]; lia).
  assert (H3 : sub_days 2 (jan 3) = Returns (jan 1)) by (vm_compute; reflexivity).
  destruct (@summary_of_generated_report float binary64 (fun _ => Raises "ValueError")
              (fun _ => 7%Z) (fun _ _ => Raises "NoCredentialsError") (jan 3) (jan 1) 2
              H1 H2 H3 eq_refl)
    as [df [log [s (Hrep & _ & _ & Hs & Hstart & Hend & _)]]].
  exists df, log, s. split; [exact Hrep|]. split; [exact Hs|].
  split; [exact Hstart | exact Hend].
Defined.

Lemma recommendations_of_generated_report_witness :
  exists (df : DataFrame float) (log : list LogRecord) (recs : list string),
    generate_cost_report
      (analyzers_of (fun _ => Raises "ValueError") (fun _ => 7%Z)
                    (fun _ _ => Raises "NoCredentialsError")) (jan 3) (Z.of_nat 2)
    = Returns (df, log)
    /\ generate_recommendations df = Returns recs
    /\ List.length recs = 4.
Proof.
  assert (H1 : calendar_date (jan 3)).
  { unfold calendar_date, MAXYEAR, jan. cbn [year month day days_in_month]. lia. }
  assert (H2 : year (jan 3) < MAXYEAR) by (unfold MAXYEAR, jan; cbn [year]; lia).
  assert (H3 : sub_days 2 (jan 3) = Returns (jan 1)) by (vm_compute; reflexivity).
  destruct (@recommendations_of_generated_report (fun _ => Raises "ValueError")
              (fun _ => 7%Z) (fun _ _ => Raises "NoCredentialsError") (jan 3) (jan 1) 2
              H1 H2 H3 eq_refl)
    as [df [log [recs [lines (Hrep & Hrecs & _ & _ & _ & _ & Hfour)]]]].
  exists df, log, recs. split; [exact Hrep|]. split; [exact Hrecs|].
  apply Hfour. lia.
Defined.

(** ** What main shows *)


